(** * neutron-query-relayer: relay loop, transaction sender and balance proofer

    A shallow embedding of the Go sources

      - [internal/relay/relayer.go]      (package [relay])
      - [internal/submit/tx_sender.go]   (package [submit])
      - [proof_impl] [GetBalance]        (package [proof_impl])

    Go interfaces held in struct fields (Storage, TXQuerier, TXProcessor,
    KVProcessor, the Tendermint RPC client, the cosmos-sdk transaction
    factory) are records of functions; a Go result pair [(v, err)] of a
    function of the repository is a pair whose second component is
    [option error] ([None] is Go's [nil]).  The height store is threaded
    as explicit state together with a trace of the calls made on the
    collaborators, so that "was not called" is a statement about the code. *)

From Stdlib Require Import ZArith List String Ascii Bool Lia.
From Stdlib Require Import SpecFloat DecimalString QArith Qround Qpower.
From stdpp Require Import base gmap.

Import ListNotations.
Local Open Scope string_scope.
Local Open Scope list_scope.
Local Open Scope Z_scope.

(* ===================================================================== *)
(** * Go values shared by the packages                                     *)
(* ===================================================================== *)

Module Go.

(** Go's [error] values as the sources build them. *)
Inductive error : Type :=
| ErrNotFound                                   (* leveldb.ErrNotFound *)
| errorString (msg : string)                    (* fmt.Errorf without %w *)
| wrapError (prefix : string) (err : error).    (* fmt.Errorf(prefix + "%w", err) *)

(** [err.Error()] *)
Fixpoint Error (e : error) : string :=
  match e with
  | ErrNotFound => "leveldb: not found"
  | errorString msg => msg
  | wrapError prefix err => (prefix ++ Error err)%string
  end.

(** [err == leveldb.ErrNotFound]: identity with the sentinel. *)
Definition is_ErrNotFound (err : option error) : bool :=
  match err with
  | Some ErrNotFound => true
  | _ => false
  end.

(** Result of a call on a collaborator that lives outside the sources. *)
Inductive result (A : Type) : Type :=
| Ok (a : A)
| Err (e : error).
Arguments Ok {A} a.
Arguments Err {A} e.

(** A Go call either returns or panics (nil pointer dereference). *)
Inductive outcome (A : Type) : Type :=
| Return (a : A)
| Panic (reason : string).
Arguments Return {A} a.
Arguments Panic {A} reason.

(** [[]byte]; [None] is the nil slice. *)
Definition bytes := list Byte.byte.
Definition slice := option bytes.

(** [context.Context]: the background context is never cancelled; a
    context derived with cancellation is named by the caller. *)
Inductive context : Type :=
| Background
| WithCancel (name : nat).

(** [uint64(i)] and [int64(u)] conversions. *)
Definition uint64 (z : Z) : Z := z mod 2 ^ 64.
Definition int64 (z : Z) : Z := (z + 2 ^ 63) mod 2 ^ 64 - 2 ^ 63.

(** [%d] for an unsigned value. *)
Definition fmt_d (z : Z) : string := NilZero.string_of_uint (N.to_uint (Z.to_N z)).

(** *** float64
    IEEE 754 binary64 through the Standard Library's specification of
    floating point numbers. *)
Definition float64 := spec_float.
Definition prec64 : Z := 53.
Definition emax64 : Z := 1024.

(** [float64(u)] for an unsigned integer: nearest, ties to even. *)
Definition float64_of_uint64 (u : Z) : float64 :=
  binary_normalize prec64 emax64 u 0 false.

(** [x * y] on float64. *)
Definition float64_mul (x y : float64) : float64 := SFmul prec64 emax64 x y.

(** [uint64(f)]: the fractional part is discarded (truncation towards
    zero).  Outside [0, 2^64) Go leaves the result to the
    implementation; the values here are those of the code the amd64
    compiler emits: a truncation strictly between -2^63 and 2^64 is
    reduced modulo 2^64 (so a truncation in [0, 2^64) is itself), and
    every other finite number, the infinities and NaN give 2^63. *)
Definition uint64_of_float64 (f : float64) : Z :=
  match f with
  | S754_zero _ => 0
  | S754_finite s m e =>
      let q := if (0 <=? e) then Z.pos m * 2 ^ e else Z.pos m / 2 ^ (- e) in
      let z := if s then - q else q in
      if (- 2 ^ 63 <? z) && (z <? 2 ^ 64) then uint64 z else 2 ^ 63
  | S754_infinity _ | S754_nan => 2 ^ 63
  end.

End Go.
Export Go.

(* ===================================================================== *)
(** * package relay                                                        *)
(* ===================================================================== *)

Module relay.

(** TxHeight describes tendermint filter by tx.height *)
Definition TxHeight : string := "tx.height".

(** [interface{}] values of a filter item: what [encoding/json] decodes
    into an empty interface, and the [uint64] the relayer stores. *)
Inductive any : Type :=
| any_nil
| any_bool (b : bool)
| any_float64 (f : float64)
| any_string (s : string)
| any_uint64 (u : Z)
| any_composite (raw : string).

Record TransactionsFilterItem : Type := {
  Field : string;
  Op : string;
  Value : any
}.

Definition TransactionsFilter := list TransactionsFilterItem.

Record KVKey : Type := { Path : string; Key : bytes }.

Record RegisteredQuery : Type := {
  Id : Z;
  QueryType : string;
  Keys : list KVKey;
  RQ_TransactionsFilter : string
}.

Definition InterchainQueryTypeKV : string := "kv".
Definition InterchainQueryTypeTX : string := "tx".

Record MessageKV : Type := { KV_QueryId : Z; KVKeys : list KVKey }.
Record MessageTX : Type := { QueryId : Z; MTX_TransactionsFilter : string }.

Record Transaction : Type := { TxHeightOf : Z; TxData : bytes }.

(** Calls made on the collaborators, in program order. *)
Inductive event : Type :=
| EvGetLastQueryHeight (queryID : Z)
| EvSetLastQueryHeight (queryID height : Z)
| EvClose
| EvSearchTransactions (ctx : context) (params : TransactionsFilter)
| EvTxErr
| EvTxProcessAndSubmit (ctx : context) (queryID : Z) (txs : list Transaction)
| EvKvProcessAndSubmit (ctx : context) (m : MessageKV)
| EvAddFailedRequest (queryType : string)
| EvAddSuccessRequest (queryType : string).

(** The [Storage] interface over a store state [S]. *)
Record Storage (S : Type) : Type := {
  GetLastQueryHeight : S -> Z -> Z * option error;
  SetLastQueryHeight : S -> Z -> Z -> S * option error;
  Close : S -> S * option error
}.
Arguments GetLastQueryHeight {S} _ _ _.
Arguments SetLastQueryHeight {S} _ _ _ _.
Arguments Close {S} _ _.

(** [TXQuerier]: [SearchTransactions] streams the matches on a channel;
    [Err] is the error the stream ended with. *)
Record TXQuerier : Type := {
  SearchTransactions : context -> TransactionsFilter -> list Transaction;
  TXQuerier_Err : context -> TransactionsFilter -> option error
}.

Record TXProcessor : Type := {
  TX_ProcessAndSubmit : context -> Z -> list Transaction -> Z * option error
}.

Record KVProcessor : Type := {
  KV_ProcessAndSubmit : context -> MessageKV -> option error
}.

(** The [Relayer] struct.  [json_Unmarshal] stands for
    [encoding/json.Unmarshal] at type [TransactionsFilter]. *)
Record Relayer (S : Type) : Type := {
  txQuerier : TXQuerier;
  storage : Storage S;
  txProcessor : TXProcessor;
  kvProcessor : KVProcessor;
  json_Unmarshal : string -> result TransactionsFilter
}.
Arguments txQuerier {S} _.
Arguments storage {S} _.
Arguments txProcessor {S} _.
Arguments kvProcessor {S} _.
Arguments json_Unmarshal {S} _ _.

(** ** The state the relayer acts on *)
Record World (S : Type) : Type := {
  store : S;
  trace : list event
}.
Arguments Build_World {S} _ _.
Arguments store {S} _.
Arguments trace {S} _.

Definition M (S A : Type) : Type := World S -> A * World S.

Definition ret {S A : Type} (a : A) : M S A := fun w => (a, w).

Definition bind {S A B : Type} (m : M S A) (k : A -> M S B) : M S B :=
  fun w => let (a, w') := m w in k a w'.

Declare Scope relay_scope.
Delimit Scope relay_scope with relay.
Notation "'let*' x ':=' c 'in' k" := (bind c (fun x => k))
  (at level 10, x pattern, c at level 100, k at level 200) : relay_scope.
Local Open Scope relay_scope.

Definition emit {S : Type} (e : event) : M S unit :=
  fun w => (tt, Build_World (store w) (trace w ++ [e])).

Section Relayer.
Context {S : Type} (r : Relayer S).

(** [r.storage.GetLastQueryHeight(queryID)] *)
Definition storage_GetLastQueryHeight (queryID : Z) : M S (Z * option error) :=
  let* _ := emit (EvGetLastQueryHeight queryID) in
  fun w => (GetLastQueryHeight (storage r) (store w) queryID, w).

(** [r.storage.SetLastQueryHeight(queryID, height)] *)
Definition storage_SetLastQueryHeight (queryID height : Z) : M S (option error) :=
  let* _ := emit (EvSetLastQueryHeight queryID height) in
  fun w =>
    let (s', err) := SetLastQueryHeight (storage r) (store w) queryID height in
    (err, Build_World s' (trace w)).

(** [r.storage.Close()] *)
Definition storage_Close : M S (option error) :=
  let* _ := emit EvClose in
  fun w =>
    let (s', err) := Close (storage r) (store w) in
    (err, Build_World s' (trace w)).

(** getLastQueryHeight returns last query height & no err if query
    exists in storage, also initializes query with height = 0 if not
    exists yet *)
Definition getLastQueryHeight (queryID : Z) : M S (Z * option error) :=
  let* (height, err) := storage_GetLastQueryHeight queryID in
  if is_ErrNotFound err then
    let* err := storage_SetLastQueryHeight queryID 0 in
    match err with
    | Some e =>
        ret (0, Some (wrapError
          "failed to set a 0 last height for an unitilialised query: " e))
    | None => ret (0, None)
    end
  else
    match err with
    | Some e => ret (0, Some (wrapError "failed to check query in storage: " e))
    | None => ret (height, None)
    end.

Definition buildTxQuery (m : MessageTX) : M S (option TransactionsFilter * option error) :=
  let* (queryLastHeight, err) := getLastQueryHeight (QueryId m) in
  match err with
  | Some e => ret (None, Some (wrapError "could not get last query height: " e))
  | None =>
      match json_Unmarshal r (MTX_TransactionsFilter m) with
      | Err e =>
          ret (None, Some (wrapError "could not unmarshal transactions filter: " e))
      | Ok params =>
          (* add filter by tx.height (tx.height>n) *)
          let params := params ++
            [ {| Field := TxHeight; Op := "gt"; Value := any_uint64 queryLastHeight |} ] in
          ret (Some params, None)
      end
  end.

(** processMessageKV handles an incoming KV interchain query message
    and passes it to the kvProcessor for further processing. *)
Definition processMessageKV (ctx : context) (m : MessageKV) : M S (option error) :=
  let* _ := emit (EvKvProcessAndSubmit ctx m) in
  ret (KV_ProcessAndSubmit (kvProcessor r) ctx m).

(** processMessageTX handles an incoming TX interchain query message. *)
Definition processMessageTX (ctx : context) (m : MessageTX) : M S (option error) :=
  let* (queryParams, err) := buildTxQuery m in
  match err with
  | Some e => ret (Some (wrapError "failed to build tx query params: " e))
  | None =>
      let queryParams := match queryParams with Some p => p | None => [] end in
      let* _ := emit (EvSearchTransactions ctx queryParams) in
      let txs := SearchTransactions (txQuerier r) ctx queryParams in
      let* _ := emit (EvTxProcessAndSubmit ctx (QueryId m) txs) in
      let (lastProcessedHeight, err) :=
        TX_ProcessAndSubmit (txProcessor r) ctx (QueryId m) txs in
      match err with
      | Some e => ret (Some (wrapError "failed to process txs: " e))
      | None =>
          let* _ := emit EvTxErr in
          match TXQuerier_Err (txQuerier r) ctx queryParams with
          | Some e => ret (Some (wrapError "failed to query txs: " e))
          | None =>
              let* err := storage_SetLastQueryHeight (QueryId m) lastProcessedHeight in
              match err with
              | Some e =>
                  ret (Some (wrapError "failed to save last height of query: " e))
              | None => ret None
              end
          end
      end
  end.

(** stop finishes execution of relayer's auxiliary entities. *)
Definition stop : M S (option error) :=
  let* err := storage_Close in
  let failed := match err with Some _ => true | None => false end in
  if failed then
    ret (Some (errorString
      "error occurred while stopping relayer, see recent logs for more info"))
  else ret None.

(** The body of [Run]'s [for] loop after the task was dequeued: the
    [switch] on the query type and the metrics.  The local variables
    [queryType] and [queryID] are declared and never assigned, so the
    metrics carry the zero value of the query type. *)
Definition dispatch (ctx : context) (query : RegisteredQuery) : M S unit :=
  let queryType : string := EmptyString in
  let* err :=
    if String.eqb (QueryType query) InterchainQueryTypeKV then
      let msg := {| KV_QueryId := Id query; KVKeys := Keys query |} in
      processMessageKV ctx msg
    else if String.eqb (QueryType query) InterchainQueryTypeTX then
      let msg := {| QueryId := Id query;
                    MTX_TransactionsFilter := RQ_TransactionsFilter query |} in
      processMessageTX Background msg
    else ret None in
  match err with
  | Some _ => emit (EvAddFailedRequest queryType)
  | None => emit (EvAddSuccessRequest queryType)
  end.

(** [<-ctx.Done()] is ready at the [tick]-th evaluation of the
    [select]: never for the background context, and as the caller's
    cancellation schedule says otherwise. *)
Definition Done (cancelled : nat -> bool) (ctx : context) (tick : nat) : bool :=
  match ctx with
  | Background => false
  | WithCancel _ => cancelled tick
  end.

(** Run starts the relaying process.  [select] takes the [ctx.Done()]
    case when it is ready and the [default] case otherwise; [tasks] is
    the queue, front first.  [None] is a loop that is still running
    after [fuel] passes.  (The submission checker started with [go] at
    the top of [Run] shares no state with the loop.) *)
Fixpoint Run (fuel : nat) (cancelled : nat -> bool) (tick : nat)
    (ctx : context) (tasks : list RegisteredQuery) : M S (option (option error)) :=
  match fuel with
  | O => ret None
  | Datatypes.S fuel' =>
      if Done cancelled ctx tick then
        let* err := stop in ret (Some err)
      else
        match tasks with
        | [] => Run fuel' cancelled (Datatypes.S tick) ctx tasks
        | query :: tasks' =>
            let* _ := dispatch ctx query in
            Run fuel' cancelled (Datatypes.S tick) ctx tasks'
        end
  end.

End Relayer.

(** ** A height store *)

Definition ErrClosed : error := errorString "leveldb: closed".

Record LevelDB : Type := {
  heights : gmap Z Z;
  closed : bool
}.

(** Modelled from the spec: the Height Store behind the [Storage]
    interface, whose implementation is not among the sources:
    [get(queryId) -> (height, found)], [set(queryId, height) -> error],
    [close() -> error], exact-match lookup and point writes, "not found"
    a distinguished condition.  A store that was closed reports an error
    on every call. *)
Definition LevelDBStorage : Storage LevelDB := {|
  GetLastQueryHeight db queryID :=
    if closed db then (0, Some ErrClosed)
    else match heights db !! queryID with
         | Some h => (h, None)
         | None => (0, Some ErrNotFound)
         end;
  SetLastQueryHeight db queryID height :=
    if closed db then (db, Some ErrClosed)
    else ({| heights := <[queryID := height]> (heights db); closed := false |}, None);
  Close db :=
    if closed db then (db, Some ErrClosed)
    else ({| heights := heights db; closed := true |}, None)
|}.

End relay.

(* ===================================================================== *)
(** * package submit                                                       *)
(* ===================================================================== *)

Module submit.

Inductive SignMode : Type :=
| SIGN_MODE_UNSPECIFIED
| SIGN_MODE_DIRECT
| SIGN_MODE_TEXTUAL
| SIGN_MODE_LEGACY_AMINO_JSON.

Definition mode : SignMode := SIGN_MODE_DIRECT.

(** [config.TxBroadcastType] is a string type; its three named values
    are declared outside the sources, every other string is
    [BroadcastOther]. *)
Inductive TxBroadcastType : Type :=
| BroadcastTxSync
| BroadcastTxAsync
| BroadcastTxCommit
| BroadcastOther (name : string).

(** [%s] of a broadcast type; the names of the three constants are
    those of the configuration package. *)
Definition TxBroadcastType_String (t : TxBroadcastType) : string :=
  match t with
  | BroadcastTxSync => "BroadcastTxSync"
  | BroadcastTxAsync => "BroadcastTxAsync"
  | BroadcastTxCommit => "BroadcastTxCommit"
  | BroadcastOther name => name
  end.

Record Msg : Type := { TypeURL : string; MsgValue : bytes }.

(** [tx.Factory]: a value; the [With...] methods return updated copies. *)
Record Factory : Type := {
  accountNumber : Z;
  sequence : Z;
  gas : Z;
  gasAdjustment : float64;
  gasPrices : string;
  chainID : string;
  signMode : SignMode
}.

Definition WithAccountNumber (f : Factory) (n : Z) : Factory :=
  {| accountNumber := n; sequence := sequence f; gas := gas f;
     gasAdjustment := gasAdjustment f; gasPrices := gasPrices f;
     chainID := chainID f; signMode := signMode f |}.
Definition WithSequence (f : Factory) (n : Z) : Factory :=
  {| accountNumber := accountNumber f; sequence := n; gas := gas f;
     gasAdjustment := gasAdjustment f; gasPrices := gasPrices f;
     chainID := chainID f; signMode := signMode f |}.
Definition WithGas (f : Factory) (g : Z) : Factory :=
  {| accountNumber := accountNumber f; sequence := sequence f; gas := g;
     gasAdjustment := gasAdjustment f; gasPrices := gasPrices f;
     chainID := chainID f; signMode := signMode f |}.
Definition WithGasPrices (f : Factory) (p : string) : Factory :=
  {| accountNumber := accountNumber f; sequence := sequence f; gas := gas f;
     gasAdjustment := gasAdjustment f; gasPrices := p;
     chainID := chainID f; signMode := signMode f |}.
Definition WithGasAdjustment (f : Factory) (a : float64) : Factory :=
  {| accountNumber := accountNumber f; sequence := sequence f; gas := gas f;
     gasAdjustment := a; gasPrices := gasPrices f;
     chainID := chainID f; signMode := signMode f |}.
Definition WithChainID (f : Factory) (c : string) : Factory :=
  {| accountNumber := accountNumber f; sequence := sequence f; gas := gas f;
     gasAdjustment := gasAdjustment f; gasPrices := gasPrices f;
     chainID := c; signMode := signMode f |}.
Definition WithSignMode (f : Factory) (m : SignMode) : Factory :=
  {| accountNumber := accountNumber f; sequence := sequence f; gas := gas f;
     gasAdjustment := gasAdjustment f; gasPrices := gasPrices f;
     chainID := chainID f; signMode := m |}.

(** [tx.Factory{}] *)
Definition Factory_zero : Factory :=
  {| accountNumber := 0; sequence := 0; gas := 0;
     gasAdjustment := S754_zero false; gasPrices := EmptyString;
     chainID := EmptyString; signMode := SIGN_MODE_UNSPECIFIED |}.

Record SignatureV2 : Type := {
  PubKey : bytes;
  Data_SignMode : SignMode;
  Sig_Sequence : Z
}.

Record BaseAccount : Type := { AccountNumber : Z; Sequence : Z }.

Record GasInfo : Type := { GasWanted : Z; GasUsed : Z }.
Record SimulateResponse : Type := { SimGasInfo : option GasInfo }.
Record AnyProto : Type := { AnyValue : slice }.
Record QueryAccountResponse : Type := { Account : option AnyProto }.

Record ResponseQuery : Type := { Code : Z; Log : string; RespValue : slice }.
Record ResultABCIQuery : Type := { Response : ResponseQuery }.
Record ResultBroadcastTx : Type := { BTx_Code : Z; BTx_Log : string }.
Record ResponseTx : Type := { Tx_Code : Z; Tx_Log : string }.
Record ResultBroadcastTxCommit : Type := { CheckTx : ResponseTx; DeliverTx : ResponseTx }.

(** [rpcclient.Client] *)
Record Client : Type := {
  ABCIQueryWithOptions : context -> string -> slice -> result ResultABCIQuery;
  RPC_BroadcastTxSync : context -> slice -> result ResultBroadcastTx;
  RPC_BroadcastTxAsync : context -> slice -> result ResultBroadcastTx;
  RPC_BroadcastTxCommit : context -> slice -> result ResultBroadcastTxCommit
}.

(** [sdk.DecCoin]: a denomination and a decimal amount. *)
Record DecCoin : Type := { DC_Denom : string; DC_Amount : string }.

(** What the sender uses of the cosmos-sdk, over its transaction
    builders [TxB]: building, signing (both update the builder),
    encoding, the protobuf codecs and the parser of gas prices
    ([sdk.ParseDecCoins]). *)
Record SDK (TxB : Type) : Type := {
  BuildUnsignedTx : Factory -> list Msg -> result TxB;
  SetSignatures : TxB -> SignatureV2 -> result TxB;
  Sign : Factory -> string -> TxB -> result TxB;
  TxEncoder : TxB -> result bytes;
  SimulateRequest_Marshal : slice -> result bytes;
  SimulateResponse_Unmarshal : slice -> result SimulateResponse;
  QueryAccountRequest_Marshal : string -> result bytes;
  QueryAccountResponse_Unmarshal : slice -> result QueryAccountResponse;
  BaseAccount_Unmarshal : slice -> result BaseAccount;
  ParseDecCoins : string -> result (list DecCoin)
}.
Arguments BuildUnsignedTx {TxB} _ _ _.
Arguments SetSignatures {TxB} _ _ _.
Arguments Sign {TxB} _ _ _ _.
Arguments TxEncoder {TxB} _ _.
Arguments SimulateRequest_Marshal {TxB} _ _.
Arguments SimulateResponse_Unmarshal {TxB} _ _.
Arguments QueryAccountRequest_Marshal {TxB} _ _.
Arguments QueryAccountResponse_Unmarshal {TxB} _ _.
Arguments BaseAccount_Unmarshal {TxB} _ _.
Arguments ParseDecCoins {TxB} _ _.

Record LidoChainConfig : Type := {
  cfg_ChainID : string;
  cfg_ChainPrefix : string;
  cfg_GasAdjustment : float64;
  cfg_GasPrices : string;
  cfg_Keyring_SignKeyName : string;
  cfg_TxBroadcastType : TxBroadcastType
}.

Record TxSender (TxB : Type) : Type := {
  baseTxf : Factory;
  txConfig : SDK TxB;
  rpcClient : Client;
  ts_chainID : string;
  addressPrefix : string;
  signKeyName : string;
  ts_gasPrices : string;
  txBroadcastType : TxBroadcastType
}.
Arguments baseTxf {TxB} _.
Arguments txConfig {TxB} _.
Arguments rpcClient {TxB} _.
Arguments ts_chainID {TxB} _.
Arguments addressPrefix {TxB} _.
Arguments signKeyName {TxB} _.
Arguments ts_gasPrices {TxB} _.
Arguments txBroadcastType {TxB} _.

(** [tx.Factory.WithGasPrices] as the method is: it parses the price
    string and panics with the parse error when the string does not
    parse; for a string that parses it is the setter [WithGasPrices]. *)
Definition Factory_WithGasPrices {TxB : Type} (sdk : SDK TxB) (f : Factory)
    (gasPrices : string) : outcome Factory :=
  match ParseDecCoins sdk gasPrices with
  | Err err => Panic (Error err)
  | Ok _ => Return (WithGasPrices f gasPrices)
  end.

(** NewTxSender: the factory is configured from [cfg] (the last step,
    the gas prices, panics on a price string that does not parse); the
    broadcast type is stored as given.  [sdk] carries the codec and the
    keyring. *)
Definition NewTxSender {TxB : Type} (rpcClient : Client) (sdk : SDK TxB)
    (cfg : LidoChainConfig) : outcome (TxSender TxB * option error) :=
  match Factory_WithGasPrices sdk
          (WithGasAdjustment
            (WithChainID (WithSignMode Factory_zero mode) (cfg_ChainID cfg))
            (cfg_GasAdjustment cfg))
          (cfg_GasPrices cfg) with
  | Panic reason => Panic reason
  | Return baseTxf =>
      Return ({| txConfig := sdk;
                 baseTxf := baseTxf;
                 rpcClient := rpcClient;
                 ts_chainID := cfg_ChainID cfg;
                 addressPrefix := cfg_ChainPrefix cfg;
                 signKeyName := cfg_Keyring_SignKeyName cfg;
                 ts_gasPrices := cfg_GasPrices cfg;
                 txBroadcastType := cfg_TxBroadcastType cfg |}, None)
  end.

Section TxSender.
Context {TxB : Type} (cc : TxSender TxB).

(** queryAccount returns BaseAccount for given account address *)
Definition queryAccount (ctx : context) (address : string)
    : outcome (option BaseAccount * option error) :=
  match QueryAccountRequest_Marshal (txConfig cc) address with
  | Err err => Return (None, Some err)
  | Ok req =>
      let simQuery_Path := "/cosmos.auth.v1beta1.Query/Account" in
      let simQuery_Data := Some req in
      match ABCIQueryWithOptions (rpcClient cc) ctx simQuery_Path simQuery_Data with
      | Err err => Return (None, Some err)
      | Ok res =>
          if negb (Code (Response res) =? 0) then
            Return (None, Some (errorString
              ("error fetching account with address=" ++ address
               ++ " log=" ++ Log (Response res))%string))
          else
            match QueryAccountResponse_Unmarshal (txConfig cc)
                    (RespValue (Response res)) with
            | Err err => Return (None, Some err)
            | Ok response =>
                match Account response with
                | None => Panic "invalid memory address or nil pointer dereference"
                | Some any =>
                    match BaseAccount_Unmarshal (txConfig cc) (AnyValue any) with
                    | Err err => Return (None, Some err)
                    | Ok account => Return (Some account, None)
                    end
                end
            end
      end
  end.

Definition buildTxBz (txf : Factory) (msgs : list Msg) : slice * option error :=
  match BuildUnsignedTx (txConfig cc) txf msgs with
  | Err err =>
      (None, Some (wrapError "failed to build transaction builder: " err))
  | Ok txBuilder =>
      match Sign (txConfig cc) txf (signKeyName cc) txBuilder with
      | Err err => (None, Some err)
      | Ok txBuilder =>
          match TxEncoder (txConfig cc) txBuilder with
          | Ok bz => (Some bz, None)
          | Err err => (None, Some err)
          end
      end
  end.

(** buildSimulationTx creates an unsigned tx with an empty single
    signature and returns the encoded transaction or an error if the
    unsigned transaction cannot be built. *)
Definition buildSimulationTx (txf : Factory) (msgs : list Msg) : slice * option error :=
  match BuildUnsignedTx (txConfig cc) (baseTxf cc) msgs with
  | Err err => (None, Some err)
  | Ok txb =>
      (* Create an empty signature literal as the ante handler will
         populate with a sentinel pubkey. *)
      let sig := {| PubKey := [];
                    Data_SignMode := signMode (baseTxf cc);
                    Sig_Sequence := sequence txf |} in
      match SetSignatures (txConfig cc) txb sig with
      | Err err => (None, Some err)
      | Ok txb =>
          match TxEncoder (txConfig cc) txb with
          | Err _ => (None, None)
          | Ok bz =>
              match SimulateRequest_Marshal (txConfig cc) (Some bz) with
              | Ok simReq => (Some simReq, None)
              | Err err => (None, Some err)
              end
          end
      end
  end.

Definition calculateGas (ctx : context) (txf : Factory) (msgs : list Msg)
    : Z * option error :=
  let (simulation, err) := buildSimulationTx txf msgs in
  match err with
  | Some err => (0, Some err)
  | None =>
      (* We then call the Simulate method on this client. *)
      let simQuery_Path := "/cosmos.tx.v1beta1.Service/Simulate" in
      let simQuery_Data := simulation in
      match ABCIQueryWithOptions (rpcClient cc) ctx simQuery_Path simQuery_Data with
      | Err err => (0, Some err)
      | Ok res =>
          match SimulateResponse_Unmarshal (txConfig cc) (RespValue (Response res)) with
          | Err err => (0, Some err)
          | Ok simRes =>
              match SimGasInfo simRes with
              | None =>
                  (0, Some (errorString
                    ("no result in simulation response with log="
                     ++ Log (Response res) ++ " code="
                     ++ fmt_d (Code (Response res)))%string))
              | Some gasInfo =>
                  (uint64_of_float64
                     (float64_mul (gasAdjustment txf)
                        (float64_of_uint64 (GasUsed gasInfo))), None)
              end
          end
      end
  end.

(** The [switch cc.txBroadcastType] at the end of [Send]. *)
Definition broadcast (ctx : context) (bz : slice) : option error :=
  match txBroadcastType cc with
  | BroadcastTxSync =>
      match RPC_BroadcastTxSync (rpcClient cc) ctx bz with
      | Err err => Some (wrapError "error broadcasting sync transaction: " err)
      | Ok res =>
          if BTx_Code res =? 0 then None
          else Some (errorString
            ("error broadcasting sync transaction with log=" ++ BTx_Log res)%string)
      end
  | BroadcastTxAsync =>
      match RPC_BroadcastTxAsync (rpcClient cc) ctx bz with
      | Err err => Some (wrapError "error broadcasting async transaction: " err)
      | Ok res =>
          if BTx_Code res =? 0 then None
          else Some (errorString
            ("error broadcasting async transaction with log=" ++ BTx_Log res)%string)
      end
  | BroadcastTxCommit =>
      match RPC_BroadcastTxCommit (rpcClient cc) ctx bz with
      | Err err => Some (wrapError "error broadcasting commit transaction: " err)
      | Ok res =>
          if (Tx_Code (CheckTx res) =? 0) && (Tx_Code (DeliverTx res) =? 0) then None
          else Some (errorString
            ("error broadcasting commit transaction with checktx log="
             ++ Tx_Log (CheckTx res) ++ " and deliverytx log="
             ++ Tx_Log (DeliverTx res))%string)
      end
  | BroadcastOther _ =>
      Some (errorString
        ("not implemented transaction send type: "
         ++ TxBroadcastType_String (txBroadcastType cc))%string)
  end.

(** Send builds transaction with calculated input msgs, calculated gas
    and fees, signs it and submits to chain.  The sender's gas prices
    are the string that [NewTxSender], the only constructor of the
    struct (its fields are unexported), parsed before it returned the
    sender; the method applied to them here is therefore the setter
    [WithGasPrices] (lemma [NewTxSender_prices_parse]). *)
Definition Send (ctx : context) (sender : string) (msgs : list Msg)
    : outcome (option error) :=
  match queryAccount ctx sender with
  | Panic reason => Panic reason
  | Return (_, Some err) => Return (Some err)
  | Return (None, None) => Panic "invalid memory address or nil pointer dereference"
  | Return (Some account, None) =>
      let txf :=
        WithSequence (WithAccountNumber (baseTxf cc) (AccountNumber account))
          (Sequence account) in
      let (gasNeeded, err) := calculateGas ctx txf msgs in
      match err with
      | Some err => Return (Some err)
      | None =>
          let txf := WithGasPrices (WithGas txf gasNeeded) (ts_gasPrices cc) in
          let (bz, err) := buildTxBz txf msgs in
          match err with
          | Some err => Return (Some (wrapError "could not build tx bz: " err))
          | None => Return (broadcast ctx bz)
          end
      end
  end.

End TxSender.

End submit.

(* ===================================================================== *)
(** * package proof_impl                                                   *)
(* ===================================================================== *)

Module proof_impl.

Record ProofOp : Type := { OpType : string; OpKey : bytes; OpData : bytes }.

(** [proof.StorageValue] *)
Record StorageValue : Type := {
  StoragePrefix : string;
  Key : bytes;
  Value : bytes;
  Proofs : list ProofOp
}.

(** The Chain Reader's ABCI-style query: request [{path, data}] at a
    height, response [{code, log, value, proof}] together with the
    height the reader served. *)
Record ResponseQuery : Type := {
  Code : Z;
  Log : string;
  RespValue : bytes;
  ProofOps : list ProofOp;
  RespHeight : Z
}.

Record ChainReader : Type := {
  ABCIQuery : context -> string -> bytes -> Z -> result ResponseQuery
}.

(** Modelled from the spec: [QueryTendermintProof] of the proof querier,
    whose source is not among the files.  It delegates to the Chain
    Reader at the height given ([height = 0] meaning "latest" and any
    positive height meaning "exactly that height" is the reader's
    business); the reader returns the value bytes, the proof path and
    the height actually served, which is handed on as a [uint64]; a
    transport failure and a non-zero response code (surfaced with the
    chain's log string) are errors. *)
Definition QueryTendermintProof (q : ChainReader) (ctx : context) (height : Z)
    (storeKey : string) (key : bytes) : option StorageValue * Z * option error :=
  match ABCIQuery q ctx ("/store/" ++ storeKey ++ "/key")%string key height with
  | Err err => (None, 0, Some err)
  | Ok res =>
      if Code res =? 0 then
        (Some {| StoragePrefix := storeKey; Key := key;
                 Value := RespValue res; Proofs := ProofOps res |},
         uint64 (RespHeight res), None)
      else
        (None, 0, Some (errorString
          ("error fetching proof with log=" ++ Log res)%string))
  end.

(** What [GetBalance] uses of the cosmos-sdk: [sdk.GetFromBech32] and
    [banktypes.CreateAccountBalancesPrefix]. *)
Record CosmosSDK : Type := {
  GetFromBech32 : string -> string -> result bytes;
  CreateAccountBalancesPrefix : bytes -> bytes
}.

(** [banktypes.StoreKey] *)
Definition bank_StoreKey : string := "bank".

Record ProoferImpl : Type := {
  querier : ChainReader;
  sdk : CosmosSDK
}.

(** GetBalance gets proofs for query type = 'x/bank/GetBalance' *)
Definition GetBalance (p : ProoferImpl) (ctx : context) (inputHeight : Z)
    (chainPrefix addr denom : string)
    : outcome (option (list StorageValue) * Z * option error) :=
  let storeKey := bank_StoreKey in
  match GetFromBech32 (sdk p) addr chainPrefix with
  | Err err => Return (None, 0, Some err)
  | Ok bytesAddress =>
      let key := CreateAccountBalancesPrefix (sdk p) bytesAddress
                 ++ list_byte_of_string denom in
      match QueryTendermintProof (querier p) ctx (int64 inputHeight) storeKey key with
      | (_, _, Some err) =>
          Return (None, 0, Some (wrapError
            "failed to query tendermint proof for balances: " err))
      | (Some value, height, None) => Return (Some [value], height, None)
      | (None, _, None) =>
          Panic "invalid memory address or nil pointer dereference"
      end
  end.

End proof_impl.

(* ===================================================================== *)
(** * Concrete collaborators                                               *)
(* ===================================================================== *)

Module fixtures.
Import relay.

Definition transfer_filter : TransactionsFilter :=
  [ {| Field := "message.action"; Op := "eq"; Value := any_string "transfer" |} ].

(** A JSON string literal. *)
Definition quoted (s : string) : string :=
  (String (ascii_of_nat 34) s ++ String (ascii_of_nat 34) EmptyString)%string.

Definition transfer_filter_json : string :=
  ("[{" ++ quoted "field" ++ ":" ++ quoted "message.action" ++ ","
        ++ quoted "op" ++ ":" ++ quoted "eq" ++ ","
        ++ quoted "value" ++ ":" ++ quoted "transfer" ++ "}]")%string.

(** A decoder that knows one document. *)
Definition decode_filter (raw : string) : result TransactionsFilter :=
  if String.eqb raw transfer_filter_json
  then Ok transfer_filter
  else Err (errorString "invalid character").

Definition tx_at (h : Z) : Transaction := {| TxHeightOf := h; TxData := [] |}.

(** A target chain with two matching transactions; [search_err] is what
    the stream ends with, [submit_err] what the processor reports. *)
Definition querier (search_err : option error) : TXQuerier := {|
  SearchTransactions _ _ := [tx_at 12; tx_at 15];
  TXQuerier_Err _ _ := search_err
|}.

Definition processor (submit_err : option error) : TXProcessor := {|
  TX_ProcessAndSubmit _ _ txs :=
    match submit_err with
    | Some e => (0, Some e)
    | None => (fold_right Z.max 0 (map TxHeightOf txs), None)
    end
|}.

Definition kv_processor : KVProcessor := {| KV_ProcessAndSubmit _ _ := None |}.

Definition relayer (search_err submit_err : option error) : Relayer LevelDB := {|
  txQuerier := querier search_err;
  storage := LevelDBStorage;
  txProcessor := processor submit_err;
  kvProcessor := kv_processor;
  json_Unmarshal := decode_filter
|}.

Definition empty_db : LevelDB := {| heights := ∅; closed := false |}.
Definition db_with (queryID height : Z) : LevelDB :=
  {| heights := {[ queryID := height ]}; closed := false |}.

Definition world (db : LevelDB) : World LevelDB := {| store := db; trace := [] |}.

Definition tx_message : MessageTX :=
  {| QueryId := 7;
     MTX_TransactionsFilter := transfer_filter_json |}.

Definition tx_query : RegisteredQuery :=
  {| Id := 7; QueryType := "tx"; Keys := [];
     RQ_TransactionsFilter := MTX_TransactionsFilter tx_message |}.

Definition insufficient_fees : error :=
  errorString "error broadcasting sync transaction with log=insufficient fees".

End fixtures.

Module sender_fixtures.
Import submit.

(** Transaction builders: the factory, the messages and the signatures. *)
Record TxB : Type := {
  tb_factory : Factory;
  tb_msgs : list Msg;
  tb_sigs : list SignatureV2
}.

(** A price parser that knows the empty string (no prices) and one
    price. *)
Definition parse_prices (gasPrices : string) : result (list DecCoin) :=
  if String.eqb gasPrices EmptyString then Ok []
  else if String.eqb gasPrices "0.5stake"
       then Ok [ {| DC_Denom := "stake"; DC_Amount := "0.5" |} ]
       else Err (errorString "invalid decimal coin expression").

(** A codec whose encoder works or not; the simulation response carries
    the gas used in its first byte. *)
Definition sdk (encoder_ok : bool) : SDK TxB := {|
  BuildUnsignedTx f msgs := Ok {| tb_factory := f; tb_msgs := msgs; tb_sigs := [] |};
  SetSignatures b sig :=
    Ok {| tb_factory := tb_factory b; tb_msgs := tb_msgs b; tb_sigs := [sig] |};
  Sign f name b :=
    Ok {| tb_factory := f; tb_msgs := tb_msgs b;
          tb_sigs := [ {| PubKey := list_byte_of_string name;
                          Data_SignMode := signMode f;
                          Sig_Sequence := sequence f |} ] |};
  TxEncoder b :=
    if encoder_ok then Ok (concat (map MsgValue (tb_msgs b)))
    else Err (errorString "unable to resolve type URL");
  SimulateRequest_Marshal bz := Ok (match bz with Some b => b | None => [] end);
  SimulateResponse_Unmarshal v :=
    match v with
    | Some (b :: _) =>
        Ok {| SimGasInfo := Some {| GasWanted := 0; GasUsed := Z.of_N (Byte.to_N b) |} |}
    | _ => Ok {| SimGasInfo := None |}
    end;
  QueryAccountRequest_Marshal addr := Ok (list_byte_of_string addr);
  QueryAccountResponse_Unmarshal v := Ok {| Account := Some {| AnyValue := v |} |};
  BaseAccount_Unmarshal v := Ok {| AccountNumber := 1; Sequence := 2 |};
  ParseDecCoins := parse_prices
|}.

(** A node that knows the account, answers the simulation with [sim]
    and every broadcast with the given results. *)
Definition client (sim : ResponseQuery) (bres : ResultBroadcastTx)
    (cres : ResultBroadcastTxCommit) : Client := {|
  ABCIQueryWithOptions _ path _ :=
    if String.eqb path "/cosmos.auth.v1beta1.Query/Account"
    then Ok {| Response := {| Code := 0; Log := EmptyString; RespValue := Some [] |} |}
    else Ok {| Response := sim |};
  RPC_BroadcastTxSync _ _ := Ok bres;
  RPC_BroadcastTxAsync _ _ := Ok bres;
  RPC_BroadcastTxCommit _ _ := Ok cres
|}.

(** 1.5 as a binary64 number. *)
Definition one_and_a_half : float64 := S754_finite false 6755399441055744 (-52).

Definition cfg (mode : TxBroadcastType) : LidoChainConfig := {|
  cfg_ChainID := "test-1";
  cfg_ChainPrefix := "neutron";
  cfg_GasAdjustment := one_and_a_half;
  cfg_GasPrices := "0.5stake";
  cfg_Keyring_SignKeyName := "relayer";
  cfg_TxBroadcastType := mode
|}.

(** The simulation reports 3 units of gas, with the given code. *)
Definition sim_gas_3 (code : Z) : ResponseQuery :=
  {| Code := code; Log := "out of gas in location: ReadFlat";
     RespValue := Some [Byte.x03] |}.

Definition accepted : ResultBroadcastTx := {| BTx_Code := 0; BTx_Log := EmptyString |}.
Definition rejected : ResultBroadcastTx :=
  {| BTx_Code := 5; BTx_Log := "insufficient fees" |}.
Definition committed : ResultBroadcastTxCommit :=
  {| CheckTx := {| Tx_Code := 0; Tx_Log := EmptyString |};
     DeliverTx := {| Tx_Code := 0; Tx_Log := EmptyString |} |}.

(** The sender a construction returned; the zero-valued sender over the
    same node and codec when it did not return. *)
Definition built (rpcClient : Client) (codec : SDK TxB)
    (o : outcome (TxSender TxB * option error)) : TxSender TxB :=
  match o with
  | Return (cc, _) => cc
  | Panic _ =>
      {| txConfig := codec; baseTxf := Factory_zero; rpcClient := rpcClient;
         ts_chainID := EmptyString; addressPrefix := EmptyString;
         signKeyName := EmptyString; ts_gasPrices := EmptyString;
         txBroadcastType := BroadcastOther EmptyString |}
  end.

Definition sender (mode : TxBroadcastType) (sim : ResponseQuery)
    (bres : ResultBroadcastTx) (encoder_ok : bool) : TxSender TxB :=
  built (client sim bres committed) (sdk encoder_ok)
    (NewTxSender (client sim bres committed) (sdk encoder_ok) (cfg mode)).

Definition proof_msg : Msg :=
  {| TypeURL := "/neutron.interchainqueries.MsgSubmitQueryResult";
     MsgValue := [Byte.x0a; Byte.x01] |}.

Definition sender_address : string := "neutron1m9l358xunhhwds0568za49mzhvuxx9ux8xafx2".
Definition simulate_path : string := "/cosmos.tx.v1beta1.Service/Simulate".

(** The factory [Send] works with for the account of the fixtures. *)
Definition txf_of (cc : TxSender TxB) : Factory :=
  WithSequence (WithAccountNumber (baseTxf cc) 1) 2.

End sender_fixtures.

Module proofer_fixtures.
Import proof_impl.

Definition known_address : string := "neutron1m9l358xunhhwds0568za49mzhvuxx9ux8xafx2".

Definition known_address_bytes : bytes :=
  [Byte.xd9; Byte.x7e; Byte.x3a; Byte.x1c; Byte.xdc; Byte.x9d; Byte.xee; Byte.xe6;
   Byte.xc1; Byte.xf4; Byte.xd1; Byte.xc5; Byte.xda; Byte.x95; Byte.xe2; Byte.xbb;
   Byte.x38; Byte.x63; Byte.x13; Byte.xc3].

(** The address codec of one known account, and the balances prefix of
    the bank module: [0x02], the length of the address, the address. *)
Definition cosmos : CosmosSDK := {|
  GetFromBech32 addr prefix :=
    if String.eqb addr known_address && String.eqb prefix "neutron"
    then Ok known_address_bytes
    else Err (errorString "decoding bech32 failed");
  CreateAccountBalancesPrefix addr :=
    Byte.x02 :: match Byte.of_N (N.of_nat (length addr)) with
                | Some b => b
                | None => Byte.xff
                end :: addr
|}.

(** A node at height 250 that proves every key of every store: it
    serves its latest height when asked for height 0, the height asked
    for when that is positive, and refuses a negative height. *)
Definition node : ChainReader := {|
  ABCIQuery _ _ key height :=
    if height <? 0 then Err (errorString "height must not be negative")
    else
      Ok {| Code := 0; Log := EmptyString;
            RespValue := [Byte.x31; Byte.x30; Byte.x30];
            ProofOps := [ {| OpType := "ics23:iavl"; OpKey := key; OpData := [] |} ];
            RespHeight := if height =? 0 then 250 else height |}
|}.

(** A node that is down. *)
Definition dead_node : ChainReader := {|
  ABCIQuery _ _ _ _ := Err (errorString "post failed: connection refused")
|}.

Definition proofer : ProoferImpl := {| querier := node; sdk := cosmos |}.

End proofer_fixtures.

(* ===================================================================== *)
(** * Gas arithmetic                                                       *)
(* ===================================================================== *)

Module gasmath.

(** The rational a finite binary64 number stands for. *)
Definition float64_to_Q (f : float64) : option Q :=
  match f with
  | S754_zero _ => Some 0%Q
  | S754_finite s m e =>
      let v := (inject_Z (Z.pos m) * Qpower 2 e)%Q in
      Some (if s then Qopp v else v)
  | S754_infinity _ | S754_nan => None
  end.

(** The expression of [calculateGas]'s last line. *)
Definition gasNeeded (gasAdjustment : float64) (gasUsed : Z) : Z :=
  uint64_of_float64 (float64_mul gasAdjustment (float64_of_uint64 gasUsed)).

(** The gas as the specification words it:
    [ceil(gasAdjustment * gasUsedReported)]. *)
Definition ceil_gas (gasAdjustment : float64) (gasUsed : Z) : option Z :=
  match float64_to_Q gasAdjustment with
  | Some a => Some (Qceiling (a * inject_Z gasUsed))
  | None => None
  end.

End gasmath.

(* ===================================================================== *)
(** * Observations on traces                                               *)
(* ===================================================================== *)

Module observe.
Import relay.

(** The writes to the height store recorded in a trace. *)
Definition writes (tr : list event) : list (Z * Z) :=
  flat_map (fun e => match e with
                     | EvSetLastQueryHeight queryID height => [(queryID, height)]
                     | _ => []
                     end) tr.

(** The contexts handed to the collaborators that reach the network. *)
Definition contexts (tr : list event) : list context :=
  flat_map (fun e => match e with
                     | EvSearchTransactions ctx _ => [ctx]
                     | EvTxProcessAndSubmit ctx _ _ => [ctx]
                     | EvKvProcessAndSubmit ctx _ => [ctx]
                     | _ => []
                     end) tr.

(** [w'] is [w] after the calls [tr]. *)
Definition after {S : Type} (w : World S) (tr : list event) (w' : World S) : Prop :=
  trace w' = trace w ++ tr.

(** The filter item the relayer adds for a stored height. *)
Definition height_item (h : Z) : TransactionsFilterItem :=
  {| Field := "tx.height"; Op := "gt"; Value := any_uint64 h |}.

End observe.

(* ===================================================================== *)
(** * package submit: the proof submitter                                  *)
(* ===================================================================== *)

Module submitter.

(** [crypto.ProofOps] *)
Record ProofOps : Type := { Ops : list proof_impl.ProofOp }.

(** [lidotypes.StorageValue]; [Proof] is a pointer. *)
Record StorageValue : Type := {
  StoragePrefix : string;
  Key : bytes;
  Value : bytes;
  Proof : option ProofOps
}.

(** The Merkle audit path of the proofs and of the messages. *)
Record MerkleProof : Type := {
  Total : Z;
  Index : Z;
  LeafHash : bytes;
  Aunts : list bytes
}.

(** [proof.TxValue] *)
Record ProofTxValue : Type := {
  PTx : bytes;
  PInclusionProof : MerkleProof;
  PDeliveryProof : MerkleProof;
  PHeight : Z
}.

(** [lidotypes.TxValue]; the two proofs are pointers. *)
Record TxValue : Type := {
  Tx : bytes;
  DeliveryProof : option MerkleProof;
  InclusionProof : option MerkleProof;
  Height : Z
}.

(** [lidotypes.QueryResult]; [None] is a nil slice. *)
Record QueryResult : Type := {
  QR_Height : Z;
  KvResults : option (list StorageValue);
  Txs : option (list TxValue)
}.

(** [lidotypes.MsgSubmitQueryResult]; [Result] is a pointer. *)
Record MsgSubmitQueryResult : Type := {
  QueryId : Z;
  Sender : string;
  Result : option QueryResult
}.

(** What the submitter calls on its sender, and the self-validation of
    the message type ([msg.ValidateBasic()]). *)
Record TxSenderAPI : Type := {
  SenderAddr : result string;
  Send : context -> list MsgSubmitQueryResult -> outcome (option error);
  ValidateBasic : MsgSubmitQueryResult -> option error
}.

(** SubmitterImpl can submit proofs using `sender` as the transaction
    transport mechanism *)
Record SubmitterImpl : Type := { sender : TxSenderAPI }.

Definition NewSubmitterImpl (sender : TxSenderAPI) : SubmitterImpl :=
  {| sender := sender |}.

(** The body of the [for] loop of [buildProofMsg]. *)
Definition proofItem (item : proof_impl.StorageValue) : StorageValue :=
  {| StoragePrefix := proof_impl.StoragePrefix item;
     Key := proof_impl.Key item;
     Value := proof_impl.Value item;
     Proof := Some {| Ops := proof_impl.Proofs item |} |}.

(** The body of the [for] loop of [buildTxProofMsg]. *)
Definition txProofItem (item : ProofTxValue) : TxValue :=
  let inclusionProof := PInclusionProof item in
  let deliveryProof := PDeliveryProof item in
  {| Tx := PTx item;
     DeliveryProof := Some {| Total := Total deliveryProof;
                              Index := Index deliveryProof;
                              LeafHash := LeafHash deliveryProof;
                              Aunts := Aunts deliveryProof |};
     InclusionProof := Some {| Total := Total inclusionProof;
                               Index := Index inclusionProof;
                               LeafHash := LeafHash inclusionProof;
                               Aunts := Aunts inclusionProof |};
     Height := PHeight item |}.

Section SubmitterImpl.
Context (si : SubmitterImpl).

Definition buildProofMsg (height queryId : Z) (proof : list proof_impl.StorageValue)
    : option (list MsgSubmitQueryResult) * option error :=
  (* res := make(..., 0, len(proof)); for ... { res = append(res, ...) } *)
  let res := fold_left (fun res item => res ++ [proofItem item]) proof [] in
  match SenderAddr (sender si) with
  | Err err =>
      (None, Some (wrapError
         "could not fetch sender addr for building proof msg: " err))
  | Ok senderAddr =>
      let queryResult := {| QR_Height := height; KvResults := Some res; Txs := None |} in
      let msg := {| QueryId := queryId; Sender := senderAddr;
                    Result := Some queryResult |} in
      match ValidateBasic (sender si) msg with
      | Some err =>
          (None, Some (wrapError
             ("invalid proof message for query=" ++ fmt_d queryId ++ ": ")%string err))
      | None => (Some [msg], None)
      end
  end.

Definition buildTxProofMsg (queryId : Z) (proof : list ProofTxValue)
    : option (list MsgSubmitQueryResult) * option error :=
  let res := fold_left (fun res item => res ++ [txProofItem item]) proof [] in
  match SenderAddr (sender si) with
  | Err err =>
      (None, Some (wrapError
         "could not fetch sender addr for building tx proof msg: " err))
  | Ok senderAddr =>
      let queryResult :=
        {| QR_Height := 0; (* NOTE: cannot use nil because it's not pointer :( *)
           KvResults := None;
           Txs := Some res |} in
      let msg := {| QueryId := queryId; Sender := senderAddr;
                    Result := Some queryResult |} in
      match ValidateBasic (sender si) msg with
      | Some err => (None, Some (wrapError "invalid tx proof message: " err))
      | None => (Some [msg], None)
      end
  end.

(** SubmitProof submits query with proof back to lido chain *)
Definition SubmitProof (ctx : context) (height queryId : Z)
    (proof : list proof_impl.StorageValue) : outcome (option error) :=
  let (msgs, err) := buildProofMsg height queryId proof in
  match err with
  | Some err => Return (Some (wrapError "could not build proof msg: " err))
  | None => Send (sender si) ctx (match msgs with Some l => l | None => [] end)
  end.

(** SubmitTxProof submits tx query with proof back to lido chain *)
Definition SubmitTxProof (ctx : context) (queryId : Z) (proof : list ProofTxValue)
    : outcome (option error) :=
  let (msgs, err) := buildTxProofMsg queryId proof in
  match err with
  | Some err => Return (Some (wrapError "could not build tx proof msg: " err))
  | None => Send (sender si) ctx (match msgs with Some l => l | None => [] end)
  end.

End SubmitterImpl.

(** Reading a message back: the proofs a KV result carries and the
    proofs a TX result carries. *)
Definition storedProof (v : StorageValue) : proof_impl.StorageValue :=
  {| proof_impl.StoragePrefix := StoragePrefix v;
     proof_impl.Key := Key v;
     proof_impl.Value := Value v;
     proof_impl.Proofs := match Proof v with Some ops => Ops ops | None => [] end |}.

Definition emptyMerkleProof : MerkleProof :=
  {| Total := 0; Index := 0; LeafHash := []; Aunts := [] |}.

Definition storedTxProof (v : TxValue) : ProofTxValue :=
  {| PTx := Tx v;
     PInclusionProof := match InclusionProof v with
                        | Some m => m | None => emptyMerkleProof end;
     PDeliveryProof := match DeliveryProof v with
                       | Some m => m | None => emptyMerkleProof end;
     PHeight := Height v |}.

(** A result is KV-shaped when it carries key-value results and no
    transactions, TX-shaped the other way round. *)
Definition is_kv_shaped (q : QueryResult) : bool :=
  match KvResults q, Txs q with
  | Some _, None => true
  | _, _ => false
  end.

Definition is_tx_shaped (q : QueryResult) : bool :=
  match KvResults q, Txs q with
  | None, Some _ => true
  | _, _ => false
  end.

End submitter.

(* ===================================================================== *)
(** * package proof_impl: delegations; package proofs: all balances        *)
(* ===================================================================== *)

Module delegations.
Import proof_impl.

(** What [GetDelegatorDelegations] uses beyond the address codec:
    [stakingtypes.GetDelegationsKey] and the iterating query of the proof
    querier, which returns the proven entries, the height and an error. *)
Record Staking : Type := {
  GetDelegationsKey : bytes -> bytes;
  QueryIterateTendermintProof :
    context -> Z -> string -> bytes -> option (list StorageValue) * Z * option error
}.

(** [stakingtypes.StoreKey] *)
Definition staking_StoreKey : string := "staking".

(** GetDelegatorDelegations gets proofs for query type =
    'x/staking/GetDelegatorDelegations' *)
Definition GetDelegatorDelegations (p : ProoferImpl) (st : Staking) (ctx : context)
    (inputHeight : Z) (prefix delegator : string)
    : option (list StorageValue) * Z * option error :=
  let storeKey := staking_StoreKey in
  match GetFromBech32 (sdk p) delegator prefix with
  | Err err =>
      (None, 0, Some (wrapError "failed to decode address from bech32: " err))
  | Ok delegatorBz =>
      let delegatorPrefixKey := GetDelegationsKey st delegatorBz in
      QueryIterateTendermintProof st ctx (int64 inputHeight) storeKey delegatorPrefixKey
  end.

End delegations.

Module proofs.
Import proof_impl.

(** [cosmostypes.Coin] *)
Record Coin : Type := { Denom : string; Amount : string }.

(** What [ProofAllBalances] prints. *)
Inductive printed : Type :=
| PrintUnmarshalFailure (err : error)  (* "failed to unmarshal the balances response: %s" *)
| PrintCoin (amount : Coin).           (* "\nCoin: %+v, Err %v" *)

(** The collaborators of [ProofAllBalances]: the address codec and the
    balances prefix of the cosmos-sdk, the proof querier of this
    version (value and error) and the decoder of a coin. *)
Record Deps : Type := {
  GetFromBech32 : string -> string -> result bytes;
  CreateAccountBalancesPrefix : bytes -> bytes;
  QueryTendermintProof : context -> Z -> string -> bytes -> option StorageValue * option error;
  Coin_Unmarshal : bytes -> result Coin
}.

(** The result map, nil or not, the error and the lines printed. *)
Definition ProofAllBalances (d : Deps) (ctx : context) (address denom : string)
    : outcome (option (list (string * string)) * option error * list printed) :=
  let inputHeight := int64 0 in
  let storeKey := bank_StoreKey in
  match GetFromBech32 d address "terra" with
  | Err err => Return (None, Some err, [])
  | Ok bz =>
      let key := CreateAccountBalancesPrefix d bz ++ list_byte_of_string denom in
      match QueryTendermintProof d ctx inputHeight storeKey key with
      | (_, Some err) => Return (None, Some err, [])
      | (None, None) => Panic "invalid memory address or nil pointer dereference"
      | (Some value, None) =>
          match Coin_Unmarshal d (Value value) with
          | Err err => Return (None, Some err, [PrintUnmarshalFailure err])
          | Ok amount => Return (None, None, [PrintCoin amount])
          end
      end
  end.

End proofs.

(* ===================================================================== *)
(** * Observations on the dispatch loop                                    *)
(* ===================================================================== *)

Module loop.
Import relay.


Definition is_close (e : event) : bool :=
  match e with EvClose => true | _ => false end.

Definition is_metric (e : event) : bool :=
  match e with
  | EvAddFailedRequest _ | EvAddSuccessRequest _ => true
  | _ => false
  end.

(** The calls on the height store. *)
Definition is_storage_call (e : event) : bool :=
  match e with
  | EvGetLastQueryHeight _ | EvSetLastQueryHeight _ _ | EvClose => true
  | _ => false
  end.

(** The calls of [processMessageTX]. *)
Definition is_tx_call (e : event) : bool :=
  match e with
  | EvGetLastQueryHeight _ | EvSetLastQueryHeight _ _
  | EvSearchTransactions _ _ | EvTxErr | EvTxProcessAndSubmit _ _ _ => true
  | _ => false
  end.

(** The calls a dispatch makes before it records its metric. *)
Definition is_processing_call (e : event) : bool :=
  match e with
  | EvKvProcessAndSubmit _ _ => true
  | _ => is_tx_call e
  end.

(** The error [stop] returns. *)
Definition stop_error : error :=
  errorString "error occurred while stopping relayer, see recent logs for more info".

End loop.

Module extra_fixtures.

(** A codec that decodes every account response to one without an
    account. *)
Definition sdk_without_account : submit.SDK sender_fixtures.TxB := {|
  submit.BuildUnsignedTx := submit.BuildUnsignedTx (sender_fixtures.sdk true);
  submit.SetSignatures := submit.SetSignatures (sender_fixtures.sdk true);
  submit.Sign := submit.Sign (sender_fixtures.sdk true);
  submit.TxEncoder := submit.TxEncoder (sender_fixtures.sdk true);
  submit.SimulateRequest_Marshal := submit.SimulateRequest_Marshal (sender_fixtures.sdk true);
  submit.SimulateResponse_Unmarshal :=
    submit.SimulateResponse_Unmarshal (sender_fixtures.sdk true);
  submit.QueryAccountRequest_Marshal :=
    submit.QueryAccountRequest_Marshal (sender_fixtures.sdk true);
  submit.QueryAccountResponse_Unmarshal _ := Ok {| submit.Account := None |};
  submit.BaseAccount_Unmarshal := submit.BaseAccount_Unmarshal (sender_fixtures.sdk true);
  submit.ParseDecCoins := sender_fixtures.parse_prices
|}.

Definition sender_without_account : submit.TxSender sender_fixtures.TxB :=
  sender_fixtures.built
    (sender_fixtures.client (sender_fixtures.sim_gas_3 0)
       sender_fixtures.accepted sender_fixtures.committed)
    sdk_without_account
    (submit.NewTxSender
       (sender_fixtures.client (sender_fixtures.sim_gas_3 0)
          sender_fixtures.accepted sender_fixtures.committed)
       sdk_without_account (sender_fixtures.cfg submit.BroadcastTxSync)).

(** Two proven balances. *)
Definition proven (key value : bytes) : proof_impl.StorageValue :=
  {| proof_impl.StoragePrefix := "bank";
     proof_impl.Key := key;
     proof_impl.Value := value;
     proof_impl.Proofs := [ {| proof_impl.OpType := "ics23:iavl";
                               proof_impl.OpKey := key;
                               proof_impl.OpData := [Byte.x0a] |} ] |}.

Definition two_proofs : list proof_impl.StorageValue :=
  [ proven [Byte.x02; Byte.x01] [Byte.x31]; proven [Byte.x02; Byte.x02] [Byte.x32] ].

Definition audit_path (leaf : Byte.byte) : submitter.MerkleProof :=
  {| submitter.Total := 4; submitter.Index := 2;
     submitter.LeafHash := [leaf]; submitter.Aunts := [[Byte.xaa]; [Byte.xbb]] |}.

Definition two_tx_proofs : list submitter.ProofTxValue :=
  [ {| submitter.PTx := [Byte.x0a]; submitter.PInclusionProof := audit_path Byte.x01;
       submitter.PDeliveryProof := audit_path Byte.x02; submitter.PHeight := 12 |};
    {| submitter.PTx := [Byte.x0b]; submitter.PInclusionProof := audit_path Byte.x03;
       submitter.PDeliveryProof := audit_path Byte.x04; submitter.PHeight := 15 |} ].

(** A sender whose message validation rejects an empty result, and whose
    [Send] accepts everything. *)
Definition validate (msg : submitter.MsgSubmitQueryResult) : option error :=
  match submitter.Result msg with
  | Some {| submitter.KvResults := Some (_ :: _) |} => None
  | Some {| submitter.Txs := Some (_ :: _) |} => None
  | _ => Some (errorString "empty result")
  end.

Definition tx_sender (addr : result string) : submitter.TxSenderAPI := {|
  submitter.SenderAddr := addr;
  submitter.Send _ _ := Return None;
  submitter.ValidateBasic := validate
|}.

Definition impl (addr : result string) : submitter.SubmitterImpl :=
  submitter.NewSubmitterImpl (tx_sender addr).

(** A staking module with two delegations of the known delegator at the
    height asked for; a negative height is refused. *)
Definition staking : delegations.Staking := {|
  delegations.GetDelegationsKey addr := Byte.x31 :: addr;
  delegations.QueryIterateTendermintProof _ height storeKey key :=
    if height <? 0
    then (None, 0, Some (errorString "height must not be negative"))
    else (Some [ {| proof_impl.StoragePrefix := storeKey;
                    proof_impl.Key := key ++ [Byte.x01];
                    proof_impl.Value := [Byte.x31];
                    proof_impl.Proofs := [] |};
                 {| proof_impl.StoragePrefix := storeKey;
                    proof_impl.Key := key ++ [Byte.x02];
                    proof_impl.Value := [Byte.x32];
                    proof_impl.Proofs := [] |} ],
          uint64 height, None)
|}.

(** The collaborators of [ProofAllBalances] on a chain with prefix
    "terra". *)
Definition terra : proofs.Deps := {|
  proofs.GetFromBech32 addr prefix :=
    if String.eqb prefix "terra" && String.eqb addr "terra1known"
    then Ok [Byte.x01; Byte.x02]
    else Err (errorString "decoding bech32 failed");
  proofs.CreateAccountBalancesPrefix addr := Byte.x02 :: addr;
  proofs.QueryTendermintProof _ _ storeKey key :=
    (Some {| proof_impl.StoragePrefix := storeKey; proof_impl.Key := key;
             proof_impl.Value := [Byte.x31; Byte.x30]; proof_impl.Proofs := [] |}, None);
  proofs.Coin_Unmarshal v :=
    match v with
    | [] => Err (errorString "unexpected EOF")
    | _ => Ok {| proofs.Denom := "uluna"; proofs.Amount := "10" |}
    end
|}.

End extra_fixtures.

Module loop_fixtures.
Import relay.

Definition kv_query : RegisteredQuery :=
  {| Id := 8; QueryType := "kv";
     Keys := [ {| Path := "bank"; Key := [Byte.x02] |} ];
     RQ_TransactionsFilter := EmptyString |}.

(** A query of a type the relayer does not know. *)
Definition odd_query : RegisteredQuery :=
  {| Id := 9; QueryType := "ibc"; Keys := []; RQ_TransactionsFilter := EmptyString |}.

(** A TX message whose filter is not JSON. *)
Definition broken_message : MessageTX :=
  {| QueryId := 7; MTX_TransactionsFilter := "{not json" |}.

Definition closed_db : LevelDB := {| heights := ∅; closed := true |}.

(** The caller's context is done from the third [select] on. *)
Definition cancelled_at_2 (tick : nat) : bool := Nat.leb 2 tick.

End loop_fixtures.

(* ===================================================================== *)
(** * The relayer                                                          *)
(* ===================================================================== *)

Module relay_proofs.
Import relay observe.

Ltac run :=
  unfold getLastQueryHeight, storage_GetLastQueryHeight, storage_SetLastQueryHeight,
    storage_Close, bind, emit, ret; cbn [store trace fst snd].

Section Cursor.
Context {S : Type} (r : Relayer S).

(** The query is in the store: one read, nothing else. *)
Lemma getLastQueryHeight_found (queryID h : Z) (w : World S) :
  GetLastQueryHeight (storage r) (store w) queryID = (h, None) ->
  getLastQueryHeight r queryID w
  = ((h, None),
     {| store := store w; trace := trace w ++ [EvGetLastQueryHeight queryID] |}).
Proof. intros Hget. run. rewrite Hget. reflexivity. Qed.

(** The query is not in the store: one read and one write of 0. *)
Lemma getLastQueryHeight_init (queryID h0 : Z) (w : World S) :
  GetLastQueryHeight (storage r) (store w) queryID = (h0, Some ErrNotFound) ->
  getLastQueryHeight r queryID w
  = (let (s1, err) := SetLastQueryHeight (storage r) (store w) queryID 0 in
     ((0, match err with
          | Some e => Some (wrapError
              "failed to set a 0 last height for an unitilialised query: " e)
          | None => None
          end),
      {| store := s1;
         trace := trace w ++ [EvGetLastQueryHeight queryID;
                              EvSetLastQueryHeight queryID 0] |})).
Proof.
  intros Hget. run. rewrite Hget. cbn.
  destruct (SetLastQueryHeight (storage r) (store w) queryID 0) as [s1 [e|]];
    cbn; rewrite <- app_assoc; reflexivity.
Qed.

(** The store fails otherwise: one read, the failure wrapped. *)
Lemma getLastQueryHeight_failed (queryID h0 : Z) (e : error) (w : World S) :
  GetLastQueryHeight (storage r) (store w) queryID = (h0, Some e) ->
  e <> ErrNotFound ->
  getLastQueryHeight r queryID w
  = ((0, Some (wrapError "failed to check query in storage: " e)),
     {| store := store w; trace := trace w ++ [EvGetLastQueryHeight queryID] |}).
Proof.
  intros Hget Hne. run. rewrite Hget.
  destruct e; try reflexivity. contradiction.
Qed.

(** Whatever the store does, the error of [getLastQueryHeight] wraps
    the store's error; it is not the sentinel. *)
Lemma getLastQueryHeight_error_wrapped (queryID : Z) (w : World S) :
  is_ErrNotFound (snd (fst (getLastQueryHeight r queryID w))) = false.
Proof.
  destruct (GetLastQueryHeight (storage r) (store w) queryID) as [h0 [e|]] eqn:Hget.
  - destruct e as [ | msg | prefix e ].
    + rewrite (getLastQueryHeight_init _ _ _ Hget).
      destruct (SetLastQueryHeight (storage r) (store w) queryID 0) as [s1 [e|]];
        reflexivity.
    + rewrite (getLastQueryHeight_failed _ _ _ _ Hget); [reflexivity | discriminate].
    + rewrite (getLastQueryHeight_failed _ _ _ _ Hget); [reflexivity | discriminate].
  - rewrite (getLastQueryHeight_found _ _ _ Hget). reflexivity.
Qed.

(** [getLastQueryHeight] reads once, and writes the initial 0 exactly
    when the store reported the query as not found. *)
Lemma getLastQueryHeight_trace (queryID : Z) (w : World S) :
  exists tr, after w tr (snd (getLastQueryHeight r queryID w)) /\
    ((tr = [EvGetLastQueryHeight queryID] /\
      store (snd (getLastQueryHeight r queryID w)) = store w) \/
     (tr = [EvGetLastQueryHeight queryID; EvSetLastQueryHeight queryID 0] /\
      is_ErrNotFound (snd (GetLastQueryHeight (storage r) (store w) queryID)) = true)).
Proof.
  destruct (GetLastQueryHeight (storage r) (store w) queryID) as [h0 [e|]] eqn:Hget.
  - destruct e as [ | msg | prefix e ].
    + rewrite (getLastQueryHeight_init _ _ _ Hget).
      destruct (SetLastQueryHeight (storage r) (store w) queryID 0) as [s1 err].
      eexists; split; [reflexivity | right; split; reflexivity].
    + rewrite (getLastQueryHeight_failed _ _ _ _ Hget); [| discriminate].
      eexists; split; [reflexivity | left; split; reflexivity].
    + rewrite (getLastQueryHeight_failed _ _ _ _ Hget); [| discriminate].
      eexists; split; [reflexivity | left; split; reflexivity].
  - rewrite (getLastQueryHeight_found _ _ _ Hget).
    eexists; split; [reflexivity | left; split; reflexivity].
Qed.

(** The only write of [getLastQueryHeight] is the initialisation to 0
    of a query the store reported as not found. *)
Lemma getLastQueryHeight_writes (queryID : Z) (w : World S) :
  exists tr, after w tr (snd (getLastQueryHeight r queryID w)) /\
    contexts tr = [] /\
    (writes tr = [] \/
     (writes tr = [(queryID, 0)] /\
      is_ErrNotFound (snd (GetLastQueryHeight (storage r) (store w) queryID)) = true)).
Proof.
  destruct (getLastQueryHeight_trace queryID w) as [tr [Ha [[-> _]|[-> Hn]]]];
    eexists; (split; [exact Ha |]); (split; [reflexivity |]).
  - left; reflexivity.
  - right; split; [reflexivity | exact Hn].
Qed.

(** [buildTxQuery] acts on the store through [getLastQueryHeight] only. *)
Lemma buildTxQuery_world (m : MessageTX) (w : World S) :
  snd (buildTxQuery r m w) = snd (getLastQueryHeight r (QueryId m) w).
Proof.
  unfold buildTxQuery, bind.
  destruct (getLastQueryHeight r (QueryId m) w) as [[h [e|]] w1]; cbn;
    [reflexivity |].
  destruct (json_Unmarshal r (MTX_TransactionsFilter m)); reflexivity.
Qed.

(** C4 (idempotent height initialisation).  For a query ID the store
    reports as not found, and a store that accepts the write of 0 and
    reads it back: the first call of [getLastQueryHeight] writes
    height 0 for that ID (exactly one write) and returns (0, nil); a
    second call returns (0, nil) and writes nothing.  For every store,
    the "not found" sentinel is never the error handed to the caller. *)
Theorem getLastQueryHeight_initializes_once
    (queryID h0 : Z) (w : World S) (s1 : S) :
  GetLastQueryHeight (storage r) (store w) queryID = (h0, Some ErrNotFound) ->
  SetLastQueryHeight (storage r) (store w) queryID 0 = (s1, None) ->
  GetLastQueryHeight (storage r) s1 queryID = (0, None) ->
  (exists w1 w2 tr1 tr2,
      getLastQueryHeight r queryID w = ((0, None), w1) /\
      after w tr1 w1 /\ writes tr1 = [(queryID, 0)] /\ store w1 = s1 /\
      getLastQueryHeight r queryID w1 = ((0, None), w2) /\
      after w1 tr2 w2 /\ writes tr2 = [] /\ store w2 = s1) /\
  (forall w', is_ErrNotFound (snd (fst (getLastQueryHeight r queryID w'))) = false).
Proof.
  intros Hget Hset Hread. split; [| apply getLastQueryHeight_error_wrapped].
  pose proof (getLastQueryHeight_init _ _ _ Hget) as H1.
  rewrite Hset in H1.
  set (w1 := {| store := s1;
                trace := trace w ++ [EvGetLastQueryHeight queryID;
                                     EvSetLastQueryHeight queryID 0] |}) in *.
  pose proof (getLastQueryHeight_found queryID 0 w1 Hread) as H2.
  exists w1. eexists. eexists. eexists.
  split; [exact H1 |].
  split; [reflexivity |].
  split; [reflexivity |].
  split; [reflexivity |].
  split; [exact H2 |].
  split; [reflexivity |].
  split; reflexivity.
Qed.

(** C5 (effective search filter).  When the transactions filter of the
    message decodes to [F]: with a stored last height [h] the filter
    built by [buildTxQuery] is [F] followed by the single item
    {tx.height, gt, h}; on a first run (no stored height, the store
    takes the initial 0) it is [F] followed by {tx.height, gt, 0}. *)
Theorem buildTxQuery_appends_height_item
    (m : MessageTX) (F : TransactionsFilter) (w : World S) :
  json_Unmarshal r (MTX_TransactionsFilter m) = Ok F ->
  (forall h,
      GetLastQueryHeight (storage r) (store w) (QueryId m) = (h, None) ->
      fst (buildTxQuery r m w) = (Some (F ++ [height_item h]), None)) /\
  (forall h0 s1,
      GetLastQueryHeight (storage r) (store w) (QueryId m) = (h0, Some ErrNotFound) ->
      SetLastQueryHeight (storage r) (store w) (QueryId m) 0 = (s1, None) ->
      fst (buildTxQuery r m w) = (Some (F ++ [height_item 0]), None)).
Proof.
  intros Hjson. split.
  - intros h Hget. unfold buildTxQuery, bind.
    rewrite (getLastQueryHeight_found _ _ _ Hget). cbn.
    rewrite Hjson. reflexivity.
  - intros h0 s1 Hget Hset. unfold buildTxQuery, bind.
    rewrite (getLastQueryHeight_init _ _ _ Hget), Hset. cbn.
    rewrite Hjson. reflexivity.
Qed.

(** C1 (height persisted only after a successful submit).  Let [w1]
    be the world after [buildTxQuery] (which writes at most the
    initial 0 of a query reported as not found).  If building the
    query, processing-and-submitting, or the transaction search
    reports an error, [processMessageTX] returns that error (wrapped)
    and between [w1] and its final world there is no write and the
    store is the same.  Only when none of them fails is
    [SetLastQueryHeight] called, once, with the height the processor
    returned. *)
Theorem processMessageTX_persists_only_after_submit
    (ctx : context) (m : MessageTX) (w : World S) :
  let w1 := snd (buildTxQuery r m w) in
  let '(err, w2) := processMessageTX r ctx m w in
  (exists tr0, after w tr0 w1 /\
     (writes tr0 = [] \/
      (writes tr0 = [(QueryId m, 0)] /\
       is_ErrNotFound
         (snd (GetLastQueryHeight (storage r) (store w) (QueryId m))) = true))) /\
  exists tr, after w1 tr w2 /\
    match fst (buildTxQuery r m w) with
    | (_, Some e) =>
        err = Some (wrapError "failed to build tx query params: " e) /\ w2 = w1
    | (queryParams, None) =>
        let queryParams := match queryParams with Some p => p | None => [] end in
        let txs := SearchTransactions (txQuerier r) ctx queryParams in
        let (h, perr) := TX_ProcessAndSubmit (txProcessor r) ctx (QueryId m) txs in
        match perr, TXQuerier_Err (txQuerier r) ctx queryParams with
        | Some e, _ =>
            err = Some (wrapError "failed to process txs: " e) /\
            writes tr = [] /\ store w2 = store w1
        | None, Some e =>
            err = Some (wrapError "failed to query txs: " e) /\
            writes tr = [] /\ store w2 = store w1
        | None, None =>
            writes tr = [(QueryId m, h)] /\
            store w2 = fst (SetLastQueryHeight (storage r) (store w1) (QueryId m) h) /\
            err = match snd (SetLastQueryHeight (storage r) (store w1) (QueryId m) h) with
                  | Some e => Some (wrapError "failed to save last height of query: " e)
                  | None => None
                  end
        end
    end.
Proof.
  cbv zeta.
  destruct (processMessageTX r ctx m w) as [err w2] eqn:Hp.
  split.
  { rewrite buildTxQuery_world.
    destruct (getLastQueryHeight_writes (QueryId m) w) as [tr0 [Ha [_ [Hw|[Hw Hn]]]]];
      exists tr0; split; auto. }
  unfold processMessageTX in Hp. unfold bind at 1 in Hp.
  destruct (buildTxQuery r m w) as [[queryParams [e|]] w1]; cbn [fst snd] in *.
  - injection Hp as <- <-. exists []. split; [unfold after; now rewrite app_nil_r |].
    split; reflexivity.
  - revert Hp. run.
    destruct (TX_ProcessAndSubmit (txProcessor r) ctx (QueryId m) _) as [h [e|]].
    + intros Hp; injection Hp as <- <-. eexists. split.
      * unfold after; cbn. rewrite <- app_assoc. reflexivity.
      * repeat split; reflexivity.
    + cbn. destruct (TXQuerier_Err (txQuerier r) ctx _) as [e|].
      * intros Hp; injection Hp as <- <-. eexists. split.
        -- unfold after; cbn. rewrite <- !app_assoc. reflexivity.
        -- repeat split; reflexivity.
      * cbn.
        destruct (SetLastQueryHeight (storage r) (store w1) (QueryId m) h)
          as [s2 [e|]]; cbn;
          intros Hp; injection Hp as <- <-; eexists; (split;
            [ unfold after; cbn; rewrite <- !app_assoc; reflexivity
            | repeat split; reflexivity ]).
Qed.

(** Every collaborator that [processMessageTX] calls receives the
    context [processMessageTX] was given. *)
Lemma processMessageTX_contexts (ctx : context) (m : MessageTX) (w : World S) :
  exists tr, after w tr (snd (processMessageTX r ctx m w)) /\
    Forall (fun c => c = ctx) (contexts tr).
Proof.
  pose proof (buildTxQuery_world m w) as Hw1.
  destruct (getLastQueryHeight_writes (QueryId m) w) as [tr0 [Ha [Hc _]]].
  rewrite <- Hw1 in Ha. clear Hw1.
  unfold processMessageTX. unfold bind at 1.
  destruct (buildTxQuery r m w) as [[queryParams [e|]] w1]; cbn [fst snd] in *.
  - exists tr0. split; [exact Ha |]. rewrite Hc. constructor.
  - unfold after in Ha. run.
    destruct (TX_ProcessAndSubmit (txProcessor r) ctx (QueryId m) _) as [h [e|]].
    + eexists (tr0 ++ [_; _]). split.
      * unfold after; cbn. rewrite Ha, <- !app_assoc. reflexivity.
      * unfold contexts in *. rewrite flat_map_app, Hc. cbn. repeat constructor.
    + cbn. destruct (TXQuerier_Err (txQuerier r) ctx _) as [e|].
      * eexists (tr0 ++ [_; _; _]). split.
        -- unfold after; cbn. rewrite Ha, <- !app_assoc. reflexivity.
        -- unfold contexts in *. rewrite flat_map_app, Hc. cbn. repeat constructor.
      * cbn.
        destruct (SetLastQueryHeight (storage r) (store w1) (QueryId m) h)
          as [s2 [e|]]; cbn;
          (eexists (tr0 ++ [_; _; _; _]); split;
           [ unfold after; cbn; rewrite Ha, <- !app_assoc; reflexivity
           | unfold contexts in *; rewrite flat_map_app, Hc; cbn;
             repeat constructor ]).
Qed.

(** [stop] closes the store, and fails exactly when closing fails. *)
Lemma stop_closes_store (w : World S) :
  stop r w
  = (match snd (Close (storage r) (store w)) with
     | Some _ => Some (errorString
         "error occurred while stopping relayer, see recent logs for more info")
     | None => None
     end,
     {| store := fst (Close (storage r) (store w));
        trace := trace w ++ [EvClose] |}).
Proof.
  unfold stop. run.
  destruct (Close (storage r) (store w)) as [s' [e|]]; reflexivity.
Qed.


(** The KV path hands the caller's context to its processor. *)
Lemma dispatch_kv_passes_context (ctx : context) (query : RegisteredQuery)
    (w : World S) :
  QueryType query = InterchainQueryTypeKV ->
  exists tr, after w tr (snd (dispatch r ctx query w)) /\ contexts tr = [ctx].
Proof.
  intros Hq. unfold dispatch, processMessageKV. rewrite Hq. run.
  destruct (KV_ProcessAndSubmit (kvProcessor r) ctx _) as [e|]; cbn;
    (eexists [_; _]; split;
     [ unfold after; cbn; rewrite <- !app_assoc; reflexivity | reflexivity ]).
Qed.

(** C6 (cancellation reaches the TX path).  This is what the code does
    instead: for a dequeued TX query, every collaborator call made by
    the dispatch (transaction search, process-and-submit) receives the
    background context, and the outcome of the dispatch is the same
    for every caller context: the context given to [Run] never
    reaches the TX processing path. *)
Theorem dispatch_tx_runs_on_background_context
    (ctx : context) (query : RegisteredQuery) (w : World S) :
  QueryType query = InterchainQueryTypeTX ->
  (exists tr, after w tr (snd (dispatch r ctx query w)) /\
     Forall (fun c => c = Background) (contexts tr)) /\
  (forall ctx', dispatch r ctx' query w = dispatch r ctx query w).
Proof.
  intros Hq. split.
  - unfold dispatch. rewrite Hq.
    change (String.eqb InterchainQueryTypeTX InterchainQueryTypeKV) with false.
    change (String.eqb InterchainQueryTypeTX InterchainQueryTypeTX) with true.
    cbv iota. unfold bind at 1.
    match goal with
    | |- context [processMessageTX r Background ?m w] =>
        destruct (processMessageTX_contexts Background m w) as [tr [Ha Hc]];
        destruct (processMessageTX r Background m w) as [[e|] w2]
    end; cbn [snd] in Ha; unfold after in Ha;
      eexists (tr ++ [_]);
      (split;
       [ unfold after, emit; cbn; rewrite Ha, <- app_assoc; reflexivity
       | unfold contexts in *; rewrite flat_map_app; cbn; rewrite app_nil_r;
         exact Hc ]).
  - intros ctx'. unfold dispatch. rewrite Hq. reflexivity.
Qed.

End Cursor.

(** ** The height store of the specification *)

(** An open store takes every write and reads it back; a query that was
    never written is reported as not found. *)
Lemma LevelDB_read_after_write (db : LevelDB) (queryID height : Z) :
  closed db = false ->
  snd (SetLastQueryHeight LevelDBStorage db queryID height) = None /\
  GetLastQueryHeight LevelDBStorage
    (fst (SetLastQueryHeight LevelDBStorage db queryID height)) queryID
  = (height, None).
Proof.
  intros Hopen. cbn. rewrite Hopen. cbn.
  rewrite lookup_insert_eq. split; reflexivity.
Qed.

Lemma LevelDB_absent (db : LevelDB) (queryID : Z) :
  closed db = false ->
  heights db !! queryID = None ->
  GetLastQueryHeight LevelDBStorage db queryID = (0, Some ErrNotFound).
Proof. intros Hopen Habs. cbn. rewrite Hopen, Habs. reflexivity. Qed.

(** On that store, the first look at a query that was never written
    leaves height 0 behind, and the next look finds it. *)
Lemma LevelDB_first_look (r : Relayer LevelDB) (queryID : Z) (w : World LevelDB) :
  storage r = LevelDBStorage ->
  closed (store w) = false ->
  heights (store w) !! queryID = None ->
  let w1 := snd (getLastQueryHeight r queryID w) in
  fst (getLastQueryHeight r queryID w) = (0, None) /\
  heights (store w1) !! queryID = Some 0 /\
  getLastQueryHeight r queryID w1
  = ((0, None),
     {| store := store w1; trace := trace w1 ++ [EvGetLastQueryHeight queryID] |}).
Proof.
  intros Hst Hopen Habs w1.
  pose proof (LevelDB_absent _ _ Hopen Habs) as Hget. rewrite <- Hst in Hget.
  pose proof (getLastQueryHeight_init r _ _ _ Hget) as Hinit.
  destruct (LevelDB_read_after_write (store w) queryID 0 Hopen) as [Hok Hback].
  rewrite <- Hst in Hok, Hback.
  destruct (SetLastQueryHeight (storage r) (store w) queryID 0) as [s1 err] eqn:Hset.
  cbn [fst snd] in Hok, Hback. subst err.
  subst w1. rewrite Hinit. cbn [fst snd store].
  split; [reflexivity |]. split.
  - rewrite Hst in Hset. cbn in Hset. rewrite Hopen in Hset.
    injection Hset as <-. cbn. apply lookup_insert_eq.
  - apply (getLastQueryHeight_found r queryID 0
             {| store := s1;
                trace := trace w ++ [EvGetLastQueryHeight queryID;
                                     EvSetLastQueryHeight queryID 0] |}).
    exact Hback.
Qed.

(** ** The statements at a concrete relayer *)

Lemma getLastQueryHeight_initializes_once_witness :
  let r := fixtures.relayer None None in
  let w := fixtures.world fixtures.empty_db in
  let s1 := fixtures.db_with 7 0 in
  GetLastQueryHeight (storage r) (store w) 7 = (0, Some ErrNotFound) /\
  SetLastQueryHeight (storage r) (store w) 7 0 = (s1, None) /\
  GetLastQueryHeight (storage r) s1 7 = (0, None) /\
  (exists w1 w2 tr1 tr2,
      getLastQueryHeight r 7 w = ((0, None), w1) /\
      after w tr1 w1 /\ writes tr1 = [(7, 0)] /\ store w1 = s1 /\
      getLastQueryHeight r 7 w1 = ((0, None), w2) /\
      after w1 tr2 w2 /\ writes tr2 = [] /\ store w2 = s1) /\
  (forall w', is_ErrNotFound (snd (fst (getLastQueryHeight r 7 w'))) = false).
Proof.
  cbv zeta.
  split; [vm_compute; reflexivity |].
  split; [vm_compute; reflexivity |].
  split; [vm_compute; reflexivity |].
  apply (getLastQueryHeight_initializes_once (fixtures.relayer None None) 7 0
           (fixtures.world fixtures.empty_db) (fixtures.db_with 7 0));
    vm_compute; reflexivity.
Defined.

Lemma buildTxQuery_appends_height_item_witness :
  let r := fixtures.relayer None None in
  let m := fixtures.tx_message in
  let w := fixtures.world (fixtures.db_with 7 100) in
  json_Unmarshal r (MTX_TransactionsFilter m) = Ok fixtures.transfer_filter /\
  (forall h,
      GetLastQueryHeight (storage r) (store w) (QueryId m) = (h, None) ->
      fst (buildTxQuery r m w)
      = (Some (fixtures.transfer_filter ++ [height_item h]), None)) /\
  (forall h0 s1,
      GetLastQueryHeight (storage r) (store w) (QueryId m) = (h0, Some ErrNotFound) ->
      SetLastQueryHeight (storage r) (store w) (QueryId m) 0 = (s1, None) ->
      fst (buildTxQuery r m w)
      = (Some (fixtures.transfer_filter ++ [height_item 0]), None)).
Proof.
  cbv zeta.
  split; [vm_compute; reflexivity |].
  apply (buildTxQuery_appends_height_item (fixtures.relayer None None)
           fixtures.tx_message fixtures.transfer_filter
           (fixtures.world (fixtures.db_with 7 100))).
  vm_compute; reflexivity.
Defined.

Lemma dispatch_tx_runs_on_background_context_witness :
  let r := fixtures.relayer None None in
  let w := fixtures.world fixtures.empty_db in
  QueryType fixtures.tx_query = InterchainQueryTypeTX /\
  ((exists tr, after w tr (snd (dispatch r (WithCancel 1) fixtures.tx_query w)) /\
      Forall (fun c => c = Background) (contexts tr)) /\
   (forall ctx', dispatch r ctx' fixtures.tx_query w
                 = dispatch r (WithCancel 1) fixtures.tx_query w)).
Proof.
  cbv zeta.
  split; [reflexivity |].
  apply (dispatch_tx_runs_on_background_context (fixtures.relayer None None)
           (WithCancel 1) fixtures.tx_query (fixtures.world fixtures.empty_db)).
  reflexivity.
Defined.

(** The scenarios of the specification, run. *)

(** First run with filter [message.action = transfer]. *)
Example first_run_filter :
  fst (buildTxQuery (fixtures.relayer None None) fixtures.tx_message
         (fixtures.world fixtures.empty_db))
  = (Some [ {| Field := "message.action"; Op := "eq"; Value := any_string "transfer" |};
            {| Field := "tx.height"; Op := "gt"; Value := any_uint64 0 |} ], None).
Proof. vm_compute. reflexivity. Qed.

(** A submission that fails with "insufficient fees" leaves the stored
    height of the query where it was. *)
Example insufficient_fees_keeps_height :
  let r := fixtures.relayer None (Some fixtures.insufficient_fees) in
  let '(err, w') := processMessageTX r Background fixtures.tx_message
                      (fixtures.world (fixtures.db_with 7 100)) in
  err = Some (wrapError "failed to process txs: " fixtures.insufficient_fees) /\
  store w' = fixtures.db_with 7 100 /\
  writes (trace w') = [].
Proof. vm_compute. repeat split; reflexivity. Qed.

(** A successful cycle moves the stored height to the one processed. *)
Example successful_cycle_moves_height :
  let r := fixtures.relayer None None in
  let '(err, w') := processMessageTX r Background fixtures.tx_message
                      (fixtures.world (fixtures.db_with 7 10)) in
  err = None /\ store w' = fixtures.db_with 7 15 /\ writes (trace w') = [(7, 15)].
Proof. vm_compute. repeat split; reflexivity. Qed.

(** One pass of [Run] over a TX task and a KV task under the caller's
    context [WithCancel 1], cancelled at the third [select]: the TX
    collaborators see the background context, the KV processor sees
    the caller's; the store is closed on the way out. *)
Example Run_contexts :
  let r := fixtures.relayer None None in
  let kv := {| Id := 8; QueryType := "kv"; Keys := []; RQ_TransactionsFilter := EmptyString |} in
  let '(res, w') := Run r 5 (fun tick => Nat.leb 2 tick) 0 (WithCancel 1)
                      [fixtures.tx_query; kv] (fixtures.world fixtures.empty_db) in
  res = Some None /\
  contexts (trace w') = [Background; Background; WithCancel 1] /\
  last (trace w') = Some EvClose /\
  closed (store w') = true.
Proof. vm_compute. repeat split; reflexivity. Qed.

End relay_proofs.

(* ===================================================================== *)
(** * The transaction sender                                               *)
(* ===================================================================== *)

Module submit_proofs.
Import submit gasmath.

(** ** Truncation of a binary64 number *)

Lemma Qfloor_dyadic (m : positive) (e : Z) :
  Qfloor (inject_Z (Z.pos m) * Qpower 2 e)
  = if 0 <=? e then Z.pos m * 2 ^ e else Z.pos m / 2 ^ (- e).
Proof.
  destruct (Z.leb_spec 0 e) as [He|He].
  - rewrite <- (Qfloor_Z (Z.pos m * 2 ^ e)).
    apply Qfloor_comp.
    rewrite inject_Z_mult, (Zpower_Qpower 2 e He). reflexivity.
  - rewrite Zdiv_Qdiv. apply Qfloor_comp.
    unfold Qdiv. apply Qmult_comp; [reflexivity |].
    rewrite (Zpower_Qpower 2 (- e)) by lia.
    rewrite <- Qpower_opp, Z.opp_involutive. reflexivity.
Qed.

(** The truncation of a dyadic number is not negative. *)
Lemma dyadic_truncation_nonneg (m : positive) (e : Z) :
  0 <= (if 0 <=? e then Z.pos m * 2 ^ e else Z.pos m / 2 ^ (- e)).
Proof.
  destruct (Z.leb_spec 0 e).
  - apply Z.mul_nonneg_nonneg; [lia |]. apply Z.pow_nonneg; lia.
  - apply Z.div_pos; [lia |]. apply Z.pow_pos_nonneg; lia.
Qed.

(** [uint64(f)], case by case on the number [f] stands for: the floor
    of a non-negative number below 2^64; the ceiling, reduced modulo
    2^64, of a negative number whose ceiling is above -2^63; and 2^63
    for every other number, for the infinities and for NaN. *)
Lemma uint64_of_float64_cases (f : float64) :
  match float64_to_Q f with
  | Some v =>
      ((0 <= v)%Q -> Qfloor v < 2 ^ 64 -> uint64_of_float64 f = Qfloor v) /\
      ((v < 0)%Q -> - 2 ^ 63 < Qceiling v ->
       uint64_of_float64 f = Qceiling v mod 2 ^ 64) /\
      (2 ^ 64 <= Qfloor v \/ Qceiling v <= - 2 ^ 63 -> uint64_of_float64 f = 2 ^ 63)
  | None => uint64_of_float64 f = 2 ^ 63
  end.
Proof.
  destruct f as [s | s | | s m e]; cbn [float64_to_Q]; try reflexivity.
  - (* zero *)
    split; [reflexivity |]. split.
    + intros H. exfalso. exact (Qlt_irrefl 0 H).
    + change (Qfloor 0) with 0. change (Qceiling 0) with 0.
      change (2 ^ 64) with 18446744073709551616.
      change (2 ^ 63) with 9223372036854775808. lia.
  - (* finite *)
    set (w := (inject_Z (Z.pos m) * Qpower 2 e)%Q).
    assert (Hpos : (0 < w)%Q).
    { apply Qmult_lt_0_compat; [reflexivity | apply Qpower_0_lt; reflexivity]. }
    pose proof (Qfloor_dyadic m e) as Hfloor. fold w in Hfloor.
    pose proof (dyadic_truncation_nonneg m e) as Hq.
    cbn [uint64_of_float64]. cbv zeta.
    set (q := if 0 <=? e then Z.pos m * 2 ^ e else Z.pos m / 2 ^ (- e)) in *.
    clearbody q.
    change (2 ^ 64) with 18446744073709551616.
    change (2 ^ 63) with 9223372036854775808.
    destruct s.
    + (* negative *)
      assert (Hceil : Qceiling (- w) = - q).
      { unfold Qceiling. rewrite <- Hfloor. f_equal.
        apply Qfloor_comp. apply Qopp_involutive. }
      assert (Hneg : (- w < 0)%Q).
      { apply Qopp_lt_compat in Hpos. exact Hpos. }
      rewrite Hceil. split; [| split].
      * intros Hnn. exfalso. apply (Qlt_irrefl 0).
        apply Qle_lt_trans with (1 := Hnn). exact Hneg.
      * intros _ Hgt.
        destruct (Z.ltb_spec (Z.opp 9223372036854775808) (- q)); [| lia].
        destruct (Z.ltb_spec (- q) 18446744073709551616); [| lia].
        reflexivity.
      * intros [Hbig | Hsmall].
        -- exfalso.
           assert (Hfl : (inject_Z (Qfloor (- w)) < 0)%Q).
           { apply Qle_lt_trans with (2 := Hneg). apply Qfloor_le. }
           change 0%Q with (inject_Z 0) in Hfl. rewrite <- Zlt_Qlt in Hfl. lia.
        -- destruct (Z.ltb_spec (Z.opp 9223372036854775808) (- q)); [lia |].
           reflexivity.
    + (* positive *)
      rewrite Hfloor. split; [| split].
      * intros _ Hlt.
        destruct (Z.ltb_spec (Z.opp 9223372036854775808) q); [| lia].
        destruct (Z.ltb_spec q 18446744073709551616); [| lia].
        cbn [andb]. unfold uint64. apply Z.mod_small.
        change (2 ^ 64) with 18446744073709551616. lia.
      * intros Hneg. exfalso. apply (Qlt_irrefl 0).
        apply Qlt_trans with (1 := Hpos). exact Hneg.
      * intros [Hbig | Hsmall].
        -- destruct (Z.ltb_spec q 18446744073709551616); [lia |].
           rewrite andb_false_r. reflexivity.
        -- exfalso.
           assert (Hc : (0 < inject_Z (Qceiling w))%Q).
           { apply Qlt_le_trans with (1 := Hpos). apply Qle_ceiling. }
           change 0%Q with (inject_Z 0) in Hc. rewrite <- Zlt_Qlt in Hc. lia.
Qed.

(** [uint64(f)] is the floor of a finite, non-negative [f] below 2^64. *)
Lemma uint64_of_float64_floor (f : float64) (v : Q) :
  float64_to_Q f = Some v ->
  (0 <= v)%Q ->
  Qfloor v < 2 ^ 64 ->
  uint64_of_float64 f = Qfloor v.
Proof.
  intros Hv Hnn Hlt. pose proof (uint64_of_float64_cases f) as H.
  rewrite Hv in H. exact (proj1 H Hnn Hlt).
Qed.

Section Sender.
Context {TxB : Type} (cc : TxSender TxB).

(** Once the account, the gas and the signed bytes are there, [Send]
    is the broadcast. *)
Lemma Send_reaches_broadcast (ctx : context) (sender : string) (msgs : list Msg)
    (account : BaseAccount) (gasNeeded : Z) (bz : slice) :
  queryAccount cc ctx sender = Return (Some account, None) ->
  let txf := WithSequence (WithAccountNumber (baseTxf cc) (AccountNumber account))
               (Sequence account) in
  calculateGas cc ctx txf msgs = (gasNeeded, None) ->
  buildTxBz cc (WithGasPrices (WithGas txf gasNeeded) (ts_gasPrices cc)) msgs
  = (bz, None) ->
  Send cc ctx sender msgs = Return (broadcast cc ctx bz).
Proof.
  intros Hacc txf Hgas Hbz. unfold Send.
  rewrite Hacc. fold txf. rewrite Hgas, Hbz. reflexivity.
Qed.

(** An unknown broadcast type never lets [Send] succeed. *)
Lemma Send_unknown_type_fails (ctx : context) (sender : string) (msgs : list Msg)
    (name : string) :
  txBroadcastType cc = BroadcastOther name ->
  Send cc ctx sender msgs <> Return None.
Proof.
  intros Hmode. unfold Send.
  destruct (queryAccount cc ctx sender) as [[[account|] [err|]]|reason];
    try discriminate.
  destruct (calculateGas cc ctx _ msgs) as [gasNeeded [err|]]; try discriminate.
  destruct (buildTxBz cc _ msgs) as [bz [err|]]; try discriminate.
  unfold broadcast. rewrite Hmode. discriminate.
Qed.

(** C2 (broadcast outcome per mode), as the code has it.  Once the
    account, the gas and the signed bytes are there and the node
    answered the broadcast call: under Commit, [Send] returns nil iff
    the CheckTx code and the DeliverTx code are both 0; under Sync
    iff the response code is 0; under Async also iff the response
    code is 0 (the code of the response is checked in this mode as
    well).  On a non-zero code the message of the returned error ends
    with the log string(s) of the chain, verbatim. *)
Theorem Send_broadcast_outcome (ctx : context) (sender : string) (msgs : list Msg)
    (account : BaseAccount) (gasNeeded : Z) (bz : slice) :
  queryAccount cc ctx sender = Return (Some account, None) ->
  let txf := WithSequence (WithAccountNumber (baseTxf cc) (AccountNumber account))
               (Sequence account) in
  calculateGas cc ctx txf msgs = (gasNeeded, None) ->
  buildTxBz cc (WithGasPrices (WithGas txf gasNeeded) (ts_gasPrices cc)) msgs
  = (bz, None) ->
  (forall res,
      txBroadcastType cc = BroadcastTxCommit ->
      RPC_BroadcastTxCommit (rpcClient cc) ctx bz = Ok res ->
      (Send cc ctx sender msgs = Return None <->
       Tx_Code (CheckTx res) = 0 /\ Tx_Code (DeliverTx res) = 0) /\
      (~ (Tx_Code (CheckTx res) = 0 /\ Tx_Code (DeliverTx res) = 0) ->
       exists e prefix infix,
         Send cc ctx sender msgs = Return (Some e) /\
         Error e = (prefix ++ Tx_Log (CheckTx res) ++ infix
                    ++ Tx_Log (DeliverTx res))%string)) /\
  (forall res,
      txBroadcastType cc = BroadcastTxSync ->
      RPC_BroadcastTxSync (rpcClient cc) ctx bz = Ok res ->
      (Send cc ctx sender msgs = Return None <-> BTx_Code res = 0) /\
      (BTx_Code res <> 0 ->
       exists e prefix,
         Send cc ctx sender msgs = Return (Some e) /\
         Error e = (prefix ++ BTx_Log res)%string)) /\
  (forall res,
      txBroadcastType cc = BroadcastTxAsync ->
      RPC_BroadcastTxAsync (rpcClient cc) ctx bz = Ok res ->
      (Send cc ctx sender msgs = Return None <-> BTx_Code res = 0) /\
      (BTx_Code res <> 0 ->
       exists e prefix,
         Send cc ctx sender msgs = Return (Some e) /\
         Error e = (prefix ++ BTx_Log res)%string)).
Proof.
  intros Hacc txf Hgas Hbz.
  rewrite (Send_reaches_broadcast _ _ _ _ _ _ Hacc Hgas Hbz).
  unfold broadcast.
  split; [| split]; intros res Hmode Hrpc; rewrite Hmode, Hrpc.
  - destruct (Z.eqb_spec (Tx_Code (CheckTx res)) 0) as [Hc|Hc];
      destruct (Z.eqb_spec (Tx_Code (DeliverTx res)) 0) as [Hd|Hd]; cbn [andb];
      (split; [split; [intros H; (tauto || discriminate) | intros [? ?]; (reflexivity || contradiction)] |]);
      intros Hn; try tauto;
      (eexists; eexists; eexists; split; [reflexivity | cbn [Error]; reflexivity]).
  - destruct (Z.eqb_spec (BTx_Code res) 0) as [Hc|Hc];
      (split; [split; [intros H; (tauto || discriminate) | intros ?; (reflexivity || contradiction)] |]);
      intros Hn; try tauto;
      (eexists; eexists; split; [reflexivity | cbn [Error]; reflexivity]).
  - destruct (Z.eqb_spec (BTx_Code res) 0) as [Hc|Hc];
      (split; [split; [intros H; (tauto || discriminate) | intros ?; (reflexivity || contradiction)] |]);
      intros Hn; try tauto;
      (eexists; eexists; split; [reflexivity | cbn [Error]; reflexivity]).
Qed.

(** With gas info in the decoded response, [calculateGas] returns
    the gas of its last line, whatever else the response carries. *)
Lemma calculateGas_with_gas_info (ctx : context) (txf : Factory) (msgs : list Msg)
    (simulation : slice) (res : ResultABCIQuery) (simRes : SimulateResponse)
    (gasInfo : GasInfo) :
  buildSimulationTx cc txf msgs = (simulation, None) ->
  ABCIQueryWithOptions (rpcClient cc) ctx "/cosmos.tx.v1beta1.Service/Simulate"
    simulation = Ok res ->
  SimulateResponse_Unmarshal (txConfig cc) (RespValue (Response res)) = Ok simRes ->
  SimGasInfo simRes = Some gasInfo ->
  calculateGas cc ctx txf msgs
  = (gasNeeded (gasAdjustment txf) (GasUsed gasInfo), None).
Proof.
  intros Hsim Hrpc Hdec Hgas. unfold calculateGas.
  rewrite Hsim, Hrpc, Hdec, Hgas. reflexivity.
Qed.

(** The simulation endpoint fails: so does [calculateGas]. *)
Lemma calculateGas_endpoint_error (ctx : context) (txf : Factory) (msgs : list Msg)
    (simulation : slice) (err : error) :
  buildSimulationTx cc txf msgs = (simulation, None) ->
  ABCIQueryWithOptions (rpcClient cc) ctx "/cosmos.tx.v1beta1.Service/Simulate"
    simulation = Err err ->
  calculateGas cc ctx txf msgs = (0, Some err).
Proof.
  intros Hsim Hrpc. unfold calculateGas. rewrite Hsim, Hrpc. reflexivity.
Qed.

(** The response has no gas info: [calculateGas] fails, and the error
    tells the log and the code of the response. *)
Lemma calculateGas_no_gas_info (ctx : context) (txf : Factory) (msgs : list Msg)
    (simulation : slice) (res : ResultABCIQuery) (simRes : SimulateResponse) :
  buildSimulationTx cc txf msgs = (simulation, None) ->
  ABCIQueryWithOptions (rpcClient cc) ctx "/cosmos.tx.v1beta1.Service/Simulate"
    simulation = Ok res ->
  SimulateResponse_Unmarshal (txConfig cc) (RespValue (Response res)) = Ok simRes ->
  SimGasInfo simRes = None ->
  exists err, calculateGas cc ctx txf msgs = (0, Some err).
Proof.
  intros Hsim Hrpc Hdec Hgas. unfold calculateGas.
  rewrite Hsim, Hrpc, Hdec, Hgas. eexists. reflexivity.
Qed.

(** C3 (gas from the simulation), as the code has it.  For every gas
    adjustment and every gas used, when the simulation answers with gas
    info [calculateGas] returns [uint64(gasAdjustment * float64(gasUsed))],
    a function of the two inputs alone.  With [v] the number the
    binary64 product stands for, that is: the floor of [v] (the fraction
    is dropped, not rounded up) when [v] is not negative and its floor
    is below 2^64; the ceiling of [v] reduced modulo 2^64 when [v] is
    negative and its ceiling above -2^63; and 2^63 for every other
    product, an infinite one and NaN included. *)
Theorem calculateGas_truncates_product (ctx : context) (txf : Factory)
    (msgs : list Msg) (simulation : slice) (res : ResultABCIQuery)
    (simRes : SimulateResponse) (gasInfo : GasInfo) :
  buildSimulationTx cc txf msgs = (simulation, None) ->
  ABCIQueryWithOptions (rpcClient cc) ctx "/cosmos.tx.v1beta1.Service/Simulate"
    simulation = Ok res ->
  SimulateResponse_Unmarshal (txConfig cc) (RespValue (Response res)) = Ok simRes ->
  SimGasInfo simRes = Some gasInfo ->
  let gas := gasNeeded (gasAdjustment txf) (GasUsed gasInfo) in
  calculateGas cc ctx txf msgs = (gas, None) /\
  match float64_to_Q
          (float64_mul (gasAdjustment txf) (float64_of_uint64 (GasUsed gasInfo))) with
  | Some v =>
      ((0 <= v)%Q -> Qfloor v < 2 ^ 64 -> gas = Qfloor v) /\
      ((v < 0)%Q -> - 2 ^ 63 < Qceiling v -> gas = Qceiling v mod 2 ^ 64) /\
      (2 ^ 64 <= Qfloor v \/ Qceiling v <= - 2 ^ 63 -> gas = 2 ^ 63)
  | None => gas = 2 ^ 63
  end.
Proof.
  intros Hsim Hrpc Hdec Hgas gas. split.
  - exact (calculateGas_with_gas_info _ _ _ _ _ _ _ Hsim Hrpc Hdec Hgas).
  - exact (uint64_of_float64_cases
             (float64_mul (gasAdjustment txf) (float64_of_uint64 (GasUsed gasInfo)))).
Qed.

(** C8 (simulation failures).  This is what the code does instead:
    the code of the simulation response is not looked at; a response
    with a non-zero code whose value decodes to gas info makes
    [calculateGas] return that gas and a nil error. *)
Theorem calculateGas_accepts_nonzero_code (ctx : context) (txf : Factory)
    (msgs : list Msg) (simulation : slice) (res : ResultABCIQuery)
    (simRes : SimulateResponse) (gasInfo : GasInfo) :
  buildSimulationTx cc txf msgs = (simulation, None) ->
  ABCIQueryWithOptions (rpcClient cc) ctx "/cosmos.tx.v1beta1.Service/Simulate"
    simulation = Ok res ->
  Code (Response res) <> 0 ->
  SimulateResponse_Unmarshal (txConfig cc) (RespValue (Response res)) = Ok simRes ->
  SimGasInfo simRes = Some gasInfo ->
  snd (calculateGas cc ctx txf msgs) = None.
Proof.
  intros Hsim Hrpc _ Hdec Hgas.
  rewrite (calculateGas_with_gas_info _ _ _ _ _ _ _ Hsim Hrpc Hdec Hgas).
  reflexivity.
Qed.

(** C10 (encoder failure while building the simulation transaction).
    When the unsigned transaction is built, the placeholder signature
    is set and the encoder fails, [buildSimulationTx] returns nil
    bytes and a nil error, and [calculateGas] goes on to query the
    Simulate endpoint with nil data: its result is what follows from
    the answer to that query, the encoder's failure is not reported. *)
Theorem buildSimulationTx_swallows_encoder_error (ctx : context) (txf : Factory)
    (msgs : list Msg) (txb txb' : TxB) (e : error) :
  BuildUnsignedTx (txConfig cc) (baseTxf cc) msgs = Ok txb ->
  SetSignatures (txConfig cc) txb
    {| PubKey := []; Data_SignMode := signMode (baseTxf cc);
       Sig_Sequence := sequence txf |} = Ok txb' ->
  TxEncoder (txConfig cc) txb' = Err e ->
  buildSimulationTx cc txf msgs = (None, None) /\
  calculateGas cc ctx txf msgs
  = match ABCIQueryWithOptions (rpcClient cc) ctx
            "/cosmos.tx.v1beta1.Service/Simulate" None with
    | Err err => (0, Some err)
    | Ok res =>
        match SimulateResponse_Unmarshal (txConfig cc) (RespValue (Response res)) with
        | Err err => (0, Some err)
        | Ok simRes =>
            match SimGasInfo simRes with
            | None =>
                (0, Some (errorString
                  ("no result in simulation response with log="
                   ++ Log (Response res) ++ " code="
                   ++ fmt_d (Code (Response res)))%string))
            | Some gasInfo => (gasNeeded (gasAdjustment txf) (GasUsed gasInfo), None)
            end
        end
    end.
Proof.
  intros Hbuild Hsig Henc.
  assert (Hsim : buildSimulationTx cc txf msgs = (None, None)).
  { unfold buildSimulationTx. rewrite Hbuild, Hsig, Henc. reflexivity. }
  split; [exact Hsim |].
  unfold calculateGas. rewrite Hsim. reflexivity.
Qed.

End Sender.

(** A price string that does not parse makes the construction panic,
    whatever the rest of the configuration. *)
Lemma NewTxSender_panics_on_prices {TxB : Type} (rpc : Client) (sdk : SDK TxB)
    (cfg : LidoChainConfig) (err : error) :
  ParseDecCoins sdk (cfg_GasPrices cfg) = Err err ->
  NewTxSender rpc sdk cfg = Panic (Error err).
Proof.
  intros Hparse. unfold NewTxSender, Factory_WithGasPrices. rewrite Hparse.
  reflexivity.
Qed.

(** A sender that [NewTxSender] returned has gas prices that parse: the
    factory method that [Send] calls with them returns. *)
Lemma NewTxSender_prices_parse {TxB : Type} (rpc : Client) (sdk : SDK TxB)
    (cfg : LidoChainConfig) (cc : TxSender TxB) (err : option error) (f : Factory) :
  NewTxSender rpc sdk cfg = Return (cc, err) ->
  err = None /\
  Factory_WithGasPrices (txConfig cc) f (ts_gasPrices cc)
  = Return (WithGasPrices f (ts_gasPrices cc)).
Proof.
  unfold NewTxSender, Factory_WithGasPrices.
  destruct (ParseDecCoins sdk (cfg_GasPrices cfg)) as [prices|e] eqn:Hparse;
    [| discriminate].
  intros [= <- <-]. cbn [txConfig ts_gasPrices]. rewrite Hparse.
  split; reflexivity.
Qed.

(** C7 (unknown broadcast type), as the code has it.  A configured
    broadcast type other than Sync, Async and Commit is not looked at by
    [NewTxSender]: for a configuration whose gas prices parse (the one
    thing the construction can fail on, by a panic) it returns a sender
    that holds the type, and no error.  The type is reported by each
    call of [Send]: [Send] never returns nil, and once the account, the
    gas and the signed bytes are there it returns the error "not
    implemented transaction send type: <type>". *)
Theorem unknown_broadcast_type_fails_per_call {TxB : Type} (rpc : Client)
    (sdk : SDK TxB) (cfg : LidoChainConfig) (name : string)
    (prices : list DecCoin) :
  cfg_TxBroadcastType cfg = BroadcastOther name ->
  ParseDecCoins sdk (cfg_GasPrices cfg) = Ok prices ->
  exists cc,
    NewTxSender rpc sdk cfg = Return (cc, None) /\
    txBroadcastType cc = BroadcastOther name /\
    (forall ctx sender msgs, Send cc ctx sender msgs <> Return None) /\
    (forall ctx sender msgs account gas bz,
        queryAccount cc ctx sender = Return (Some account, None) ->
        calculateGas cc ctx
          (WithSequence (WithAccountNumber (baseTxf cc) (AccountNumber account))
             (Sequence account)) msgs = (gas, None) ->
        buildTxBz cc
          (WithGasPrices
             (WithGas
                (WithSequence (WithAccountNumber (baseTxf cc) (AccountNumber account))
                   (Sequence account)) gas) (ts_gasPrices cc)) msgs = (bz, None) ->
        Send cc ctx sender msgs
        = Return (Some (errorString
            ("not implemented transaction send type: " ++ name)%string))).
Proof.
  intros Hmode Hparse.
  unfold NewTxSender, Factory_WithGasPrices. rewrite Hparse.
  eexists. split; [reflexivity |].
  match goal with
  | |- txBroadcastType ?c = _ /\ _ => set (cc := c)
  end.
  assert (Hcc : txBroadcastType cc = BroadcastOther name) by exact Hmode.
  split; [exact Hcc |]. split.
  - intros ctx sender msgs. exact (Send_unknown_type_fails cc ctx sender msgs name Hcc).
  - intros ctx sender msgs account gas bz Hacc Hgas Hbz.
    rewrite (Send_reaches_broadcast cc _ _ _ _ _ _ Hacc Hgas Hbz).
    unfold broadcast. rewrite Hcc. reflexivity.
Qed.

(** ** The statements at a concrete sender *)

Import sender_fixtures.

(** Async mode, the node takes the call and answers with code 5:
    [Send] reports the error. *)
Lemma Send_async_checks_code :
  let cc := sender BroadcastTxAsync (sim_gas_3 0) rejected true in
  txBroadcastType cc = BroadcastTxAsync /\
  RPC_BroadcastTxAsync (rpcClient cc) Background (Some [Byte.x0a; Byte.x01])
  = Ok rejected /\
  Send cc Background sender_address [proof_msg]
  = Return (Some (errorString
      "error broadcasting async transaction with log=insufficient fees")) /\
  Send cc Background sender_address [proof_msg] <> Return None.
Proof.
  cbv zeta. split; [reflexivity |]. split; [reflexivity |].
  split; [vm_compute; reflexivity | vm_compute; discriminate].
Qed.

Lemma Send_broadcast_outcome_witness :
  let cc := sender BroadcastTxAsync (sim_gas_3 0) rejected true in
  let ctx := Background in
  let msgs := [proof_msg] in
  let bz := Some [Byte.x0a; Byte.x01] in
  queryAccount cc ctx sender_address
  = Return (Some {| AccountNumber := 1; Sequence := 2 |}, None) /\
  calculateGas cc ctx (txf_of cc) msgs = (4, None) /\
  buildTxBz cc (WithGasPrices (WithGas (txf_of cc) 4) (ts_gasPrices cc)) msgs
  = (bz, None) /\
  ((forall res,
       txBroadcastType cc = BroadcastTxCommit ->
       RPC_BroadcastTxCommit (rpcClient cc) ctx bz = Ok res ->
       (Send cc ctx sender_address msgs = Return None <->
        Tx_Code (CheckTx res) = 0 /\ Tx_Code (DeliverTx res) = 0) /\
       (~ (Tx_Code (CheckTx res) = 0 /\ Tx_Code (DeliverTx res) = 0) ->
        exists e prefix infix,
          Send cc ctx sender_address msgs = Return (Some e) /\
          Error e = (prefix ++ Tx_Log (CheckTx res) ++ infix
                     ++ Tx_Log (DeliverTx res))%string)) /\
   (forall res,
       txBroadcastType cc = BroadcastTxSync ->
       RPC_BroadcastTxSync (rpcClient cc) ctx bz = Ok res ->
       (Send cc ctx sender_address msgs = Return None <-> BTx_Code res = 0) /\
       (BTx_Code res <> 0 ->
        exists e prefix,
          Send cc ctx sender_address msgs = Return (Some e) /\
          Error e = (prefix ++ BTx_Log res)%string)) /\
   (forall res,
       txBroadcastType cc = BroadcastTxAsync ->
       RPC_BroadcastTxAsync (rpcClient cc) ctx bz = Ok res ->
       (Send cc ctx sender_address msgs = Return None <-> BTx_Code res = 0) /\
       (BTx_Code res <> 0 ->
        exists e prefix,
          Send cc ctx sender_address msgs = Return (Some e) /\
          Error e = (prefix ++ BTx_Log res)%string))).
Proof.
  cbv zeta.
  split; [vm_compute; reflexivity |].
  split; [vm_compute; reflexivity |].
  split; [vm_compute; reflexivity |].
  apply (Send_broadcast_outcome
           (sender BroadcastTxAsync (sim_gas_3 0) rejected true)
           Background sender_address [proof_msg]
           {| AccountNumber := 1; Sequence := 2 |} 4
           (Some [Byte.x0a; Byte.x01]));
    vm_compute; reflexivity.
Defined.

(** Gas adjustment 1.5, 3 units of gas used: the code computes 4, the
    ceiling of the product is 5. *)
Lemma calculateGas_not_ceiling :
  let cc := sender BroadcastTxSync (sim_gas_3 0) accepted true in
  gasAdjustment (txf_of cc) = one_and_a_half /\
  float64_to_Q one_and_a_half = Some (6755399441055744 # 4503599627370496)%Q /\
  calculateGas cc Background (txf_of cc) [proof_msg] = (4, None) /\
  ceil_gas one_and_a_half 3 = Some 5 /\
  Some (fst (calculateGas cc Background (txf_of cc) [proof_msg]))
  <> ceil_gas one_and_a_half 3.
Proof.
  cbv zeta. split; [reflexivity |]. split; [vm_compute; reflexivity |].
  split; [vm_compute; reflexivity |]. split; [vm_compute; reflexivity |].
  vm_compute. discriminate.
Qed.

Lemma calculateGas_truncates_product_witness :
  let cc := sender BroadcastTxSync (sim_gas_3 0) accepted true in
  let txf := txf_of cc in
  let res := {| Response := sim_gas_3 0 |} in
  let simRes := {| SimGasInfo := Some {| GasWanted := 0; GasUsed := 3 |} |} in
  buildSimulationTx cc txf [proof_msg] = (Some [Byte.x0a; Byte.x01], None) /\
  ABCIQueryWithOptions (rpcClient cc) Background simulate_path
    (Some [Byte.x0a; Byte.x01]) = Ok res /\
  SimulateResponse_Unmarshal (txConfig cc) (RespValue (Response res)) = Ok simRes /\
  (let gas := gasNeeded (gasAdjustment txf) 3 in
   calculateGas cc Background txf [proof_msg] = (gas, None) /\
   match float64_to_Q (float64_mul (gasAdjustment txf) (float64_of_uint64 3)) with
   | Some v =>
       ((0 <= v)%Q -> Qfloor v < 2 ^ 64 -> gas = Qfloor v) /\
       ((v < 0)%Q -> - 2 ^ 63 < Qceiling v -> gas = Qceiling v mod 2 ^ 64) /\
       (2 ^ 64 <= Qfloor v \/ Qceiling v <= - 2 ^ 63 -> gas = 2 ^ 63)
   | None => gas = 2 ^ 63
   end).
Proof.
  cbv zeta.
  split; [vm_compute; reflexivity |].
  split; [vm_compute; reflexivity |].
  split; [vm_compute; reflexivity |].
  apply (calculateGas_truncates_product
           (sender BroadcastTxSync (sim_gas_3 0) accepted true)
           Background
           (txf_of (sender BroadcastTxSync (sim_gas_3 0) accepted true))
           [proof_msg] (Some [Byte.x0a; Byte.x01])
           {| Response := sim_gas_3 0 |}
           {| SimGasInfo := Some {| GasWanted := 0; GasUsed := 3 |} |}
           {| GasWanted := 0; GasUsed := 3 |});
    vm_compute; reflexivity.
Defined.

(** The gas of some products: 1.5 x 3 is 4.5 and gives 4; 1.0 x (2^64 - 1)
    is rounded to 2^64 by [float64(gasUsed)] and gives 2^63; -1.5 x 3 is
    -4.5 and gives 2^64 - 4; an infinite adjustment gives 2^63. *)
Example gasNeeded_samples :
  gasNeeded one_and_a_half 3 = 4 /\
  gasNeeded (S754_finite false 4503599627370496 (-52)) (2 ^ 64 - 1) = 2 ^ 63 /\
  gasNeeded (S754_finite true 6755399441055744 (-52)) 3 = 2 ^ 64 - 4 /\
  gasNeeded (S754_infinity false) 3 = 2 ^ 63.
Proof. vm_compute. repeat split; reflexivity. Qed.

(** A sender configured with a broadcast type that does not exist is
    built without error, and its [Send] returns the condition as the
    error of the call. *)
Lemma unknown_type_reaches_Send :
  let cc := sender (BroadcastOther "BroadcastTxBlock") (sim_gas_3 0) accepted true in
  NewTxSender (client (sim_gas_3 0) accepted committed) (sdk true)
    (cfg (BroadcastOther "BroadcastTxBlock")) = Return (cc, None) /\
  txBroadcastType cc = BroadcastOther "BroadcastTxBlock" /\
  Send cc Background sender_address [proof_msg]
  = Return (Some (errorString
      "not implemented transaction send type: BroadcastTxBlock")).
Proof.
  cbv zeta. split; [reflexivity |]. split; [reflexivity |].
  vm_compute. reflexivity.
Qed.

Lemma unknown_broadcast_type_fails_per_call_witness :
  let rpc := client (sim_gas_3 0) accepted committed in
  let c := cfg (BroadcastOther "BroadcastTxBlock") in
  cfg_TxBroadcastType c = BroadcastOther "BroadcastTxBlock" /\
  ParseDecCoins (sdk true) (cfg_GasPrices c)
  = Ok [ {| DC_Denom := "stake"; DC_Amount := "0.5" |} ] /\
  exists cc,
    NewTxSender rpc (sdk true) c = Return (cc, None) /\
    txBroadcastType cc = BroadcastOther "BroadcastTxBlock" /\
    (forall ctx sender msgs, Send cc ctx sender msgs <> Return None) /\
    (forall ctx sender msgs account gas bz,
        queryAccount cc ctx sender = Return (Some account, None) ->
        calculateGas cc ctx
          (WithSequence (WithAccountNumber (baseTxf cc) (AccountNumber account))
             (Sequence account)) msgs = (gas, None) ->
        buildTxBz cc
          (WithGasPrices
             (WithGas
                (WithSequence (WithAccountNumber (baseTxf cc) (AccountNumber account))
                   (Sequence account)) gas) (ts_gasPrices cc)) msgs = (bz, None) ->
        Send cc ctx sender msgs
        = Return (Some (errorString
            "not implemented transaction send type: BroadcastTxBlock"))).
Proof.
  cbv zeta. split; [reflexivity |]. split; [reflexivity |].
  apply (unknown_broadcast_type_fails_per_call
           (client (sim_gas_3 0) accepted committed) (sdk true)
           (cfg (BroadcastOther "BroadcastTxBlock")) "BroadcastTxBlock"
           [ {| DC_Denom := "stake"; DC_Amount := "0.5" |} ]);
    reflexivity.
Defined.

(** A configuration whose gas prices do not parse: the construction
    does not return, whatever the broadcast type. *)
Example NewTxSender_bad_prices :
  NewTxSender (client (sim_gas_3 0) accepted committed) (sdk true)
    {| cfg_ChainID := "test-1"; cfg_ChainPrefix := "neutron";
       cfg_GasAdjustment := one_and_a_half; cfg_GasPrices := "not a coin";
       cfg_Keyring_SignKeyName := "relayer";
       cfg_TxBroadcastType := BroadcastTxSync |}
  = Panic "invalid decimal coin expression".
Proof. reflexivity. Qed.

Lemma calculateGas_accepts_nonzero_code_witness :
  let cc := sender BroadcastTxSync (sim_gas_3 5) accepted true in
  let res := {| Response := sim_gas_3 5 |} in
  let simRes := {| SimGasInfo := Some {| GasWanted := 0; GasUsed := 3 |} |} in
  buildSimulationTx cc (txf_of cc) [proof_msg] = (Some [Byte.x0a; Byte.x01], None) /\
  ABCIQueryWithOptions (rpcClient cc) Background simulate_path
    (Some [Byte.x0a; Byte.x01]) = Ok res /\
  Code (Response res) <> 0 /\
  SimulateResponse_Unmarshal (txConfig cc) (RespValue (Response res)) = Ok simRes /\
  snd (calculateGas cc Background (txf_of cc) [proof_msg]) = None.
Proof.
  cbv zeta.
  split; [vm_compute; reflexivity |].
  split; [vm_compute; reflexivity |].
  split; [vm_compute; discriminate |].
  split; [vm_compute; reflexivity |].
  apply (calculateGas_accepts_nonzero_code
           (sender BroadcastTxSync (sim_gas_3 5) accepted true)
           Background
           (txf_of (sender BroadcastTxSync (sim_gas_3 5) accepted true))
           [proof_msg] (Some [Byte.x0a; Byte.x01])
           {| Response := sim_gas_3 5 |}
           {| SimGasInfo := Some {| GasWanted := 0; GasUsed := 3 |} |}
           {| GasWanted := 0; GasUsed := 3 |});
    try (vm_compute; reflexivity).
  vm_compute; discriminate.
Defined.

(** The response of the simulation has code 5 and gas info: the call
    returns 4 units of gas and no error. *)
Example calculateGas_code_5 :
  let cc := sender BroadcastTxSync (sim_gas_3 5) accepted true in
  calculateGas cc Background (txf_of cc) [proof_msg] = (4, None).
Proof. vm_compute. reflexivity. Qed.

Lemma buildSimulationTx_swallows_encoder_error_witness :
  let cc := sender BroadcastTxSync (sim_gas_3 0) accepted false in
  let txf := txf_of cc in
  let txb := {| tb_factory := baseTxf cc; tb_msgs := [proof_msg]; tb_sigs := [] |} in
  let sig := {| PubKey := []; Data_SignMode := signMode (baseTxf cc);
                Sig_Sequence := sequence txf |} in
  let txb' := {| tb_factory := baseTxf cc; tb_msgs := [proof_msg]; tb_sigs := [sig] |} in
  BuildUnsignedTx (txConfig cc) (baseTxf cc) [proof_msg] = Ok txb /\
  SetSignatures (txConfig cc) txb sig = Ok txb' /\
  TxEncoder (txConfig cc) txb' = Err (errorString "unable to resolve type URL") /\
  buildSimulationTx cc txf [proof_msg] = (None, None) /\
  calculateGas cc Background txf [proof_msg]
  = match ABCIQueryWithOptions (rpcClient cc) Background simulate_path None with
    | Err err => (0, Some err)
    | Ok res =>
        match SimulateResponse_Unmarshal (txConfig cc) (RespValue (Response res)) with
        | Err err => (0, Some err)
        | Ok simRes =>
            match SimGasInfo simRes with
            | None =>
                (0, Some (errorString
                  ("no result in simulation response with log="
                   ++ Log (Response res) ++ " code="
                   ++ fmt_d (Code (Response res)))%string))
            | Some gasInfo => (gasNeeded (gasAdjustment txf) (GasUsed gasInfo), None)
            end
        end
    end.
Proof.
  cbv zeta.
  split; [reflexivity |].
  split; [reflexivity |].
  split; [reflexivity |].
  apply (buildSimulationTx_swallows_encoder_error
           (sender BroadcastTxSync (sim_gas_3 0) accepted false) Background
           (txf_of (sender BroadcastTxSync (sim_gas_3 0) accepted false))
           [proof_msg]
           {| tb_factory := baseTxf (sender BroadcastTxSync (sim_gas_3 0) accepted false);
              tb_msgs := [proof_msg]; tb_sigs := [] |}
           {| tb_factory := baseTxf (sender BroadcastTxSync (sim_gas_3 0) accepted false);
              tb_msgs := [proof_msg];
              tb_sigs := [ {| PubKey := []; Data_SignMode := SIGN_MODE_DIRECT;
                              Sig_Sequence := 2 |} ] |}
           (errorString "unable to resolve type URL"));
    reflexivity.
Defined.

(** With the failing encoder the whole [Send] still goes through the
    simulation, and stops only when the signed transaction is encoded. *)
Example Send_with_failing_encoder :
  let cc := sender BroadcastTxSync (sim_gas_3 0) accepted false in
  buildSimulationTx cc (txf_of cc) [proof_msg] = (None, None) /\
  calculateGas cc Background (txf_of cc) [proof_msg] = (4, None) /\
  Send cc Background sender_address [proof_msg]
  = Return (Some (wrapError "could not build tx bz: "
                    (errorString "unable to resolve type URL"))).
Proof. vm_compute. repeat split; reflexivity. Qed.

End submit_proofs.

(* ===================================================================== *)
(** * The balance proofer                                                  *)
(* ===================================================================== *)

Module proof_impl_proofs.
Import proof_impl.

(** ** Height conversions *)

Lemma int64_zero_iff (h : Z) : 0 <= h < 2 ^ 64 -> (int64 h = 0 <-> h = 0).
Proof.
  unfold int64. change (2 ^ 64) with 18446744073709551616.
  change (2 ^ 63) with 9223372036854775808.
  intros Hh. Z.to_euclidean_division_equations. lia.
Qed.

Lemma uint64_int64 (h : Z) : 0 <= h < 2 ^ 64 -> uint64 (int64 h) = h.
Proof.
  unfold int64, uint64. change (2 ^ 64) with 18446744073709551616.
  change (2 ^ 63) with 9223372036854775808.
  intros Hh. Z.to_euclidean_division_equations. lia.
Qed.

Section Proofer.
Context (p : ProoferImpl).

(** C9 (balance proof).  For an address that decodes under the chain
    prefix and a reader that serves the query (code 0): [GetBalance]
    returns exactly one StorageValue, the one of the reader's answer
    (its value bytes and proof path, under the bank store), whose key
    is the account-balances prefix of the decoded address followed by
    the bytes of the denom, together with the height the reader
    reports to have served; that is the requested height when it was
    positive and the reader served the height it was asked for.  For an
    address that does not decode, [GetBalance] returns the decoding
    error and no values. *)
Theorem GetBalance_single_value (ctx : context) (inputHeight : Z)
    (chainPrefix addr denom : string) (bytesAddress : bytes) (res : ResponseQuery) :
  0 <= inputHeight < 2 ^ 64 ->
  GetFromBech32 (sdk p) addr chainPrefix = Ok bytesAddress ->
  let key := CreateAccountBalancesPrefix (sdk p) bytesAddress
             ++ list_byte_of_string denom in
  ABCIQuery (querier p) ctx "/store/bank/key" key (int64 inputHeight) = Ok res ->
  Code res = 0 ->
  GetBalance p ctx inputHeight chainPrefix addr denom
  = Return (Some [ {| StoragePrefix := "bank"; Key := key;
                      Value := RespValue res; Proofs := ProofOps res |} ],
            uint64 (RespHeight res), None) /\
  (0 < inputHeight -> RespHeight res = int64 inputHeight ->
   uint64 (RespHeight res) = inputHeight) /\
  (forall addr' err,
      GetFromBech32 (sdk p) addr' chainPrefix = Err err ->
      GetBalance p ctx inputHeight chainPrefix addr' denom
      = Return (None, 0, Some err)).
Proof.
  intros Hrange Hdec key Hrpc Hcode. split; [| split].
  - unfold GetBalance, QueryTendermintProof, bank_StoreKey.
    rewrite Hdec. fold key.
    change ("/store/" ++ "bank" ++ "/key")%string with "/store/bank/key".
    rewrite Hrpc, Hcode. reflexivity.
  - intros _ Hserved. rewrite Hserved. apply uint64_int64. exact Hrange.
  - intros addr' err Hfail. unfold GetBalance. rewrite Hfail. reflexivity.
Qed.

End Proofer.

Import proofer_fixtures.

Lemma GetBalance_single_value_witness :
  let key := [Byte.x02; Byte.x14] ++ known_address_bytes
             ++ list_byte_of_string "token" in
  let res := {| Code := 0; Log := EmptyString;
                RespValue := [Byte.x31; Byte.x30; Byte.x30];
                ProofOps := [ {| OpType := "ics23:iavl"; OpKey := key; OpData := [] |} ];
                RespHeight := 100 |} in
  0 <= 100 < 2 ^ 64 /\
  GetFromBech32 (sdk proofer) known_address "neutron" = Ok known_address_bytes /\
  ABCIQuery (querier proofer) Background "/store/bank/key" key (int64 100) = Ok res /\
  Code res = 0 /\
  GetBalance proofer Background 100 "neutron" known_address "token"
  = Return (Some [ {| StoragePrefix := "bank"; Key := key;
                      Value := RespValue res; Proofs := ProofOps res |} ],
            uint64 (RespHeight res), None) /\
  (0 < 100 -> RespHeight res = int64 100 -> uint64 (RespHeight res) = 100) /\
  (forall addr' err,
      GetFromBech32 (sdk proofer) addr' "neutron" = Err err ->
      GetBalance proofer Background 100 "neutron" addr' "token"
      = Return (None, 0, Some err)).
Proof.
  cbv zeta.
  split; [split; [discriminate | reflexivity] |].
  split; [reflexivity |].
  split; [reflexivity |].
  split; [reflexivity |].
  apply (GetBalance_single_value proofer Background 100 "neutron" known_address
           "token" known_address_bytes
           {| Code := 0; Log := EmptyString;
              RespValue := [Byte.x31; Byte.x30; Byte.x30];
              ProofOps := [ {| OpType := "ics23:iavl";
                               OpKey := [Byte.x02; Byte.x14] ++ known_address_bytes
                                        ++ list_byte_of_string "token";
                               OpData := [] |} ];
              RespHeight := 100 |});
    [split; [discriminate | reflexivity] | reflexivity | reflexivity | reflexivity].
Defined.

(** The scenario of the specification: address A, denom "token",
    height 100. *)
Example balance_at_100 :
  GetBalance proofer Background 100 "neutron" known_address "token"
  = Return
      (Some [ {| StoragePrefix := "bank";
                 Key := [Byte.x02; Byte.x14] ++ known_address_bytes
                        ++ list_byte_of_string "token";
                 Value := [Byte.x31; Byte.x30; Byte.x30];
                 Proofs := [ {| OpType := "ics23:iavl";
                                OpKey := [Byte.x02; Byte.x14] ++ known_address_bytes
                                         ++ list_byte_of_string "token";
                                OpData := [] |} ] |} ],
       100, None).
Proof. vm_compute. reflexivity. Qed.

(** Height 0 asks for the latest block; the height served is reported. *)
Example balance_at_latest :
  snd (fst (match GetBalance proofer Background 0 "neutron" known_address "token" with
            | Return r => r
            | Panic _ => (None, 0, None)
            end)) = 250.
Proof. vm_compute. reflexivity. Qed.

(** A requested height from 2^63 on reaches the reader as a negative
    height, which this reader refuses. *)
Example balance_at_huge_height :
  GetBalance proofer Background (2 ^ 63) "neutron" known_address "token"
  = Return (None, 0, Some (wrapError "failed to query tendermint proof for balances: "
                             (errorString "height must not be negative"))).
Proof. vm_compute. reflexivity. Qed.

(** An address of another chain does not decode. *)
Example balance_of_foreign_address :
  GetBalance proofer Background 100 "neutron"
    "cosmos1m9l358xunhhwds0568za49mzhvuxx9uxre5tud" "token"
  = Return (None, 0, Some (errorString "decoding bech32 failed")).
Proof. vm_compute. reflexivity. Qed.

(** A reader that fails: the failure is returned, wrapped, with no
    values. *)
Example balance_from_dead_node :
  GetBalance {| querier := dead_node; sdk := cosmos |} Background 100 "neutron"
    known_address "token"
  = Return (None, 0, Some (wrapError "failed to query tendermint proof for balances: "
                             (errorString "post failed: connection refused"))).
Proof. vm_compute. reflexivity. Qed.

End proof_impl_proofs.


(* ===================================================================== *)
(** * The dispatch loop                                                    *)
(* ===================================================================== *)

Module relay_extra.
Import relay observe loop.

Ltac run :=
  unfold getLastQueryHeight, storage_GetLastQueryHeight, storage_SetLastQueryHeight,
    storage_Close, bind, emit, ret; cbn [store trace fst snd].

Section Loop.
Context {S : Type} (r : Relayer S).

(** ** What a dispatch calls *)

Lemma getLastQueryHeight_calls (queryID : Z) (w : World S) :
  exists tr, after w tr (snd (getLastQueryHeight r queryID w)) /\
    Forall (fun e => is_tx_call e = true) tr.
Proof.
  destruct (relay_proofs.getLastQueryHeight_trace r queryID w)
    as [tr [Ha [[-> _]|[-> _]]]]; eexists; (split; [exact Ha |]);
    repeat constructor.
Qed.

Lemma processMessageTX_calls (ctx : context) (m : MessageTX) (w : World S) :
  exists tr, after w tr (snd (processMessageTX r ctx m w)) /\
    Forall (fun e => is_tx_call e = true) tr.
Proof.
  pose proof (relay_proofs.buildTxQuery_world r m w) as Hw1.
  destruct (getLastQueryHeight_calls (QueryId m) w) as [tr0 [Ha Hc]].
  rewrite <- Hw1 in Ha. clear Hw1.
  unfold processMessageTX. unfold bind at 1.
  destruct (buildTxQuery r m w) as [[queryParams [e|]] w1]; cbn [fst snd] in *.
  - exists tr0. split; assumption.
  - unfold after in Ha. run.
    destruct (TX_ProcessAndSubmit (txProcessor r) ctx (QueryId m) _) as [h [e|]].
    + eexists (tr0 ++ [_; _]). split.
      * unfold after; cbn. rewrite Ha, <- !app_assoc. reflexivity.
      * apply Forall_app; split; [exact Hc | repeat constructor].
    + cbn. destruct (TXQuerier_Err (txQuerier r) ctx _) as [e|].
      * eexists (tr0 ++ [_; _; _]). split.
        -- unfold after; cbn. rewrite Ha, <- !app_assoc. reflexivity.
        -- apply Forall_app; split; [exact Hc | repeat constructor].
      * cbn.
        destruct (SetLastQueryHeight (storage r) (store w1) (QueryId m) h)
          as [s2 [e|]]; cbn;
          (eexists (tr0 ++ [_; _; _; _]); split;
           [ unfold after; cbn; rewrite Ha, <- !app_assoc; reflexivity
           | apply Forall_app; split; [exact Hc | repeat constructor] ]).
Qed.

(** A dispatch is some processing calls followed by one metric. *)
Lemma dispatch_calls (ctx : context) (query : RegisteredQuery) (w : World S) :
  exists tr m, after w (tr ++ [m]) (snd (dispatch r ctx query w)) /\
    Forall (fun e => is_processing_call e = true) tr /\
    is_metric m = true.
Proof.
  unfold dispatch. unfold bind at 1.
  destruct (String.eqb (QueryType query) InterchainQueryTypeKV).
  - unfold processMessageKV. run.
    destruct (KV_ProcessAndSubmit (kvProcessor r) ctx _) as [e|]; cbn;
      (eexists [_]; eexists; split;
       [ unfold after; cbn; rewrite <- !app_assoc; reflexivity
       | split; [repeat constructor | reflexivity] ]).
  - destruct (String.eqb (QueryType query) InterchainQueryTypeTX).
    + match goal with
      | |- context [processMessageTX r Background ?m w] =>
          destruct (processMessageTX_calls Background m w) as [tr [Ha Hc]];
          destruct (processMessageTX r Background m w) as [[e|] w2]
      end; cbn [snd] in Ha; unfold after in Ha;
        (exists tr; eexists; split;
         [ unfold after, emit; cbn; rewrite Ha, <- app_assoc; reflexivity
         | split; [| reflexivity];
           eapply Forall_impl; [exact Hc |];
           intros [] He; cbn in *; congruence ]).
    + unfold ret. cbn. exists []. eexists. split; [reflexivity |].
      split; [constructor | reflexivity].
Qed.

(** ** The loop *)

(** X1.  [Run] returns within [fuel] passes of its loop exactly when the
    context is done at one of those [select]s; under the background
    context it never returns, whatever the queue holds. *)
Theorem Run_returns_iff_context_done (fuel : nat) (cancelled : nat -> bool)
    (tick : nat) (ctx : context) (tasks : list RegisteredQuery) (w : World S) :
  (fst (Run r fuel cancelled tick ctx tasks w) <> None <->
   exists t, (t < fuel)%nat /\ Done cancelled ctx (tick + t)%nat = true) /\
  fst (Run r fuel cancelled tick Background tasks w) = None.
Proof.
  split.
  - revert tick tasks w. induction fuel as [|fuel IH]; intros tick tasks w.
    + cbn. split; [intros H; now contradiction H | intros [t [Ht _]]; lia].
    + cbn [Run]. destruct (Done cancelled ctx tick) eqn:Hd.
      * split.
        -- intros _. exists 0%nat. split; [lia |]. now rewrite Nat.add_0_r.
        -- intros _. unfold bind, ret. destruct (stop r w). discriminate.
      * assert (Hshift : (exists t, (t < fuel)%nat /\
                            Done cancelled ctx (Datatypes.S tick + t)%nat = true) <->
                         (exists t, (t < Datatypes.S fuel)%nat /\
                            Done cancelled ctx (tick + t)%nat = true)).
        { split.
          - intros [t [Ht Hdone]]. exists (Datatypes.S t). split; [lia |].
            now rewrite Nat.add_succ_r.
          - intros [[|t] [Ht Hdone]].
            + rewrite Nat.add_0_r in Hdone. congruence.
            + exists t. split; [lia |]. now rewrite Nat.add_succ_r in Hdone. }
        destruct tasks as [|query tasks'].
        -- rewrite IH. exact Hshift.
        -- unfold bind at 1. destruct (dispatch r ctx query w) as [u w'].
           rewrite IH. exact Hshift.
  - revert tick tasks w. induction fuel as [|fuel IH]; intros tick tasks w.
    + reflexivity.
    + cbn [Run Done]. destruct tasks as [|query tasks'].
      * apply IH.
      * unfold bind at 1. destruct (dispatch r Background query w) as [u w'].
        apply IH.
Qed.


(** X3.  Whenever [Run] returns, closing the store was its last call and
    its only [Close]; the error returned is nil when the close
    succeeded and the fixed "error occurred while stopping relayer"
    error otherwise (the cause of the failure is not part of it). *)
Theorem Run_closes_store_once (fuel : nat) (cancelled : nat -> bool) (tick : nat)
    (ctx : context) (tasks : list RegisteredQuery) (w w' : World S)
    (err : option error) :
  Run r fuel cancelled tick ctx tasks w = (Some err, w') ->
  exists tr s,
    after w (tr ++ [EvClose]) w' /\
    Forall (fun e => is_close e = false) tr /\
    store w' = fst (Close (storage r) s) /\
    err = match snd (Close (storage r) s) with
          | Some _ => Some stop_error
          | None => None
          end.
Proof.
  revert tick tasks w. induction fuel as [|fuel IH]; intros tick tasks w Hret.
  - discriminate Hret.
  - cbn [Run] in Hret. destruct (Done cancelled ctx tick).
    + unfold bind, ret in Hret. rewrite relay_proofs.stop_closes_store in Hret.
      injection Hret as <- <-. exists [], (store w).
      split; [reflexivity |]. split; [constructor |]. split; reflexivity.
    + destruct tasks as [|query tasks'].
      * exact (IH _ _ _ Hret).
      * unfold bind at 1 in Hret.
        destruct (dispatch_calls ctx query w) as [trd [m [Ha [Hc Hm]]]].
        destruct (dispatch r ctx query w) as [u w1]. cbn [snd] in Ha.
        destruct (IH _ _ _ Hret) as [tr [s [Ha' [Hnc [Hst Herr]]]]].
        exists ((trd ++ [m]) ++ tr), s.
        split; [| split; [| split; assumption]].
        -- unfold after in *. rewrite Ha', Ha, <- !app_assoc. reflexivity.
        -- apply Forall_app; split; [apply Forall_app; split |]; [| | exact Hnc].
           ++ eapply Forall_impl; [exact Hc |]. intros [] He; cbn in *; congruence.
           ++ constructor; [| constructor]. destruct m; cbn in *; congruence.
Qed.

(** ** One dispatch *)

(** X4.  Every dispatch records exactly one metric, as its last call; the
    metric is a failure exactly when the processing of the query
    returned an error, and its query-type label is always the empty
    string (the label variable is never assigned). *)
Theorem dispatch_records_one_metric (ctx : context) (query : RegisteredQuery)
    (w : World S) :
  exists tr m,
    after w (tr ++ [m]) (snd (dispatch r ctx query w)) /\
    Forall (fun e => is_metric e = false) tr /\
    (m = EvAddFailedRequest EmptyString \/ m = EvAddSuccessRequest EmptyString) /\
    (QueryType query = InterchainQueryTypeKV ->
     (m = EvAddFailedRequest EmptyString <->
      KV_ProcessAndSubmit (kvProcessor r) ctx
        {| KV_QueryId := Id query; KVKeys := Keys query |} <> None)) /\
    (QueryType query = InterchainQueryTypeTX ->
     (m = EvAddFailedRequest EmptyString <->
      fst (processMessageTX r Background
             {| QueryId := Id query;
                MTX_TransactionsFilter := RQ_TransactionsFilter query |} w) <> None)).
Proof.
  unfold dispatch. unfold bind at 1.
  destruct (String.eqb_spec (QueryType query) InterchainQueryTypeKV) as [Hkv|Hkv].
  - unfold processMessageKV. run.
    destruct (KV_ProcessAndSubmit (kvProcessor r) ctx _) as [e|]; cbn;
      (eexists [_]; eexists; split;
       [ unfold after; cbn; rewrite <- !app_assoc; reflexivity |]);
      (split; [repeat constructor |]).
    + split; [left; reflexivity |]. split.
      * intros _. split; [discriminate | reflexivity].
      * intros Htx. rewrite Hkv in Htx. discriminate Htx.
    + split; [right; reflexivity |]. split.
      * intros _. split; [discriminate | intros H; now contradiction H].
      * intros Htx. rewrite Hkv in Htx. discriminate Htx.
  - destruct (String.eqb_spec (QueryType query) InterchainQueryTypeTX) as [Htx|Htx].
    + match goal with
      | |- context [processMessageTX r Background ?m w] =>
          destruct (processMessageTX_calls Background m w) as [tr [Ha Hc]];
          destruct (processMessageTX r Background m w) as [[e|] w2]
      end; cbn [snd fst] in *; unfold after in Ha;
        (exists tr; eexists; split;
         [ unfold after, emit; cbn; rewrite Ha, <- app_assoc; reflexivity |]);
        (split; [eapply Forall_impl; [exact Hc |];
                 intros [] He; cbn in *; congruence |]).
      * split; [left; reflexivity |]. split; [intros H; contradiction |].
        intros _. split; [discriminate | reflexivity].
      * split; [right; reflexivity |]. split; [intros H; contradiction |].
        intros _. split; [discriminate | intros H; now contradiction H].
    + unfold ret. cbn. exists []. eexists. split; [reflexivity |].
      split; [constructor |]. split; [right; reflexivity |].
      split; intros H; contradiction.
Qed.

(** X5.  Only a TX query makes the dispatch touch the height store: for
    every other query type (KV, or a type the switch does not know) the
    store is left as it was and no call is made on it. *)
Theorem dispatch_touches_store_only_for_tx (ctx : context) (query : RegisteredQuery)
    (w : World S) :
  QueryType query <> InterchainQueryTypeTX ->
  store (snd (dispatch r ctx query w)) = store w /\
  exists tr, after w tr (snd (dispatch r ctx query w)) /\
    Forall (fun e => is_storage_call e = false) tr.
Proof.
  intros Hne. unfold dispatch. unfold bind at 1.
  destruct (String.eqb (QueryType query) InterchainQueryTypeKV).
  - unfold processMessageKV. run.
    destruct (KV_ProcessAndSubmit (kvProcessor r) ctx _) as [e|]; cbn;
      (split; [reflexivity |]); eexists [_; _];
      (split; [unfold after; cbn; rewrite <- !app_assoc; reflexivity
              | repeat constructor]).
  - destruct (String.eqb_spec (QueryType query) InterchainQueryTypeTX) as [Htx|_];
      [contradiction |].
    unfold ret. cbn. split; [reflexivity |]. eexists [_].
    split; [reflexivity | repeat constructor].
Qed.

(** X6.  A query type the switch does not know is dropped without any
    processing and counted as a success. *)
Theorem dispatch_unknown_type_counts_as_success (ctx : context)
    (query : RegisteredQuery) (w : World S) :
  QueryType query <> InterchainQueryTypeKV ->
  QueryType query <> InterchainQueryTypeTX ->
  dispatch r ctx query w
  = (tt, {| store := store w;
            trace := trace w ++ [EvAddSuccessRequest EmptyString] |}).
Proof.
  intros Hkv Htx. unfold dispatch. unfold bind at 1.
  destruct (String.eqb_spec (QueryType query) InterchainQueryTypeKV); [contradiction |].
  destruct (String.eqb_spec (QueryType query) InterchainQueryTypeTX); [contradiction |].
  reflexivity.
Qed.

(** ** The TX cycle and its cursor *)

(** The filter [buildTxQuery] builds depends on the world through the
    store only. *)
Lemma buildTxQuery_store_only (m : MessageTX) (w w' : World S) :
  store w = store w' ->
  fst (buildTxQuery r m w) = fst (buildTxQuery r m w').
Proof.
  intros Hs. unfold buildTxQuery. unfold bind.
  destruct (GetLastQueryHeight (storage r) (store w) (QueryId m)) as [h [e|]] eqn:Hget;
    pose proof Hget as Hget'; rewrite Hs in Hget'.
  - destruct e as [ | msg | prefix e ].
    + rewrite (relay_proofs.getLastQueryHeight_init r _ _ _ Hget),
              (relay_proofs.getLastQueryHeight_init r _ _ _ Hget'), <- Hs.
      destruct (SetLastQueryHeight (storage r) (store w) (QueryId m) 0) as [s1 [e1|]];
        cbn; [reflexivity |].
      destruct (json_Unmarshal r (MTX_TransactionsFilter m)); reflexivity.
    + rewrite (relay_proofs.getLastQueryHeight_failed r _ _ _ _ Hget),
              (relay_proofs.getLastQueryHeight_failed r _ _ _ _ Hget');
        try discriminate. reflexivity.
    + rewrite (relay_proofs.getLastQueryHeight_failed r _ _ _ _ Hget),
              (relay_proofs.getLastQueryHeight_failed r _ _ _ _ Hget');
        try discriminate. reflexivity.
  - rewrite (relay_proofs.getLastQueryHeight_found r _ _ _ Hget),
            (relay_proofs.getLastQueryHeight_found r _ _ _ Hget').
    cbn. destruct (json_Unmarshal r (MTX_TransactionsFilter m)); reflexivity.
Qed.

(** X7.  When the store cannot be read for another reason than "not
    found" (also when the error merely wraps the not-found sentinel),
    the TX cycle stops there: the error comes back wrapped three times,
    nothing is written (the cursor is not reset to 0) and neither
    the search nor the processor is called. *)
Theorem processMessageTX_unreadable_store (ctx : context) (m : MessageTX)
    (w : World S) (h0 : Z) (e : error) :
  GetLastQueryHeight (storage r) (store w) (QueryId m) = (h0, Some e) ->
  e <> ErrNotFound ->
  processMessageTX r ctx m w
  = (Some (wrapError "failed to build tx query params: "
             (wrapError "could not get last query height: "
                (wrapError "failed to check query in storage: " e))),
     {| store := store w;
        trace := trace w ++ [EvGetLastQueryHeight (QueryId m)] |}).
Proof.
  intros Hget Hne. unfold processMessageTX, buildTxQuery. unfold bind at 1 2.
  rewrite (relay_proofs.getLastQueryHeight_failed r _ _ _ _ Hget Hne).
  reflexivity.
Qed.

(** X8.  A transactions filter that does not decode fails the TX cycle
    before any search or submission, but after the cursor was read: the
    world left behind is the one [getLastQueryHeight] leaves, so a
    never-seen query has its height 0 written although the cycle failed. *)
Theorem processMessageTX_undecodable_filter (ctx : context) (m : MessageTX)
    (w : World S) (h : Z) (e : error) :
  fst (getLastQueryHeight r (QueryId m) w) = (h, None) ->
  json_Unmarshal r (MTX_TransactionsFilter m) = Err e ->
  processMessageTX r ctx m w
  = (Some (wrapError "failed to build tx query params: "
             (wrapError "could not unmarshal transactions filter: " e)),
     snd (getLastQueryHeight r (QueryId m) w)).
Proof.
  intros Hcur Hjson. unfold processMessageTX, buildTxQuery. unfold bind at 1 2.
  destruct (getLastQueryHeight r (QueryId m) w) as [[h' err] w1].
  cbn [fst snd] in *. injection Hcur as -> ->. rewrite Hjson. reflexivity.
Qed.

(** X9.  After a cycle that succeeded, on a store that reads back what
    it took, the next filter carries the height the processor returned
    for this cycle: the cursor moves to it. *)
Theorem cursor_moves_after_success (ctx : context) (m : MessageTX)
    (F : TransactionsFilter) (w w2 : World S) :
  json_Unmarshal r (MTX_TransactionsFilter m) = Ok F ->
  (forall s s' h, SetLastQueryHeight (storage r) s (QueryId m) h = (s', None) ->
                  GetLastQueryHeight (storage r) s' (QueryId m) = (h, None)) ->
  processMessageTX r ctx m w = (None, w2) ->
  exists params,
    fst (buildTxQuery r m w) = (Some params, None) /\
    fst (buildTxQuery r m w2)
    = (Some (F ++ [height_item
                     (fst (TX_ProcessAndSubmit (txProcessor r) ctx (QueryId m)
                             (SearchTransactions (txQuerier r) ctx params)))]),
       None).
Proof.
  intros Hjson Hlaw Hp. unfold processMessageTX in Hp. unfold bind at 1 in Hp.
  destruct (buildTxQuery r m w) as [[queryParams [e|]] w1] eqn:Hb;
    [discriminate Hp |].
  assert (Hq : exists params, queryParams = Some params).
  { revert Hb. unfold buildTxQuery. unfold bind at 1.
    destruct (getLastQueryHeight r (QueryId m) w) as [[h [e|]] w0]; [discriminate |].
    rewrite Hjson. intros [= <- _]. eexists. reflexivity. }
  destruct Hq as [params ->]. exists params. split; [reflexivity |].
  revert Hp. run.
  destruct (TX_ProcessAndSubmit (txProcessor r) ctx (QueryId m) _) as [h [e|]];
    [discriminate |].
  cbn. destruct (TXQuerier_Err (txQuerier r) ctx _) as [e|]; [discriminate |].
  cbn. destruct (SetLastQueryHeight (storage r) (store w1) (QueryId m) h)
    as [s2 [e|]] eqn:Hset; cbn; [discriminate |].
  intros [= <-].
  unfold buildTxQuery. unfold bind at 1.
  erewrite relay_proofs.getLastQueryHeight_found; [| cbn; exact (Hlaw _ _ _ Hset)].
  cbn. rewrite Hjson. reflexivity.
Qed.

(** X10.  After a cycle in which the processor or the search failed, on
    a store that reads back the initial 0, the next cycle builds the
    same filter again: a failed cycle is retried from the same cursor. *)
Theorem failed_cycle_keeps_filter (ctx : context) (m : MessageTX)
    (params : TransactionsFilter) (w w1 : World S) :
  (forall s s', SetLastQueryHeight (storage r) s (QueryId m) 0 = (s', None) ->
                GetLastQueryHeight (storage r) s' (QueryId m) = (0, None)) ->
  buildTxQuery r m w = ((Some params, None), w1) ->
  (snd (TX_ProcessAndSubmit (txProcessor r) ctx (QueryId m)
          (SearchTransactions (txQuerier r) ctx params)) <> None \/
   TXQuerier_Err (txQuerier r) ctx params <> None) ->
  fst (processMessageTX r ctx m w) <> None /\
  fst (buildTxQuery r m (snd (processMessageTX r ctx m w))) = (Some params, None).
Proof.
  intros Hlaw Hb Hfail.
  assert (Hstore : fst (processMessageTX r ctx m w) <> None /\
                   store (snd (processMessageTX r ctx m w)) = store w1).
  { destruct (processMessageTX r ctx m w) as [err w2] eqn:Hp. cbn [fst snd].
    revert Hp. unfold processMessageTX. unfold bind at 1. rewrite Hb. run.
    destruct (TX_ProcessAndSubmit (txProcessor r) ctx (QueryId m) _) as [h [e|]];
      cbn in *; [intros [= <- <-]; split; [discriminate | reflexivity] |].
    destruct (TXQuerier_Err (txQuerier r) ctx params) as [e|];
      cbn; [intros [= <- <-]; split; [discriminate | reflexivity] |].
    destruct Hfail as [H|H]; now contradiction H. }
  destruct Hstore as [Herr Hstore]. split; [exact Herr |].
  rewrite (buildTxQuery_store_only m _ w1 Hstore).
  (* the filter read again from the store [w1] holds *)
  unfold buildTxQuery in Hb. unfold bind in Hb.
  destruct (GetLastQueryHeight (storage r) (store w) (QueryId m)) as [h0 [e|]] eqn:Hget.
  - destruct e as [ | msg | prefix e ].
    + rewrite (relay_proofs.getLastQueryHeight_init r _ _ _ Hget) in Hb.
      destruct (SetLastQueryHeight (storage r) (store w) (QueryId m) 0)
        as [s1 [e|]] eqn:Hset; [discriminate Hb |].
      destruct (json_Unmarshal r (MTX_TransactionsFilter m)) as [F|e] eqn:Hjson;
        [| discriminate Hb].
      injection Hb as <- <-.
      unfold buildTxQuery, bind.
      erewrite relay_proofs.getLastQueryHeight_found; [| cbn; exact (Hlaw _ _ Hset)].
      rewrite Hjson. reflexivity.
    + rewrite (relay_proofs.getLastQueryHeight_failed r _ _ _ _ Hget) in Hb;
        [| discriminate].
      discriminate Hb.
    + rewrite (relay_proofs.getLastQueryHeight_failed r _ _ _ _ Hget) in Hb;
        [| discriminate].
      discriminate Hb.
  - rewrite (relay_proofs.getLastQueryHeight_found r _ _ _ Hget) in Hb.
    destruct (json_Unmarshal r (MTX_TransactionsFilter m)) as [F|e] eqn:Hjson;
      [| discriminate Hb].
    injection Hb as <- <-.
    unfold buildTxQuery, bind.
    erewrite relay_proofs.getLastQueryHeight_found; [| cbn; exact Hget].
    rewrite Hjson. reflexivity.
Qed.

End Loop.

(** ** The statements at a concrete relayer *)

Import loop_fixtures.

(** The height store of the fixtures reads back what it took. *)
Lemma LevelDB_reads_back (s s' : LevelDB) (queryID h : Z) :
  SetLastQueryHeight LevelDBStorage s queryID h = (s', None) ->
  GetLastQueryHeight LevelDBStorage s' queryID = (h, None).
Proof.
  cbn. destruct (closed s) eqn:Hc; [discriminate |].
  intros [= <-]. cbn. rewrite lookup_insert_eq. reflexivity.
Qed.


Lemma Run_closes_store_once_witness :
  let r := fixtures.relayer None None in
  let w := fixtures.world fixtures.empty_db in
  let run := Run r 5 cancelled_at_2 0 (WithCancel 1) [fixtures.tx_query; kv_query] w in
  run = (Some None, snd run) /\
  exists tr s,
    after w (tr ++ [EvClose]) (snd run) /\
    Forall (fun e => is_close e = false) tr /\
    store (snd run) = fst (Close (storage r) s) /\
    None = match snd (Close (storage r) s) with
           | Some _ => Some stop_error
           | None => None
           end.
Proof.
  cbv zeta. split; [vm_compute; reflexivity |].
  apply (Run_closes_store_once (fixtures.relayer None None) 5 cancelled_at_2 0
           (WithCancel 1) [fixtures.tx_query; kv_query]
           (fixtures.world fixtures.empty_db)).
  vm_compute. reflexivity.
Defined.

Lemma dispatch_touches_store_only_for_tx_witness :
  let r := fixtures.relayer None None in
  let w := fixtures.world (fixtures.db_with 7 100) in
  QueryType kv_query <> InterchainQueryTypeTX /\
  store (snd (dispatch r (WithCancel 1) kv_query w)) = store w /\
  exists tr, after w tr (snd (dispatch r (WithCancel 1) kv_query w)) /\
    Forall (fun e => is_storage_call e = false) tr.
Proof.
  cbv zeta. split; [discriminate |].
  apply (dispatch_touches_store_only_for_tx (fixtures.relayer None None)
           (WithCancel 1) kv_query (fixtures.world (fixtures.db_with 7 100))).
  discriminate.
Defined.

Lemma dispatch_unknown_type_counts_as_success_witness :
  let r := fixtures.relayer None None in
  let w := fixtures.world fixtures.empty_db in
  QueryType odd_query <> InterchainQueryTypeKV /\
  QueryType odd_query <> InterchainQueryTypeTX /\
  dispatch r Background odd_query w
  = (tt, {| store := store w;
            trace := trace w ++ [EvAddSuccessRequest EmptyString] |}).
Proof.
  cbv zeta. split; [discriminate |]. split; [discriminate |].
  apply (dispatch_unknown_type_counts_as_success (fixtures.relayer None None)
           Background odd_query (fixtures.world fixtures.empty_db));
    discriminate.
Defined.

Lemma processMessageTX_unreadable_store_witness :
  let r := fixtures.relayer None None in
  let w := fixtures.world closed_db in
  GetLastQueryHeight (storage r) (store w) (QueryId fixtures.tx_message)
  = (0, Some ErrClosed) /\
  ErrClosed <> ErrNotFound /\
  processMessageTX r Background fixtures.tx_message w
  = (Some (wrapError "failed to build tx query params: "
             (wrapError "could not get last query height: "
                (wrapError "failed to check query in storage: " ErrClosed))),
     {| store := store w;
        trace := trace w ++ [EvGetLastQueryHeight (QueryId fixtures.tx_message)] |}).
Proof.
  cbv zeta. split; [reflexivity |]. split; [discriminate |].
  apply (processMessageTX_unreadable_store (fixtures.relayer None None) Background
           fixtures.tx_message (fixtures.world closed_db) 0 ErrClosed);
    [reflexivity | discriminate].
Defined.

Lemma processMessageTX_undecodable_filter_witness :
  let r := fixtures.relayer None None in
  let w := fixtures.world fixtures.empty_db in
  let e := errorString "invalid character" in
  fst (getLastQueryHeight r (QueryId broken_message) w) = (0, None) /\
  json_Unmarshal r (MTX_TransactionsFilter broken_message) = Err e /\
  processMessageTX r Background broken_message w
  = (Some (wrapError "failed to build tx query params: "
             (wrapError "could not unmarshal transactions filter: " e)),
     snd (getLastQueryHeight r (QueryId broken_message) w)) /\
  writes (trace (snd (processMessageTX r Background broken_message w))) = [(7, 0)].
Proof.
  cbv zeta. split; [vm_compute; reflexivity |]. split; [reflexivity |].
  split; [| vm_compute; reflexivity].
  apply (processMessageTX_undecodable_filter (fixtures.relayer None None) Background
           broken_message (fixtures.world fixtures.empty_db) 0
           (errorString "invalid character"));
    [vm_compute; reflexivity | reflexivity].
Defined.

Lemma cursor_moves_after_success_witness :
  let r := fixtures.relayer None None in
  let m := fixtures.tx_message in
  let w := fixtures.world (fixtures.db_with 7 10) in
  let w2 := snd (processMessageTX r Background m w) in
  json_Unmarshal r (MTX_TransactionsFilter m) = Ok fixtures.transfer_filter /\
  (forall s s' h, SetLastQueryHeight (storage r) s (QueryId m) h = (s', None) ->
                  GetLastQueryHeight (storage r) s' (QueryId m) = (h, None)) /\
  processMessageTX r Background m w = (None, w2) /\
  exists params,
    fst (buildTxQuery r m w) = (Some params, None) /\
    fst (buildTxQuery r m w2)
    = (Some (fixtures.transfer_filter
             ++ [height_item
                   (fst (TX_ProcessAndSubmit (txProcessor r) Background (QueryId m)
                           (SearchTransactions (txQuerier r) Background params)))]),
       None).
Proof.
  cbv zeta.
  assert (Hlaw : forall s s' h,
             SetLastQueryHeight (storage (fixtures.relayer None None)) s
               (QueryId fixtures.tx_message) h = (s', None) ->
             GetLastQueryHeight (storage (fixtures.relayer None None)) s'
               (QueryId fixtures.tx_message) = (h, None)).
  { intros s s' h. apply LevelDB_reads_back. }
  split; [vm_compute; reflexivity |]. split; [exact Hlaw |].
  split; [vm_compute; reflexivity |].
  apply (cursor_moves_after_success (fixtures.relayer None None) Background
           fixtures.tx_message fixtures.transfer_filter
           (fixtures.world (fixtures.db_with 7 10)));
    [vm_compute; reflexivity | exact Hlaw | vm_compute; reflexivity].
Defined.

Lemma failed_cycle_keeps_filter_witness :
  let r := fixtures.relayer None (Some fixtures.insufficient_fees) in
  let m := fixtures.tx_message in
  let w := fixtures.world fixtures.empty_db in
  let params := fixtures.transfer_filter ++ [height_item 0] in
  (forall s s', SetLastQueryHeight (storage r) s (QueryId m) 0 = (s', None) ->
                GetLastQueryHeight (storage r) s' (QueryId m) = (0, None)) /\
  buildTxQuery r m w = ((Some params, None), snd (buildTxQuery r m w)) /\
  (snd (TX_ProcessAndSubmit (txProcessor r) Background (QueryId m)
          (SearchTransactions (txQuerier r) Background params)) <> None \/
   TXQuerier_Err (txQuerier r) Background params <> None) /\
  fst (processMessageTX r Background m w) <> None /\
  fst (buildTxQuery r m (snd (processMessageTX r Background m w)))
  = (Some params, None).
Proof.
  cbv zeta.
  assert (Hlaw : forall s s',
             SetLastQueryHeight
               (storage (fixtures.relayer None (Some fixtures.insufficient_fees))) s
               (QueryId fixtures.tx_message) 0 = (s', None) ->
             GetLastQueryHeight
               (storage (fixtures.relayer None (Some fixtures.insufficient_fees))) s'
               (QueryId fixtures.tx_message) = (0, None)).
  { intros s s'. apply LevelDB_reads_back. }
  split; [exact Hlaw |]. split; [vm_compute; reflexivity |].
  split; [left; vm_compute; discriminate |].
  apply (failed_cycle_keeps_filter
           (fixtures.relayer None (Some fixtures.insufficient_fees)) Background
           fixtures.tx_message (fixtures.transfer_filter ++ [height_item 0])
           (fixtures.world fixtures.empty_db)
           (snd (buildTxQuery
                   (fixtures.relayer None (Some fixtures.insufficient_fees))
                   fixtures.tx_message (fixtures.world fixtures.empty_db))));
    [exact Hlaw | vm_compute; reflexivity | left; vm_compute; discriminate].
Defined.

End relay_extra.

(* ===================================================================== *)
(** * The sender, beyond the broadcast                                     *)
(* ===================================================================== *)

Module submit_extra.
Import submit.

Section Sender.
Context {TxB : Type} (cc : TxSender TxB).

(** [queryAccount] never returns a nil account together with a nil
    error. *)
Lemma queryAccount_account_or_error (ctx : context) (address : string) :
  queryAccount cc ctx address <> Return (None, None).
Proof.
  unfold queryAccount.
  destruct (QueryAccountRequest_Marshal (txConfig cc) address) as [req|e];
    [| discriminate].
  destruct (ABCIQueryWithOptions (rpcClient cc) ctx _ _) as [res|e]; [| discriminate].
  destruct (negb (Code (Response res) =? 0)); [discriminate |].
  destruct (QueryAccountResponse_Unmarshal (txConfig cc) _) as [response|e];
    [| discriminate].
  destruct (Account response) as [any|]; [| discriminate].
  destruct (BaseAccount_Unmarshal (txConfig cc) _); discriminate.
Qed.

(** X11.  A nil result of [Send] means that the transaction was really
    handed to the node and taken: the account was found, the gas was
    simulated, the transaction was signed and encoded, the broadcast
    type is one of the three known ones, the broadcast call succeeded
    and every code it reported is 0. *)
Theorem Send_nil_means_accepted (ctx : context) (sender : string) (msgs : list Msg) :
  Send cc ctx sender msgs = Return None ->
  exists account gasNeeded bz,
    queryAccount cc ctx sender = Return (Some account, None) /\
    calculateGas cc ctx
      (WithSequence (WithAccountNumber (baseTxf cc) (AccountNumber account))
         (Sequence account)) msgs = (gasNeeded, None) /\
    buildTxBz cc
      (WithGasPrices
         (WithGas
            (WithSequence (WithAccountNumber (baseTxf cc) (AccountNumber account))
               (Sequence account)) gasNeeded) (ts_gasPrices cc)) msgs = (bz, None) /\
    ((txBroadcastType cc = BroadcastTxSync /\
      exists res, RPC_BroadcastTxSync (rpcClient cc) ctx bz = Ok res /\
                  BTx_Code res = 0) \/
     (txBroadcastType cc = BroadcastTxAsync /\
      exists res, RPC_BroadcastTxAsync (rpcClient cc) ctx bz = Ok res /\
                  BTx_Code res = 0) \/
     (txBroadcastType cc = BroadcastTxCommit /\
      exists res, RPC_BroadcastTxCommit (rpcClient cc) ctx bz = Ok res /\
                  Tx_Code (CheckTx res) = 0 /\ Tx_Code (DeliverTx res) = 0)).
Proof.
  unfold Send.
  destruct (queryAccount cc ctx sender) as [[[account|] [err|]]|reason];
    try discriminate.
  destruct (calculateGas cc ctx _ msgs) as [gasNeeded [err|]] eqn:Hgas;
    [discriminate |].
  destruct (buildTxBz cc _ msgs) as [bz [err|]] eqn:Hbz; [discriminate |].
  intros [= Hb]. exists account, gasNeeded, bz.
  split; [reflexivity |]. split; [exact Hgas |]. split; [exact Hbz |].
  revert Hb. unfold broadcast.
  destruct (txBroadcastType cc); [| | | discriminate].
  - destruct (RPC_BroadcastTxSync (rpcClient cc) ctx bz) as [res|e]; [| discriminate].
    destruct (Z.eqb_spec (BTx_Code res) 0); [| discriminate].
    intros _. left. split; [reflexivity |]. exists res. split; [reflexivity | assumption].
  - destruct (RPC_BroadcastTxAsync (rpcClient cc) ctx bz) as [res|e]; [| discriminate].
    destruct (Z.eqb_spec (BTx_Code res) 0); [| discriminate].
    intros _. right; left. split; [reflexivity |].
    exists res. split; [reflexivity | assumption].
  - destruct (RPC_BroadcastTxCommit (rpcClient cc) ctx bz) as [res|e]; [| discriminate].
    destruct (Z.eqb_spec (Tx_Code (CheckTx res)) 0); [| discriminate].
    destruct (Z.eqb_spec (Tx_Code (DeliverTx res)) 0); [| discriminate].
    intros _. right; right. split; [reflexivity |].
    exists res. split; [reflexivity |]. split; assumption.
Qed.

(** X12.  When the node answers the account query with code 0 and a
    body that decodes to a response without an account, [queryAccount]
    dereferences the nil [Account] pointer: it panics, and so does
    [Send], before any gas is simulated or anything is signed or
    broadcast. *)
Theorem Send_panics_without_account (ctx : context) (sender : string)
    (msgs : list Msg) (req : bytes) (res : ResultABCIQuery)
    (response : QueryAccountResponse) :
  QueryAccountRequest_Marshal (txConfig cc) sender = Ok req ->
  ABCIQueryWithOptions (rpcClient cc) ctx "/cosmos.auth.v1beta1.Query/Account"
    (Some req) = Ok res ->
  Code (Response res) = 0 ->
  QueryAccountResponse_Unmarshal (txConfig cc) (RespValue (Response res))
  = Ok response ->
  Account response = None ->
  queryAccount cc ctx sender
  = Panic "invalid memory address or nil pointer dereference" /\
  Send cc ctx sender msgs
  = Panic "invalid memory address or nil pointer dereference".
Proof.
  intros Hm Hrpc Hc Hdec Hacc.
  assert (Hq : queryAccount cc ctx sender
               = Panic "invalid memory address or nil pointer dereference").
  { unfold queryAccount. rewrite Hm, Hrpc, Hc. cbn [Z.eqb negb].
    rewrite Hdec, Hacc. reflexivity. }
  split; [exact Hq |]. unfold Send. rewrite Hq. reflexivity.
Qed.

(** X13.  The simulation is built from the sender's base factory: of the
    factory handed to [calculateGas] only the sequence (in the
    placeholder signature) and the gas adjustment count; the account
    number [Send] has just fetched does not reach the simulated
    transaction. *)
Theorem simulation_ignores_account_number (ctx : context) (txf1 txf2 : Factory)
    (msgs : list Msg) :
  sequence txf1 = sequence txf2 ->
  gasAdjustment txf1 = gasAdjustment txf2 ->
  buildSimulationTx cc txf1 msgs = buildSimulationTx cc txf2 msgs /\
  calculateGas cc ctx txf1 msgs = calculateGas cc ctx txf2 msgs.
Proof.
  intros Hseq Hadj.
  assert (Hsim : buildSimulationTx cc txf1 msgs = buildSimulationTx cc txf2 msgs).
  { unfold buildSimulationTx. rewrite Hseq. reflexivity. }
  split; [exact Hsim |].
  unfold calculateGas. rewrite Hsim, Hadj. reflexivity.
Qed.

End Sender.

Import sender_fixtures extra_fixtures.

Lemma Send_nil_means_accepted_witness :
  let cc := sender BroadcastTxCommit (sim_gas_3 0) accepted true in
  Send cc Background sender_address [proof_msg] = Return None /\
  exists account gasNeeded bz,
    queryAccount cc Background sender_address = Return (Some account, None) /\
    calculateGas cc Background
      (WithSequence (WithAccountNumber (baseTxf cc) (AccountNumber account))
         (Sequence account)) [proof_msg] = (gasNeeded, None) /\
    buildTxBz cc
      (WithGasPrices
         (WithGas
            (WithSequence (WithAccountNumber (baseTxf cc) (AccountNumber account))
               (Sequence account)) gasNeeded) (ts_gasPrices cc)) [proof_msg]
    = (bz, None) /\
    ((txBroadcastType cc = BroadcastTxSync /\
      exists res, RPC_BroadcastTxSync (rpcClient cc) Background bz = Ok res /\
                  BTx_Code res = 0) \/
     (txBroadcastType cc = BroadcastTxAsync /\
      exists res, RPC_BroadcastTxAsync (rpcClient cc) Background bz = Ok res /\
                  BTx_Code res = 0) \/
     (txBroadcastType cc = BroadcastTxCommit /\
      exists res, RPC_BroadcastTxCommit (rpcClient cc) Background bz = Ok res /\
                  Tx_Code (CheckTx res) = 0 /\ Tx_Code (DeliverTx res) = 0)).
Proof.
  cbv zeta. split; [vm_compute; reflexivity |].
  apply (Send_nil_means_accepted (sender BroadcastTxCommit (sim_gas_3 0) accepted true)
           Background sender_address [proof_msg]).
  vm_compute. reflexivity.
Defined.

Lemma Send_panics_without_account_witness :
  let cc := sender_without_account in
  let req := list_byte_of_string sender_address in
  let res :=
    {| Response := {| Code := 0; Log := EmptyString; RespValue := Some [] |} |} in
  let response := {| Account := None |} in
  QueryAccountRequest_Marshal (txConfig cc) sender_address = Ok req /\
  ABCIQueryWithOptions (rpcClient cc) Background "/cosmos.auth.v1beta1.Query/Account"
    (Some req) = Ok res /\
  Code (Response res) = 0 /\
  QueryAccountResponse_Unmarshal (txConfig cc) (RespValue (Response res))
  = Ok response /\
  Account response = None /\
  queryAccount cc Background sender_address
  = Panic "invalid memory address or nil pointer dereference" /\
  Send cc Background sender_address [proof_msg]
  = Panic "invalid memory address or nil pointer dereference".
Proof.
  cbv zeta.
  split; [vm_compute; reflexivity |]. split; [vm_compute; reflexivity |].
  split; [reflexivity |]. split; [reflexivity |]. split; [reflexivity |].
  apply (Send_panics_without_account sender_without_account Background
           sender_address [proof_msg] (list_byte_of_string sender_address)
           {| Response := {| Code := 0; Log := EmptyString; RespValue := Some [] |} |}
           {| Account := None |});
    vm_compute; reflexivity.
Defined.

(** The sender whose node knows no account panics. *)
Example Send_without_account :
  Send sender_without_account Background sender_address [proof_msg]
  = Panic "invalid memory address or nil pointer dereference".
Proof. vm_compute. reflexivity. Qed.

Lemma simulation_ignores_account_number_witness :
  let cc := sender BroadcastTxSync (sim_gas_3 0) accepted true in
  let txf1 := WithSequence (WithAccountNumber (baseTxf cc) 1) 2 in
  let txf2 := WithSequence (WithAccountNumber (baseTxf cc) 99) 2 in
  sequence txf1 = sequence txf2 /\
  gasAdjustment txf1 = gasAdjustment txf2 /\
  buildSimulationTx cc txf1 [proof_msg] = buildSimulationTx cc txf2 [proof_msg] /\
  calculateGas cc Background txf1 [proof_msg]
  = calculateGas cc Background txf2 [proof_msg].
Proof.
  cbv zeta. split; [reflexivity |]. split; [reflexivity |].
  apply (simulation_ignores_account_number
           (sender BroadcastTxSync (sim_gas_3 0) accepted true) Background
           (WithSequence
              (WithAccountNumber
                 (baseTxf (sender BroadcastTxSync (sim_gas_3 0) accepted true)) 1) 2)
           (WithSequence
              (WithAccountNumber
                 (baseTxf (sender BroadcastTxSync (sim_gas_3 0) accepted true)) 99) 2)
           [proof_msg]); reflexivity.
Defined.

End submit_extra.

(* ===================================================================== *)
(** * The proof submitter                                                  *)
(* ===================================================================== *)

Module submitter_proofs.
Import submitter.

(** The loops of the two builders are maps. *)
Lemma append_loop_is_map {A B : Type} (f : A -> B) (l : list A) (acc : list B) :
  fold_left (fun res item => res ++ [f item]) l acc = acc ++ map f l.
Proof.
  revert acc. induction l as [|x l IH]; intros acc; cbn.
  - now rewrite app_nil_r.
  - rewrite IH, <- app_assoc. reflexivity.
Qed.

Lemma storedProof_proofItem (item : proof_impl.StorageValue) :
  storedProof (proofItem item) = item.
Proof. destruct item. reflexivity. Qed.

Lemma storedTxProof_txProofItem (item : ProofTxValue) :
  storedTxProof (txProofItem item) = item.
Proof. destruct item as [tx [] [] h]. reflexivity. Qed.

Section Submitter.
Context (si : SubmitterImpl).

(** X14.  [SubmitProof] puts all the proofs of a query into one message
    and hands exactly that message to the sender: the message is
    KV-shaped (key-value results, nil transactions), carries the height
    and the query id given, and its results read back to the proofs
    given, one for one and in the same order. *)
Theorem SubmitProof_sends_one_kv_message (ctx : context) (height queryId : Z)
    (proof : list proof_impl.StorageValue) (addr : string) :
  SenderAddr (sender si) = Ok addr ->
  let msg := {| QueryId := queryId; Sender := addr;
                Result := Some {| QR_Height := height;
                                  KvResults := Some (map proofItem proof);
                                  Txs := None |} |} in
  ValidateBasic (sender si) msg = None ->
  SubmitProof si ctx height queryId proof = Send (sender si) ctx [msg] /\
  map storedProof (map proofItem proof) = proof /\
  length (map proofItem proof) = length proof.
Proof.
  intros Haddr msg Hvalid. split; [| split].
  - unfold SubmitProof, buildProofMsg.
    rewrite append_loop_is_map, Haddr. cbn [app]. fold msg. rewrite Hvalid.
    reflexivity.
  - rewrite map_map. rewrite <- (map_id proof) at 2.
    apply map_ext. exact storedProof_proofItem.
  - apply length_map.
Qed.

(** X15.  [SubmitTxProof] puts all the transaction proofs into one
    message and hands exactly that message to the sender: the message
    is TX-shaped (nil key-value results, height 0), and its
    transactions read back to the proofs given, with both audit paths,
    one for one and in the same order. *)
Theorem SubmitTxProof_sends_one_tx_message (ctx : context) (queryId : Z)
    (proof : list ProofTxValue) (addr : string) :
  SenderAddr (sender si) = Ok addr ->
  let msg := {| QueryId := queryId; Sender := addr;
                Result := Some {| QR_Height := 0;
                                  KvResults := None;
                                  Txs := Some (map txProofItem proof) |} |} in
  ValidateBasic (sender si) msg = None ->
  SubmitTxProof si ctx queryId proof = Send (sender si) ctx [msg] /\
  map storedTxProof (map txProofItem proof) = proof /\
  length (map txProofItem proof) = length proof.
Proof.
  intros Haddr msg Hvalid. split; [| split].
  - unfold SubmitTxProof, buildTxProofMsg.
    rewrite append_loop_is_map, Haddr. cbn [app]. fold msg. rewrite Hvalid.
    reflexivity.
  - rewrite map_map. rewrite <- (map_id proof) at 2.
    apply map_ext. exact storedTxProof_txProofItem.
  - apply length_map.
Qed.

End Submitter.

(** X16.  A message that fails its self-validation is never handed to
    the sender: whatever [Send] would do, [SubmitProof] and
    [SubmitTxProof] return the validation error, wrapped twice (the
    inner wrapping of [SubmitProof] names the query id in decimal). *)
Theorem rejected_message_is_not_sent (addr : string)
    (send : context -> list MsgSubmitQueryResult -> outcome (option error))
    (validate : MsgSubmitQueryResult -> option error)
    (ctx : context) (height queryId : Z)
    (proof : list proof_impl.StorageValue) (txproof : list ProofTxValue)
    (e1 e2 : error) :
  let si := {| sender := {| SenderAddr := Ok addr; Send := send;
                            ValidateBasic := validate |} |} in
  validate {| QueryId := queryId; Sender := addr;
              Result := Some {| QR_Height := height;
                                KvResults := Some (map proofItem proof);
                                Txs := None |} |} = Some e1 ->
  validate {| QueryId := queryId; Sender := addr;
              Result := Some {| QR_Height := 0;
                                KvResults := None;
                                Txs := Some (map txProofItem txproof) |} |} = Some e2 ->
  SubmitProof si ctx height queryId proof
  = Return (Some (wrapError "could not build proof msg: "
                    (wrapError ("invalid proof message for query="
                                ++ fmt_d queryId ++ ": ")%string e1))) /\
  SubmitTxProof si ctx queryId txproof
  = Return (Some (wrapError "could not build tx proof msg: "
                    (wrapError "invalid tx proof message: " e2))).
Proof.
  intros si H1 H2. split.
  - unfold SubmitProof, buildProofMsg. rewrite append_loop_is_map.
    cbn [sender SenderAddr ValidateBasic si app]. rewrite H1. reflexivity.
  - unfold SubmitTxProof, buildTxProofMsg. rewrite append_loop_is_map.
    cbn [sender SenderAddr ValidateBasic si app]. rewrite H2. reflexivity.
Qed.

Import extra_fixtures.

Lemma SubmitProof_sends_one_kv_message_witness :
  let si := impl (Ok "neutron1sender") in
  let msg := {| QueryId := 8; Sender := "neutron1sender";
                Result := Some {| QR_Height := 100;
                                  KvResults := Some (map proofItem two_proofs);
                                  Txs := None |} |} in
  SenderAddr (sender si) = Ok "neutron1sender" /\
  ValidateBasic (sender si) msg = None /\
  SubmitProof si Background 100 8 two_proofs = Send (sender si) Background [msg] /\
  map storedProof (map proofItem two_proofs) = two_proofs /\
  length (map proofItem two_proofs) = length two_proofs.
Proof.
  cbv zeta. split; [reflexivity |]. split; [reflexivity |].
  apply (SubmitProof_sends_one_kv_message (impl (Ok "neutron1sender")) Background
           100 8 two_proofs "neutron1sender"); reflexivity.
Defined.

Lemma SubmitTxProof_sends_one_tx_message_witness :
  let si := impl (Ok "neutron1sender") in
  let msg := {| QueryId := 7; Sender := "neutron1sender";
                Result := Some {| QR_Height := 0;
                                  KvResults := None;
                                  Txs := Some (map txProofItem two_tx_proofs) |} |} in
  SenderAddr (sender si) = Ok "neutron1sender" /\
  ValidateBasic (sender si) msg = None /\
  SubmitTxProof si Background 7 two_tx_proofs = Send (sender si) Background [msg] /\
  map storedTxProof (map txProofItem two_tx_proofs) = two_tx_proofs /\
  length (map txProofItem two_tx_proofs) = length two_tx_proofs.
Proof.
  cbv zeta. split; [reflexivity |]. split; [reflexivity |].
  apply (SubmitTxProof_sends_one_tx_message (impl (Ok "neutron1sender")) Background
           7 two_tx_proofs "neutron1sender"); reflexivity.
Defined.

Lemma rejected_message_is_not_sent_witness :
  let send := fun (_ : context) (_ : list MsgSubmitQueryResult) =>
                Return (@None error) in
  let si := {| sender := {| SenderAddr := Ok "neutron1sender"; Send := send;
                            ValidateBasic := validate |} |} in
  validate {| QueryId := 8; Sender := "neutron1sender";
              Result := Some {| QR_Height := 100;
                                KvResults := Some (map proofItem []);
                                Txs := None |} |} = Some (errorString "empty result") /\
  validate {| QueryId := 8; Sender := "neutron1sender";
              Result := Some {| QR_Height := 0;
                                KvResults := None;
                                Txs := Some (map txProofItem []) |} |}
  = Some (errorString "empty result") /\
  SubmitProof si Background 100 8 []
  = Return (Some (wrapError "could not build proof msg: "
                    (wrapError ("invalid proof message for query="
                                ++ fmt_d 8 ++ ": ")%string
                       (errorString "empty result")))) /\
  SubmitTxProof si Background 8 []
  = Return (Some (wrapError "could not build tx proof msg: "
                    (wrapError "invalid tx proof message: "
                       (errorString "empty result")))).
Proof.
  cbv zeta. split; [reflexivity |]. split; [reflexivity |].
  apply (rejected_message_is_not_sent "neutron1sender"
           (fun _ _ => Return None) validate Background 100 8 [] []
           (errorString "empty result") (errorString "empty result"));
    reflexivity.
Defined.

(** The query id in the error of a rejected KV message. *)
Example rejected_kv_message_error :
  match SubmitProof (impl (Ok "neutron1sender")) Background 100 8 [] with
  | Return (Some e) => Error e
  | _ => EmptyString
  end = "could not build proof msg: invalid proof message for query=8: empty result".
Proof. vm_compute. reflexivity. Qed.

End submitter_proofs.

(* ===================================================================== *)
(** * Delegations and all balances                                         *)
(* ===================================================================== *)

Module proofer_extra.
Import proof_impl.

(** [int64(u)] for a [uint64]: unchanged below 2^63, 2^64 less from
    there on. *)
Lemma int64_of_uint64 (h : Z) :
  0 <= h < 2 ^ 64 -> int64 h = if h <? 2 ^ 63 then h else h - 2 ^ 64.
Proof.
  unfold int64. change (2 ^ 64) with 18446744073709551616.
  change (2 ^ 63) with 9223372036854775808.
  intros Hh. destruct (Z.ltb_spec h 9223372036854775808);
    Z.to_euclidean_division_equations; lia.
Qed.

(** X17.  For a delegator whose address decodes, [GetDelegatorDelegations]
    hands back what the iterating query returned, values, height and
    error untouched (an empty list stays an empty list without error);
    the query is made on the staking store under the delegations key of
    the decoded address, at the requested height converted to int64:
    heights from 2^63 on reach the querier as negative numbers.  An
    address that does not decode gives the decoding error, wrapped, and
    no values. *)
Theorem GetDelegatorDelegations_forwards_query (p : ProoferImpl)
    (st : delegations.Staking) (ctx : context) (inputHeight : Z)
    (prefix delegator : string) (delegatorBz : bytes) :
  0 <= inputHeight < 2 ^ 64 ->
  GetFromBech32 (sdk p) delegator prefix = Ok delegatorBz ->
  delegations.GetDelegatorDelegations p st ctx inputHeight prefix delegator
  = delegations.QueryIterateTendermintProof st ctx
      (if inputHeight <? 2 ^ 63 then inputHeight else inputHeight - 2 ^ 64)
      "staking" (delegations.GetDelegationsKey st delegatorBz) /\
  (forall other err,
      GetFromBech32 (sdk p) other prefix = Err err ->
      delegations.GetDelegatorDelegations p st ctx inputHeight prefix other
      = (None, 0, Some (wrapError "failed to decode address from bech32: " err))).
Proof.
  intros Hh Hdec. split.
  - unfold delegations.GetDelegatorDelegations. rewrite Hdec.
    rewrite (int64_of_uint64 _ Hh). reflexivity.
  - intros other err Hfail. unfold delegations.GetDelegatorDelegations.
    rewrite Hfail. reflexivity.
Qed.

(** X18.  [ProofAllBalances] never returns balances: whenever it
    returns, the map is nil.  With a nil error it has printed exactly
    one coin; with an error it has printed nothing, or the failure of
    decoding the coin. *)
Theorem ProofAllBalances_returns_no_balances (d : proofs.Deps) (ctx : context)
    (address denom : string) (balances : option (list (string * string)))
    (err : option error) (out : list proofs.printed) :
  proofs.ProofAllBalances d ctx address denom = Return (balances, err, out) ->
  balances = None /\
  match err with
  | None => exists amount, out = [proofs.PrintCoin amount]
  | Some e => out = [] \/ out = [proofs.PrintUnmarshalFailure e]
  end.
Proof.
  unfold proofs.ProofAllBalances.
  destruct (proofs.GetFromBech32 d address "terra") as [bz|e].
  - destruct (proofs.QueryTendermintProof d ctx _ _ _) as [[value|] [e|]];
      try discriminate.
    + intros [= <- <- <-]. split; [reflexivity | left; reflexivity].
    + destruct (proofs.Coin_Unmarshal d (Value value)) as [amount|e];
        intros [= <- <- <-]; (split; [reflexivity |]).
      * eexists. reflexivity.
      * right. reflexivity.
    + intros [= <- <- <-]. split; [reflexivity | left; reflexivity].
  - intros [= <- <- <-]. split; [reflexivity | left; reflexivity].
Qed.

Import proofer_fixtures extra_fixtures.

Lemma GetDelegatorDelegations_forwards_query_witness :
  let H := 2 ^ 63 + 5 in
  0 <= H < 2 ^ 64 /\
  GetFromBech32 (sdk proofer) known_address "neutron" = Ok known_address_bytes /\
  delegations.GetDelegatorDelegations proofer staking Background H "neutron" known_address
  = delegations.QueryIterateTendermintProof staking Background
      (if H <? 2 ^ 63 then H else H - 2 ^ 64)
      "staking" (delegations.GetDelegationsKey staking known_address_bytes) /\
  (forall other err,
      GetFromBech32 (sdk proofer) other "neutron" = Err err ->
      delegations.GetDelegatorDelegations proofer staking Background H "neutron" other
      = (None, 0, Some (wrapError "failed to decode address from bech32: " err))).
Proof.
  cbv zeta. split; [split; [discriminate | reflexivity] |]. split; [reflexivity |].
  apply (GetDelegatorDelegations_forwards_query proofer staking Background
           (2 ^ 63 + 5) "neutron" known_address known_address_bytes);
    [split; [discriminate | reflexivity] | reflexivity].
Defined.

(** A height above the int64 range is refused by the node as negative. *)
Example delegations_at_huge_height :
  delegations.GetDelegatorDelegations proofer staking Background (2 ^ 63 + 5)
    "neutron" known_address
  = (None, 0, Some (errorString "height must not be negative")).
Proof. vm_compute. reflexivity. Qed.

Lemma ProofAllBalances_returns_no_balances_witness :
  proofs.ProofAllBalances terra Background "terra1known" "uluna"
  = Return (None, None,
            [proofs.PrintCoin {| proofs.Denom := "uluna"; proofs.Amount := "10" |}]) /\
  @None (list (string * string)) = None /\
  exists amount,
    [proofs.PrintCoin {| proofs.Denom := "uluna"; proofs.Amount := "10" |}]
    = [proofs.PrintCoin amount].
Proof.
  split; [vm_compute; reflexivity |].
  apply (ProofAllBalances_returns_no_balances terra Background "terra1known" "uluna"
           None None
           [proofs.PrintCoin {| proofs.Denom := "uluna"; proofs.Amount := "10" |}]).
  vm_compute. reflexivity.
Defined.

End proofer_extra.

(* ===================================================================== *)
(** * Gas of the degenerate simulations                                    *)
(* ===================================================================== *)

Module gas_extra.
Import submit gasmath.

(** ** [float64(u)] is a finite number *)

Lemma iter_pos_invariant {A : Type} (P : A -> Prop) (f : A -> A) :
  (forall x, P x -> P (f x)) -> forall n x, P x -> P (SpecFloat.iter_pos f n x).
Proof.
  intros Hf. induction n as [n IH|n IH|]; intros x Hx; cbn.
  - apply IH, IH, Hf, Hx.
  - apply IH, IH, Hx.
  - apply Hf, Hx.
Qed.

Lemma shr_1_bounds (b : Z) (mrs : shr_record) :
  0 <= shr_m mrs <= b -> 0 <= shr_m (shr_1 mrs) <= b.
Proof.
  destruct mrs as [m r s]. cbn [shr_m].
  destruct m as [|[p|p|]|p]; cbn; lia.
Qed.

Lemma shr_bounds (b : Z) (mrs : shr_record) (e n : Z) :
  0 <= shr_m mrs <= b ->
  0 <= shr_m (fst (shr mrs e n)) <= b /\ snd (shr mrs e n) <= Z.max e (e + n).
Proof.
  intros Hm. destruct n as [|p|p]; cbn [shr fst snd]; try (split; [exact Hm | lia]).
  split; [| lia].
  apply (iter_pos_invariant (fun mrs => 0 <= shr_m mrs <= b)); [| exact Hm].
  intros x. apply shr_1_bounds.
Qed.

Lemma digits2_pos_size (p : positive) : digits2_pos p = Pos.size p.
Proof. induction p; cbn; congruence. Qed.

Lemma Zdigits2_bound (m k : Z) : 0 <= k -> 0 <= m < 2 ^ k -> Zdigits2 m <= k.
Proof.
  intros Hk [Hm Hlt]. destruct m as [|p|p]; cbn; [lia | | lia].
  rewrite digits2_pos_size.
  pose proof (Pos.size_le p) as Hs.
  apply Pos2Z.pos_le_pos in Hs. rewrite Pos2Z.inj_pow in Hs.
  change (Z.pos p~0) with (2 * Z.pos p) in Hs.
  destruct (Z.le_gt_cases (Z.pos (Pos.size p)) k) as [|Hgt]; [assumption |].
  exfalso.
  assert (2 ^ (k + 1) <= 2 ^ Z.pos (Pos.size p)) by (apply Z.pow_le_mono_r; lia).
  rewrite Z.pow_add_r, Z.pow_1_r in H by lia. lia.
Qed.

Lemma fexp64 (x : Z) : fexp prec64 emax64 x = Z.max (x - 53) (-1074).
Proof. reflexivity. Qed.

Lemma shr_fexp_bounds (b k m e : Z) (l : location) :
  0 <= k -> 0 <= m <= b -> m < 2 ^ k ->
  0 <= shr_m (fst (shr_fexp prec64 emax64 m e l)) <= b /\
  snd (shr_fexp prec64 emax64 m e l) <= Z.max e (Z.max (k + e - 53) (-1074)).
Proof.
  intros Hk Hm Hlt. unfold shr_fexp.
  assert (Hrec : 0 <= shr_m (shr_record_of_loc m l) <= b).
  { destruct l as [|[]]; exact Hm. }
  destruct (shr_bounds b _ e (fexp prec64 emax64 (Zdigits2 m + e) - e) Hrec) as [H1 H2].
  split; [exact H1 |].
  pose proof (Zdigits2_bound m k Hk (conj (proj1 Hm) Hlt)) as Hd.
  rewrite fexp64 in *.
  match goal with |- ?x <= _ => set (y := x) in * end.
  clearbody y. clear - H2 Hd. lia.
Qed.

Lemma round_nearest_even_bounds (m : Z) (l : location) :
  0 <= m -> 0 <= round_nearest_even m l <= m + 1.
Proof.
  intros Hm. destruct l as [|[]]; cbn; try lia. destruct (Z.even m); lia.
Qed.

Lemma binary_round_aux_finite (k mx ex : Z) (lx : location) :
  0 <= k <= 400 -> 0 <= mx < 2 ^ k -> ex <= 100 ->
  match binary_round_aux prec64 emax64 false mx ex lx with
  | S754_zero _ | S754_finite false _ _ => True
  | _ => False
  end.
Proof.
  intros Hk Hm He. unfold binary_round_aux.
  assert (Hpow : 0 < 2 ^ k) by (apply Z.pow_pos_nonneg; lia).
  destruct (shr_fexp_bounds (2 ^ k - 1) k mx ex lx) as [H1 H2]; [lia | lia | lia |].
  destruct (shr_fexp prec64 emax64 mx ex lx) as [mrs' e']. cbn [fst snd] in *.
  pose proof (round_nearest_even_bounds (shr_m mrs') (loc_of_shr_record mrs') (proj1 H1))
    as Hr.
  set (m' := round_nearest_even (shr_m mrs') (loc_of_shr_record mrs')) in *.
  assert (Hm' : m' < 2 ^ (k + 1)).
  { rewrite Z.pow_add_r, Z.pow_1_r by lia. lia. }
  destruct (shr_fexp_bounds (m') (k + 1) m' e' loc_Exact) as [H3 H4]; [lia | lia | lia |].
  destruct (shr_fexp prec64 emax64 m' e' loc_Exact) as [mrs'' e'']. cbn [fst snd] in *.
  destruct (shr_m mrs'') as [|p|p]; [exact I | | lia].
  destruct (Z.leb_spec e'' (emax64 - prec64)); [exact I |].
  unfold emax64, prec64 in *. lia.
Qed.

Lemma iter_xO_value (m d : positive) :
  Z.pos (Pos.iter xO m d) = Z.pos m * 2 ^ Z.pos d.
Proof.
  induction d as [|d IH] using Pos.peano_ind.
  - cbn. lia.
  - rewrite Pos.iter_succ, Pos2Z.inj_succ, Z.pow_succ_r by lia.
    change (Z.pos (Pos.iter xO m d)~0) with (2 * Z.pos (Pos.iter xO m d)).
    rewrite IH. lia.
Qed.

Lemma float64_of_uint64_finite (u : Z) :
  0 <= u < 2 ^ 64 ->
  match float64_of_uint64 u with
  | S754_zero _ | S754_finite false _ _ => True
  | _ => False
  end.
Proof.
  intros [Hu Hlt]. unfold float64_of_uint64, binary_normalize.
  destruct u as [|m|m]; [exact I | | lia].
  unfold binary_round.
  assert (Hd : Z.pos (digits2_pos m) <= 64).
  { apply (Zdigits2_bound (Z.pos m) 64); lia. }
  unfold shl_align.
  destruct (fexp prec64 emax64 (Z.pos (digits2_pos m) + 0) - 0) as [|d|d] eqn:Hf.
  - apply (binary_round_aux_finite 64); lia.
  - apply (binary_round_aux_finite 64); lia.
  - assert (Hdb : Z.pos d <= 52).
    { rewrite fexp64 in Hf. lia. }
    apply (binary_round_aux_finite 116).
    + lia.
    + rewrite iter_xO_value. split; [lia |].
      assert (2 ^ Z.pos d <= 2 ^ 52) by (apply Z.pow_le_mono_r; lia).
      change (2 ^ 116) with (2 ^ 64 * 2 ^ 52).
      assert (0 < 2 ^ Z.pos d) by (apply Z.pow_pos_nonneg; lia).
      nia.
    + rewrite fexp64. lia.
Qed.

(** Zero times a finite number is zero. *)
Lemma float64_mul_zero (x y : float64) :
  match x with S754_zero _ | S754_finite _ _ _ => True | _ => False end ->
  match y with S754_zero _ | S754_finite _ _ _ => True | _ => False end ->
  match x, y with
  | S754_zero _, _ | _, S754_zero _ => True
  | _, _ => False
  end ->
  uint64_of_float64 (float64_mul x y) = 0.
Proof.
  destruct x as [sx|sx| |sx mx ex], y as [sy|sy| |sy my ey]; cbn;
    intros Hx Hy Hz; try contradiction; reflexivity.
Qed.

Section Sender.
Context {TxB : Type} (cc : TxSender TxB).

(** X19.  When the simulation answers with gas info, [calculateGas]
    returns gas 0 in two cases: the gas adjustment of the factory is
    zero (as it is when the configuration leaves it unset), for every
    gas used the simulation can report; and the simulation reports 0
    gas used, for every finite gas adjustment. *)
Theorem calculateGas_zero (ctx : context) (txf : Factory) (msgs : list Msg)
    (simulation : slice) (res : ResultABCIQuery) (simRes : SimulateResponse)
    (gasInfo : GasInfo) :
  buildSimulationTx cc txf msgs = (simulation, None) ->
  ABCIQueryWithOptions (rpcClient cc) ctx "/cosmos.tx.v1beta1.Service/Simulate"
    simulation = Ok res ->
  SimulateResponse_Unmarshal (txConfig cc) (RespValue (Response res)) = Ok simRes ->
  SimGasInfo simRes = Some gasInfo ->
  0 <= GasUsed gasInfo < 2 ^ 64 ->
  ((exists s, gasAdjustment txf = S754_zero s) \/
   (GasUsed gasInfo = 0 /\
    exists s m e, gasAdjustment txf = S754_finite s m e)) ->
  calculateGas cc ctx txf msgs = (0, None).
Proof.
  intros Hsim Hrpc Hdec Hgas Hrange Hzero.
  rewrite (submit_proofs.calculateGas_with_gas_info cc _ _ _ _ _ _ _
             Hsim Hrpc Hdec Hgas).
  f_equal. unfold gasNeeded.
  pose proof (float64_of_uint64_finite (GasUsed gasInfo) Hrange) as Hfin.
  destruct Hzero as [[s Hadj]|[Hused [s [m [e Hadj]]]]]; rewrite Hadj.
  - apply float64_mul_zero; [exact I | |].
    + destruct (float64_of_uint64 (GasUsed gasInfo)) as [| | |[]]; tauto.
    + exact I.
  - rewrite Hused. reflexivity.
Qed.

End Sender.

Import sender_fixtures.

Lemma calculateGas_zero_witness :
  let cc := sender BroadcastTxSync (sim_gas_3 0) accepted true in
  let txf := WithGasAdjustment (txf_of cc) (S754_zero false) in
  let res := {| Response := sim_gas_3 0 |} in
  let simRes := {| SimGasInfo := Some {| GasWanted := 0; GasUsed := 3 |} |} in
  buildSimulationTx cc txf [proof_msg] = (Some [Byte.x0a; Byte.x01], None) /\
  ABCIQueryWithOptions (rpcClient cc) Background simulate_path
    (Some [Byte.x0a; Byte.x01]) = Ok res /\
  SimulateResponse_Unmarshal (txConfig cc) (RespValue (Response res)) = Ok simRes /\
  0 <= 3 < 2 ^ 64 /\
  (exists s, gasAdjustment txf = S754_zero s) /\
  calculateGas cc Background txf [proof_msg] = (0, None).
Proof.
  cbv zeta.
  split; [vm_compute; reflexivity |].
  split; [vm_compute; reflexivity |].
  split; [vm_compute; reflexivity |].
  split; [split; [discriminate | reflexivity] |].
  split; [exists false; reflexivity |].
  apply (calculateGas_zero
           (sender BroadcastTxSync (sim_gas_3 0) accepted true) Background
           (WithGasAdjustment
              (txf_of (sender BroadcastTxSync (sim_gas_3 0) accepted true))
              (S754_zero false))
           [proof_msg] (Some [Byte.x0a; Byte.x01])
           {| Response := sim_gas_3 0 |}
           {| SimGasInfo := Some {| GasWanted := 0; GasUsed := 3 |} |}
           {| GasWanted := 0; GasUsed := 3 |});
    try (vm_compute; reflexivity).
  - split; [discriminate | reflexivity].
  - left. exists false. reflexivity.
Defined.

End gas_extra.
